(** * APPA multimeter driver: transport framing, command codec, display
      semantics and storage paging

    A shallow embedding of the protocol engine of the appa-dmm driver:
    - [Sr]       the libsigrok return codes the code compares against;
    - [TpAppa]   tp/appa.c: checksum, packet sender and the receive framer;
    - [AppaDmm]  hardware/appa-dmm/protocol.c and packet.h: the frame
                 catalog, the Read Display / Read Memory decoders, the
                 storage request encoder and the display interpreter;
    - [Ieee]     rounding to the nearest [float] and [double];
    - [Legacy]   the earlier framer [appadmm_receive], which keeps its
                 receive buffer in the device context;
    - [Spec]     the wire format, the payload layout and the scaling
                 tables in the words of the specification;
    - [Framing], [Text], [Flags], [Vectors]  notions and concrete inputs
                 used below.
    The properties follow in [CatalogFacts], [CodecFacts], [MemoryFacts],
    [StorageFacts], [IeeeFacts], [DisplayFacts], [FramerFacts],
    [TransportFacts], [LegacyFacts], [DriverFacts], [PagingFacts] and
    [LegacyCodecFacts].

    Bytes and C integers are modelled as [Z]; every narrowing store is
    written out with [u8]/[u16].  C arrays are lists read with [rd] and
    updated with stdpp's list insert.  A finite [float] or [double] is
    modelled as the rational it denotes, every conversion and operation
    rounded to the nearest value of its format ([Ieee]), with a separate
    infinity. *)

From Stdlib Require Import ZArith List Lia Bool QArith Qabs Qpower Qfield Lqa.
From stdpp Require Import base list.
Import ListNotations.

Local Open Scope Z_scope.

(** ** Machine integers and arrays *)

Definition u8 (z : Z) : Z := z mod 256.
Definition u16 (z : Z) : Z := z mod 65536.

Definition is_u8 (z : Z) : Prop := 0 <= z < 256.

(** [a[i]] for a C array of bytes; every read the code performs is in
    range, the default only makes the function total. *)
Definition rd (a : list Z) (i : Z) : Z := default 0 (a !! Z.to_nat i).

(** [a[i] = v]. *)
Definition wr (a : list Z) (i : Z) (v : Z) : list Z := <[Z.to_nat i := v]> a.

(** ** libsigrok return codes *)

Module Sr.

(** Modelled from the spec: the [SR_OK]/[SR_ERR_...] codes are declared
    in the public libsigrok header, not in the driver sources; they are
    the error classes of the specification (argument, bug, data, I/O).
    The code relies on [SR_OK] being zero and on every error code being
    negative; the values are those of the header. *)
Definition SR_OK : Z := 0.
Definition SR_ERR_ARG : Z := -3.
Definition SR_ERR_BUG : Z := -4.
Definition SR_ERR_NA : Z := -6.
Definition SR_ERR_DATA : Z := -10.
Definition SR_ERR_IO : Z := -11.

Definition TRUE : Z := 1.
Definition FALSE : Z := 0.

End Sr.

(** ** tp/appa.c: the APPA transport protocol *)

Module TpAppa.
Import Sr.

Definition SR_TP_APPA_MAX_DATA_SIZE : Z := 64.
Definition SR_TP_APPA_HEADER_SIZE : Z := 4.
Definition SR_TP_APPA_MAX_PAYLOAD_SIZE : Z := 68.
Definition SR_TP_APPA_MAX_FRAME_SIZE : Z := 69.
Definition SR_TP_APPA_START_BYTE : Z := 0x55.

(** Modelled from the spec: tp/appa.c uses [SR_TP_APPA_MAX_PACKET_SIZE],
    which tp/appa.h does not declare; the absolute maximum frame size is
    69 bytes (64 payload + 4 header + 1 checksum), the value the header
    gives to [SR_TP_APPA_MAX_FRAME_SIZE]. *)
Definition SR_TP_APPA_MAX_PACKET_SIZE : Z := 69.

Record sr_tp_appa_inst := mk_inst {
  buffer : list Z;        (* uint8_t buffer[SR_TP_APPA_MAX_FRAME_SIZE] *)
  buffer_size : Z         (* uint8_t buffer_size *)
}.

Record sr_tp_appa_packet := mk_packet {
  command : Z;            (* uint8_t *)
  length : Z;             (* uint8_t *)
  data : list Z           (* uint8_t data[SR_TP_APPA_MAX_DATA_SIZE] *)
}.

(** The bytes of a packet that its [length] field declares. *)
Definition payload (p : sr_tp_appa_packet) : list Z :=
  take (Z.to_nat (length p)) (data p).

(** [while (arg_size-- > 0) checksum += arg_data[arg_size];] *)
Fixpoint checksum_loop (arg_data : list Z) (arg_size : nat) (checksum : Z) : Z :=
  match arg_size with
  | O => checksum
  | S n => checksum_loop arg_data n (u8 (checksum + rd arg_data (Z.of_nat n)))
  end.

Definition sr_tp_appa_checksum (arg_data : list Z) (arg_size : Z) : Z :=
  checksum_loop arg_data (Z.to_nat (u8 arg_size)) 0.

Definition sr_tp_appa_buffer_reset (arg_tpai : sr_tp_appa_inst) : sr_tp_appa_inst :=
  {| buffer_size := 0;
     buffer := wr (wr (wr (wr (buffer arg_tpai) 0 0) 1 0) 2 0) 3 0 |}.

(** A freshly initialised instance: [sr_tp_appa_init] resets the buffer. *)
Definition inst0 : sr_tp_appa_inst :=
  sr_tp_appa_buffer_reset {| buffer := replicate 69 0; buffer_size := 0 |}.

Definition packet0 : sr_tp_appa_packet :=
  {| command := 0; length := 0; data := replicate 64 0 |}.

(** [sr_tp_appa_init]: [None] is a NULL instance pointer, [arg_serial]
    tells whether the serial handle is non-NULL.  The handle stored in
    the instance plays no part in what follows and is left out of the
    record. *)
Definition sr_tp_appa_init (arg_tpai : option sr_tp_appa_inst)
    (arg_serial : bool) : option sr_tp_appa_inst * Z :=
  match arg_tpai with
  | None => (None, SR_ERR_BUG)
  | Some t =>
    if negb arg_serial then (Some t, SR_ERR_BUG)
    else
      (* sr_tp_appa_buffer_reset returns SR_OK for a non-NULL instance *)
      let t := sr_tp_appa_buffer_reset t in
      (Some t, SR_ERR_BUG)
  end.

(** *** Receiving *)

(** What one iteration of the [for] loop of [sr_tp_appa_receive] does. *)
Inductive loop_ctl :=
| Continue (tpai : sr_tp_appa_inst)
| Break (tpai : sr_tp_appa_inst) (r_packet : sr_tp_appa_packet) (retr : Z)
| Return (tpai : sr_tp_appa_inst) (code : Z).

(** The "validate header" chain: [Some t] when the byte is dropped
    ([continue], with the possibly reset instance), [None] when it is to
    be stored. *)
Definition validate_header (arg_tpai : sr_tp_appa_inst) (b : Z)
  : option sr_tp_appa_inst :=
  if buffer_size arg_tpai <? 1 then
    if negb (b =? SR_TP_APPA_START_BYTE) then Some arg_tpai else None
  else if buffer_size arg_tpai <? 2 then
    if negb (b =? SR_TP_APPA_START_BYTE)
    then Some (sr_tp_appa_buffer_reset arg_tpai) else None
  else if buffer_size arg_tpai <? 4 then
    if b >? SR_TP_APPA_MAX_DATA_SIZE
    then Some (sr_tp_appa_buffer_reset arg_tpai) else None
  else None.

(** [memcpy(dst, src + off, n)] on byte arrays. *)
Definition memcpy (dst src : list Z) (off n : Z) : list Z :=
  take (Z.to_nat n) (drop (Z.to_nat off) src) ++ drop (Z.to_nat n) dst.

Definition receive_byte (arg_tpai : sr_tp_appa_inst)
    (arg_r_packet : sr_tp_appa_packet) (b : Z) : loop_ctl :=
  match validate_header arg_tpai b with
  | Some t => Continue t
  | None =>
    (* add data to buffer *)
    let t := {| buffer := wr (buffer arg_tpai) (buffer_size arg_tpai) b;
                buffer_size := u8 (buffer_size arg_tpai + 1) |} in
    (* process data *)
    if (buffer_size t >? 4)
       && (rd (buffer t) 3 + SR_TP_APPA_HEADER_SIZE + 1 =? buffer_size t)
    then
      (* packet complete: validate checksum *)
      if sr_tp_appa_checksum (buffer t) (rd (buffer t) 3)
         =? rd (buffer t) (buffer_size t - 1)
      then
        Break t
          {| command := rd (buffer t) 2;
             length := rd (buffer t) 3;
             data := memcpy (data arg_r_packet) (buffer t) 4 (rd (buffer t) 3) |}
          TRUE
      else Break t arg_r_packet SR_ERR_IO
    else if buffer_size t >? SR_TP_APPA_MAX_PACKET_SIZE then
      (* catch impossible situations, abort *)
      Return (sr_tp_appa_buffer_reset t) SR_ERR_BUG
    else Continue t
  end.

(** How the [for] loop is left: past its end or through [break]
    ([Left]), or through the [return] inside it ([Returned]). *)
Inductive loop_end :=
| Left (tpai : sr_tp_appa_inst) (r_packet : sr_tp_appa_packet) (retr : Z)
| Returned (tpai : sr_tp_appa_inst) (code : Z).

(** The [for (xloop = 0; xloop < len; xloop++)] loop over the bytes read. *)
Fixpoint receive_loop (bytes : list Z) (arg_tpai : sr_tp_appa_inst)
    (arg_r_packet : sr_tp_appa_packet) (retr : Z) : loop_end :=
  match bytes with
  | [] => Left arg_tpai arg_r_packet retr
  | b :: rest =>
    match receive_byte arg_tpai arg_r_packet b with
    | Continue t => receive_loop rest t arg_r_packet retr
    | Break t p r => Left t p r
    | Return t code => Returned t code
    end
  end.

(** The outcome of one [serial_read_nonblocking] call: a negative error
    code, or the bytes (at most [sizeof buf]) it stored in [buf]. *)
Inductive serial_read :=
| ReadError (code : Z)
| ReadBytes (bytes : list Z).

(** [sr_tp_appa_receive]: the instance and the caller's packet are
    threaded through; the third component is the return value. *)
Definition sr_tp_appa_receive (arg_tpai : sr_tp_appa_inst)
    (arg_r_packet : sr_tp_appa_packet) (rx : serial_read)
  : sr_tp_appa_inst * sr_tp_appa_packet * Z :=
  match rx with
  | ReadError len => (arg_tpai, arg_r_packet, len)
  | ReadBytes bytes =>
    match receive_loop bytes arg_tpai arg_r_packet FALSE with
    | Returned t code => (t, arg_r_packet, code)
    | Left t p retr =>
      (* for now, just silently forget about the rest of the data. *)
      (sr_tp_appa_buffer_reset t, p, retr)
    end
  end.

(** One receive call per chunk of bytes, each chunk being what one
    non-blocking read returned; every call gets a fresh response packet,
    as in the callers.  The packets of the calls that returned [TRUE]
    are collected in order. *)
Fixpoint receive_calls (arg_tpai : sr_tp_appa_inst) (chunks : list (list Z))
  : list sr_tp_appa_packet * sr_tp_appa_inst :=
  match chunks with
  | [] => ([], arg_tpai)
  | c :: rest =>
    let '(t, p, retr) := sr_tp_appa_receive arg_tpai packet0 (ReadBytes c) in
    let '(ps, t') := receive_calls t rest in
    (if retr =? TRUE then p :: ps else ps, t')
  end.

(** *** Sending *)

(** Modelled from the spec: [serial_write_nonblocking] belongs to the
    serial layer, an external collaborator; a write of [n] bytes is taken
    to put all of them on the line and to return [n]. *)
Definition serial_write_nonblocking (line : list Z) (bytes : list Z) (n : Z)
  : list Z * Z :=
  (line ++ take (Z.to_nat n) bytes, n).

(** [sr_tp_appa_send]: [stack] is the content of the local array
    [header] on entry (4 indeterminate bytes), [line] the bytes already
    on the serial line.  The store to [header[4]] lies outside the
    4-byte array: it is undefined in C, and is taken here to leave
    [header[3]], the packet and the line as they were, which is what
    every statement about the sender below assumes.  For a length of 65
    to 68 the code also reads past the 64 bytes of [data]; the model
    sends the 64 bytes there are, and the statements below are made for
    lengths up to 64 only. *)
Definition sr_tp_appa_send (stack : list Z) (line : list Z)
    (arg_s_packet : sr_tp_appa_packet) : list Z * Z :=
  if length arg_s_packet >? SR_TP_APPA_MAX_PAYLOAD_SIZE then (line, SR_ERR_DATA)
  else
    (* encode packet header *)
    let header := wr (wr (wr stack 0 SR_TP_APPA_START_BYTE)
                             1 SR_TP_APPA_START_BYTE)
                             2 (command arg_s_packet) in
    let header := wr header 4 (length arg_s_packet) in
    (* calculate checksum *)
    let checksum :=
      u8 (sr_tp_appa_checksum header SR_TP_APPA_HEADER_SIZE
          + sr_tp_appa_checksum (data arg_s_packet) (length arg_s_packet)) in
    (* transmit packet *)
    let '(line, retr) :=
      serial_write_nonblocking line header SR_TP_APPA_HEADER_SIZE in
    if negb (retr =? SR_TP_APPA_HEADER_SIZE) then (line, SR_ERR_IO) else
    let '(line, retr) :=
      serial_write_nonblocking line (data arg_s_packet) (length arg_s_packet) in
    if negb (retr =? length arg_s_packet) then (line, SR_ERR_IO) else
    let '(line, retr) := serial_write_nonblocking line [checksum] 1 in
    if negb (retr =? 1) then (line, SR_ERR_IO) else
    (line, SR_OK).

(** *** Sending and waiting for the response *)

Definition SR_TP_APPA_RECEIVE_TIMEOUT : Z := 500.

(** [while (sr_cycles-- > 0) { retr = sr_tp_appa_receive(...);
    if (retr < SR_OK || retr == TRUE) break; }].  [reads] holds the
    outcomes of the successive [serial_read_nonblocking] calls; when it
    is used up, a read returns no bytes. *)
Fixpoint receive_cycles (sr_cycles : nat) (arg_tpai : sr_tp_appa_inst)
    (arg_r_packet : sr_tp_appa_packet) (reads : list serial_read) (retr : Z)
  : sr_tp_appa_inst * sr_tp_appa_packet * list serial_read * Z :=
  match sr_cycles with
  | O => (arg_tpai, arg_r_packet, reads, retr)
  | S n =>
    let '(t, p, r) :=
      sr_tp_appa_receive arg_tpai arg_r_packet (hd (ReadBytes []) reads) in
    if (r <? SR_OK) || (r =? TRUE) then (t, p, tl reads, r)
    else receive_cycles n t p (tl reads) r
  end.

(** [sr_tp_appa_send_receive]: the bytes on the line, the instance, the
    response packet, the reads not yet made and the return value. *)
Definition sr_tp_appa_send_receive (stack : list Z) (line : list Z)
    (arg_tpai : sr_tp_appa_inst) (arg_s_packet arg_r_packet : sr_tp_appa_packet)
    (reads : list serial_read)
  : list Z * sr_tp_appa_inst * sr_tp_appa_packet * list serial_read * Z :=
  let '(line, retr) := sr_tp_appa_send stack line arg_s_packet in
  if retr <? SR_OK then (line, arg_tpai, arg_r_packet, reads, retr)
  else
    let '(t, p, rest, r) :=
      receive_cycles (Z.to_nat (SR_TP_APPA_RECEIVE_TIMEOUT ÷ 50))
        arg_tpai arg_r_packet reads retr in
    (line, t, p, rest, r).

End TpAppa.

(** ** Floating point

    The interpreter computes in [double] and emits a [float].  With IEEE
    754 binary64 and binary32, rounding to nearest with ties to even, and
    every [double] expression evaluated in [double] (no excess
    precision; the C standard leaves this to the platform), a finite
    value is the rational it denotes and an operation is the exact
    operation followed by [round_to].  The exponent range is not
    modelled: the interpreter's values are a 32-bit reading times a
    factor between 1e-13 and 1e9, far inside the normal range of both
    formats. *)

Module Ieee.

(** The integer nearest to [x], the even one of two equally near. *)
Definition nearest_even (x : Q) : Z :=
  let n := Qnum x in
  let d := Zpos (Qden x) in
  let fl := n / d in
  let r := n mod d in
  if 2 * r <? d then fl
  else if d <? 2 * r then fl + 1
  else if Z.even fl then fl else fl + 1.

Definition two : Q := inject_Z 2.

(** The exponent [e] with [2 ^ e <= x < 2 ^ (e + 1)], for positive [x]. *)
Definition binade (x : Q) : Z :=
  let k := Z.log2 (Qnum x) - Z.log2 (Zpos (Qden x)) in
  if Qle_bool (Qpower two k) x then k else k - 1.

(** [q] rounded to [prec] significant bits: the nearest multiple of the
    unit in the last place of its binade. *)
Definition round_to (prec : Z) (q : Q) : Q :=
  if Qnum q =? 0 then 0%Q
  else
    let x := Qabs q in
    let ulp := Qpower two (binade x - prec + 1) in
    let v := Qred (inject_Z (nearest_even (x / ulp)) * ulp) in
    if Qnum q <? 0 then Qopp v else v.

Definition to_double : Q -> Q := round_to 53.
Definition to_float : Q -> Q := round_to 24.

(** Half a unit in the last place of 1. *)
Definition unit_roundoff (prec : Z) : Q := Qpower two (- prec).

(** [v] is [x] up to the relative error [eps]. *)
Definition within (eps v x : Q) : Prop := (Qabs (v - x) <= eps * Qabs x)%Q.

End Ieee.

(** ** hardware/appa-dmm: frame catalog, command codec, display semantics *)

Module AppaDmm.
Import Sr Ieee.

(** *** Constants of protocol.h *)

Definition APPADMM_FRAME_DATA_SIZE_RESPONSE_READ_INFORMATION : Z := 52.
Definition APPADMM_FRAME_DATA_SIZE_RESPONSE_READ_DISPLAY : Z := 12.
Definition APPADMM_FRAME_DATA_SIZE_RESPONSE_READ_PROTOCOL_VERSION : Z := 4.
Definition APPADMM_FRAME_DATA_SIZE_RESPONSE_READ_BATTERY_LIFE : Z := 4.
Definition APPADMM_FRAME_DATA_SIZE_RESPONSE_CAL_READING : Z := 23.
Definition APPADMM_FRAME_DATA_SIZE_RESPONSE_READ_MEMORY : Z := 64. (* variable (max) *)
Definition APPADMM_FRAME_DATA_SIZE_RESPONSE_READ_HARMONICS_DATA : Z := 50.
Definition APPADMM_FRAME_DATA_SIZE_RESPONSE_FAILURE : Z := 1.
Definition APPADMM_FRAME_DATA_SIZE_RESPONSE_SUCCESS : Z := 0.

Definition APPADMM_WORDCODE_TABLE_MIN : Z := 0x700000.

(** enum appadmm_command_e *)
Definition APPADMM_COMMAND_READ_INFORMATION : Z := 0x00.
Definition APPADMM_COMMAND_READ_DISPLAY : Z := 0x01.
Definition APPADMM_COMMAND_READ_PROTOCOL_VERSION : Z := 0x03.
Definition APPADMM_COMMAND_READ_BATTERY_LIFE : Z := 0x04.
Definition APPADMM_COMMAND_WRITE_UART_CONFIGURATION : Z := 0x05.
Definition APPADMM_COMMAND_CAL_READING : Z := 0x10.
Definition APPADMM_COMMAND_READ_MEMORY : Z := 0x1a.
Definition APPADMM_COMMAND_READ_HARMONICS_DATA : Z := 0x1b.
Definition APPADMM_COMMAND_FAILURE : Z := 0x70.
Definition APPADMM_COMMAND_SUCCESS : Z := 0x7f.
Definition APPADMM_COMMAND_CAL_ENTER : Z := 0x80.
Definition APPADMM_COMMAND_CAL_WRITE_FUNCTION_CODE : Z := 0x85.
Definition APPADMM_COMMAND_CAL_WRITE_RANGE_CODE : Z := 0x87.
Definition APPADMM_COMMAND_CAL_WRITE_MEMORY : Z := 0x8a.
Definition APPADMM_COMMAND_CAL_EXIT : Z := 0x8f.
Definition APPADMM_COMMAND_OTA_ENTER : Z := 0xa0.
Definition APPADMM_COMMAND_OTA_SEND_INFORMATION : Z := 0xa1.
Definition APPADMM_COMMAND_OTA_SEND_FIRMWARE_PACKAGE : Z := 0xa2.
Definition APPADMM_COMMAND_OTA_START_UPGRADE_PROCEDURE : Z := 0xa3.

(** enum appadmm_wordcode_e, the enumerators the code names *)
Definition APPADMM_WORDCODE_SPACE : Z := 0x700000.
Definition APPADMM_WORDCODE_HAZ : Z := 0x700005.
Definition APPADMM_WORDCODE_FUSE : Z := 0x70000c.
Definition APPADMM_WORDCODE_PROBE : Z := 0x70000d.
Definition APPADMM_WORDCODE_DEF : Z := 0x70000e.
Definition APPADMM_WORDCODE_ER : Z := 0x700010.
Definition APPADMM_WORDCODE_ER1 : Z := 0x700011.
Definition APPADMM_WORDCODE_ER2 : Z := 0x700012.
Definition APPADMM_WORDCODE_ER3 : Z := 0x700013.
Definition APPADMM_WORDCODE_DASH : Z := 0x700014.
Definition APPADMM_WORDCODE_DASH1 : Z := 0x700015.
Definition APPADMM_WORDCODE_DASH2 : Z := 0x700017.
Definition APPADMM_WORDCODE_BATT : Z := 0x700018.

(** enum appadmm_unit_e *)
Definition APPADMM_UNIT_NONE : Z := 0x00.
Definition APPADMM_UNIT_V : Z := 0x01.
Definition APPADMM_UNIT_MV : Z := 0x02.
Definition APPADMM_UNIT_A : Z := 0x03.
Definition APPADMM_UNIT_MA : Z := 0x04.
Definition APPADMM_UNIT_DB : Z := 0x05.
Definition APPADMM_UNIT_DBM : Z := 0x06.
Definition APPADMM_UNIT_MF : Z := 0x07.
Definition APPADMM_UNIT_UF : Z := 0x08.
Definition APPADMM_UNIT_NF : Z := 0x09.
Definition APPADMM_UNIT_GOHM : Z := 0x0a.
Definition APPADMM_UNIT_MOHM : Z := 0x0b.
Definition APPADMM_UNIT_KOHM : Z := 0x0c.
Definition APPADMM_UNIT_OHM : Z := 0x0d.
Definition APPADMM_UNIT_PERCENT : Z := 0x0e.
Definition APPADMM_UNIT_MHZ : Z := 0x0f.
Definition APPADMM_UNIT_KHZ : Z := 0x10.
Definition APPADMM_UNIT_HZ : Z := 0x11.
Definition APPADMM_UNIT_DEGC : Z := 0x12.
Definition APPADMM_UNIT_DEGF : Z := 0x13.
Definition APPADMM_UNIT_SEC : Z := 0x14.
Definition APPADMM_UNIT_MS : Z := 0x15.
Definition APPADMM_UNIT_US : Z := 0x16.
Definition APPADMM_UNIT_NS : Z := 0x17.
Definition APPADMM_UNIT_UA : Z := 0x18.
Definition APPADMM_UNIT_MIN : Z := 0x19.
Definition APPADMM_UNIT_KW : Z := 0x1a.
Definition APPADMM_UNIT_PF : Z := 0x1b.

(** enum appadmm_dot_e *)
Definition APPADMM_DOT_NONE : Z := 0x00.
Definition APPADMM_DOT_9999_9 : Z := 0x01.
Definition APPADMM_DOT_999_99 : Z := 0x02.
Definition APPADMM_DOT_99_999 : Z := 0x03.
Definition APPADMM_DOT_9_9999 : Z := 0x04.

Definition APPADMM_AUTO_RANGE : Z := 0x01.
Definition APPADMM_OVERLOAD : Z := 0x01.

(** enum appadmm_data_content_e *)
Definition APPADMM_DATA_CONTENT_MEASURING_DATA : Z := 0x00.
Definition APPADMM_DATA_CONTENT_FREQUENCY : Z := 0x01.
Definition APPADMM_DATA_CONTENT_CYCLE : Z := 0x02.
Definition APPADMM_DATA_CONTENT_DUTY : Z := 0x03.
Definition APPADMM_DATA_CONTENT_MEMORY_STAMP : Z := 0x04.
Definition APPADMM_DATA_CONTENT_MEMORY_SAVE : Z := 0x05.
Definition APPADMM_DATA_CONTENT_MEMORY_LOAD : Z := 0x06.
Definition APPADMM_DATA_CONTENT_LOG_SAVE : Z := 0x07.
Definition APPADMM_DATA_CONTENT_LOG_LOAD : Z := 0x08.
Definition APPADMM_DATA_CONTENT_LOG_RATE : Z := 0x09.
Definition APPADMM_DATA_CONTENT_REL_DELTA : Z := 0x0a.
Definition APPADMM_DATA_CONTENT_REL_PERCENT : Z := 0x0b.
Definition APPADMM_DATA_CONTENT_REL_REFERENCE : Z := 0x0c.
Definition APPADMM_DATA_CONTENT_MAXIMUM : Z := 0x0d.
Definition APPADMM_DATA_CONTENT_MINIMUM : Z := 0x0e.
Definition APPADMM_DATA_CONTENT_AVERAGE : Z := 0x0f.
Definition APPADMM_DATA_CONTENT_PEAK_HOLD_MAX : Z := 0x10.
Definition APPADMM_DATA_CONTENT_PEAK_HOLD_MIN : Z := 0x11.
Definition APPADMM_DATA_CONTENT_DBM : Z := 0x12.
Definition APPADMM_DATA_CONTENT_DB : Z := 0x13.
Definition APPADMM_DATA_CONTENT_AUTO_HOLD : Z := 0x14.
Definition APPADMM_DATA_CONTENT_SETUP : Z := 0x15.
Definition APPADMM_DATA_CONTENT_LOG_STAMP : Z := 0x16.
Definition APPADMM_DATA_CONTENT_LOG_MAX : Z := 0x17.
Definition APPADMM_DATA_CONTENT_LOG_MIN : Z := 0x18.
Definition APPADMM_DATA_CONTENT_LOG_TP : Z := 0x19.
Definition APPADMM_DATA_CONTENT_HOLD : Z := 0x1a.
Definition APPADMM_DATA_CONTENT_CURRENT_OUTPUT : Z := 0x1b.
Definition APPADMM_DATA_CONTENT_CUR_OUT_0_20MA_PERCENT : Z := 0x1c.
Definition APPADMM_DATA_CONTENT_CUR_OUT_4_20MA_PERCENT : Z := 0x1d.

(** enum appadmm_functioncode_e *)
Definition APPADMM_FUNCTIONCODE_NONE : Z := 0x00.
Definition APPADMM_FUNCTIONCODE_AC_V : Z := 0x01.
Definition APPADMM_FUNCTIONCODE_DC_V : Z := 0x02.
Definition APPADMM_FUNCTIONCODE_AC_MV : Z := 0x03.
Definition APPADMM_FUNCTIONCODE_DC_MV : Z := 0x04.
Definition APPADMM_FUNCTIONCODE_OHM : Z := 0x05.
Definition APPADMM_FUNCTIONCODE_CONTINUITY : Z := 0x06.
Definition APPADMM_FUNCTIONCODE_DIODE : Z := 0x07.
Definition APPADMM_FUNCTIONCODE_CAP : Z := 0x08.
Definition APPADMM_FUNCTIONCODE_AC_A : Z := 0x09.
Definition APPADMM_FUNCTIONCODE_DC_A : Z := 0x0a.
Definition APPADMM_FUNCTIONCODE_AC_MA : Z := 0x0b.
Definition APPADMM_FUNCTIONCODE_DC_MA : Z := 0x0c.
Definition APPADMM_FUNCTIONCODE_DEGC : Z := 0x0d.
Definition APPADMM_FUNCTIONCODE_DEGF : Z := 0x0e.
Definition APPADMM_FUNCTIONCODE_FREQUENCY : Z := 0x0f.
Definition APPADMM_FUNCTIONCODE_DUTY : Z := 0x10.
Definition APPADMM_FUNCTIONCODE_HZ_V : Z := 0x11.
Definition APPADMM_FUNCTIONCODE_HZ_MV : Z := 0x12.
Definition APPADMM_FUNCTIONCODE_HZ_A : Z := 0x13.
Definition APPADMM_FUNCTIONCODE_HZ_MA : Z := 0x14.
Definition APPADMM_FUNCTIONCODE_AC_DC_V : Z := 0x15.
Definition APPADMM_FUNCTIONCODE_AC_DC_MV : Z := 0x16.
Definition APPADMM_FUNCTIONCODE_AC_DC_A : Z := 0x17.
Definition APPADMM_FUNCTIONCODE_AC_DC_MA : Z := 0x18.
Definition APPADMM_FUNCTIONCODE_LPF_V : Z := 0x19.
Definition APPADMM_FUNCTIONCODE_LPF_MV : Z := 0x1a.
Definition APPADMM_FUNCTIONCODE_LPF_A : Z := 0x1b.
Definition APPADMM_FUNCTIONCODE_LPF_MA : Z := 0x1c.
Definition APPADMM_FUNCTIONCODE_AC_UA : Z := 0x1d.
Definition APPADMM_FUNCTIONCODE_DC_UA : Z := 0x1e.
Definition APPADMM_FUNCTIONCODE_DC_A_OUT : Z := 0x1f.
Definition APPADMM_FUNCTIONCODE_DC_A_OUT_SLOW_LINEAR : Z := 0x20.
Definition APPADMM_FUNCTIONCODE_DC_A_OUT_FAST_LINEAR : Z := 0x21.
Definition APPADMM_FUNCTIONCODE_DC_A_OUT_SLOW_STEP : Z := 0x22.
Definition APPADMM_FUNCTIONCODE_DC_A_OUT_FAST_STEP : Z := 0x23.
Definition APPADMM_FUNCTIONCODE_LOOP_POWER : Z := 0x24.
Definition APPADMM_FUNCTIONCODE_250OHM_HART : Z := 0x25.
Definition APPADMM_FUNCTIONCODE_VOLT_SENSE : Z := 0x26.
Definition APPADMM_FUNCTIONCODE_PEAK_HOLD_V : Z := 0x27.
Definition APPADMM_FUNCTIONCODE_PEAK_HOLD_MV : Z := 0x28.
Definition APPADMM_FUNCTIONCODE_PEAK_HOLD_A : Z := 0x29.
Definition APPADMM_FUNCTIONCODE_PEAK_HOLD_MA : Z := 0x2a.
Definition APPADMM_FUNCTIONCODE_LOZ_AC_V : Z := 0x2b.
Definition APPADMM_FUNCTIONCODE_LOZ_DC_V : Z := 0x2c.
Definition APPADMM_FUNCTIONCODE_LOZ_AC_DC_V : Z := 0x2d.
Definition APPADMM_FUNCTIONCODE_LOZ_LPF_V : Z := 0x2e.
Definition APPADMM_FUNCTIONCODE_LOZ_HZ_V : Z := 0x2f.
Definition APPADMM_FUNCTIONCODE_LOZ_PEAK_HOLD_V : Z := 0x30.
Definition APPADMM_FUNCTIONCODE_BATTERY : Z := 0x31.
Definition APPADMM_FUNCTIONCODE_AC_W : Z := 0x32.
Definition APPADMM_FUNCTIONCODE_DC_W : Z := 0x33.
Definition APPADMM_FUNCTIONCODE_PF : Z := 0x34.
Definition APPADMM_FUNCTIONCODE_FLEX_AC_A : Z := 0x35.
Definition APPADMM_FUNCTIONCODE_FLEX_LPF_A : Z := 0x36.
Definition APPADMM_FUNCTIONCODE_FLEX_PEAK_HOLD_A : Z := 0x37.
Definition APPADMM_FUNCTIONCODE_FLEX_HZ_A : Z := 0x38.
Definition APPADMM_FUNCTIONCODE_V_HARM : Z := 0x39.
Definition APPADMM_FUNCTIONCODE_INRUSH : Z := 0x3a.
Definition APPADMM_FUNCTIONCODE_A_HARM : Z := 0x3b.
Definition APPADMM_FUNCTIONCODE_FLEX_INRUSH : Z := 0x3c.
Definition APPADMM_FUNCTIONCODE_FLEX_A_HARM : Z := 0x3d.
Definition APPADMM_FUNCTIONCODE_PEAK_HOLD_UA : Z := 0x3e.
Definition APPADMM_FUNCTIONCODE_AC_UA_HFR : Z := 0x3F.
Definition APPADMM_FUNCTIONCODE_AC_V_HFR : Z := 0x40.
Definition APPADMM_FUNCTIONCODE_AC_MV_HFR : Z := 0x41.
Definition APPADMM_FUNCTIONCODE_AC_A_HFR : Z := 0x42.
Definition APPADMM_FUNCTIONCODE_AC_MA_HFR : Z := 0x43.
Definition APPADMM_FUNCTIONCODE_AC_UA_HFR2 : Z := 0x44.
Definition APPADMM_FUNCTIONCODE_DC_V_PV : Z := 0x45.
Definition APPADMM_FUNCTIONCODE_AC_V_PV : Z := 0x46.
Definition APPADMM_FUNCTIONCODE_AC_V_PV_HFR : Z := 0x47.
Definition APPADMM_FUNCTIONCODE_AC_DC_V_PV : Z := 0x48.

(** *** Frame catalog *)

(** [switch (arg_command)] by first matching label. *)
Definition appadmm_get_response_size (arg_command : Z) : Z :=
  if arg_command =? APPADMM_COMMAND_READ_INFORMATION
  then APPADMM_FRAME_DATA_SIZE_RESPONSE_READ_INFORMATION
  else if arg_command =? APPADMM_COMMAND_READ_DISPLAY
  then APPADMM_FRAME_DATA_SIZE_RESPONSE_READ_DISPLAY
  else if arg_command =? APPADMM_COMMAND_READ_PROTOCOL_VERSION
  then APPADMM_FRAME_DATA_SIZE_RESPONSE_READ_PROTOCOL_VERSION
  else if arg_command =? APPADMM_COMMAND_READ_BATTERY_LIFE
  then APPADMM_FRAME_DATA_SIZE_RESPONSE_READ_BATTERY_LIFE
  else if arg_command =? APPADMM_COMMAND_CAL_READING
  then APPADMM_FRAME_DATA_SIZE_RESPONSE_CAL_READING
  else if arg_command =? APPADMM_COMMAND_READ_MEMORY
  then APPADMM_FRAME_DATA_SIZE_RESPONSE_READ_MEMORY
  else if arg_command =? APPADMM_COMMAND_READ_HARMONICS_DATA
  then APPADMM_FRAME_DATA_SIZE_RESPONSE_READ_HARMONICS_DATA
  else if arg_command =? APPADMM_COMMAND_FAILURE
  then APPADMM_FRAME_DATA_SIZE_RESPONSE_FAILURE
  else if arg_command =? APPADMM_COMMAND_SUCCESS
  then APPADMM_FRAME_DATA_SIZE_RESPONSE_SUCCESS
  else
    (* WRITE_UART_CONFIGURATION, CAL_..., OTA_... and the safe default *)
    SR_ERR_DATA.

Definition appadmm_is_response_size_valid (arg_command : Z) (arg_size : Z) : Z :=
  let size := appadmm_get_response_size arg_command in
  if size <? SR_OK then size
  else if (arg_command =? APPADMM_COMMAND_READ_MEMORY) && (arg_size <=? size)
  then SR_OK
  else if size =? arg_size then SR_OK
  else SR_ERR_DATA.

(** *** Cursor reads *)

(** A read through [rdptr]: the packet data and the cursor go in, the
    value and the advanced cursor come out. *)
Definition reader (A : Type) : Type := list Z -> Z -> A * Z.

Definition rret {A} (a : A) : reader A := fun _ p => (a, p).
Definition rbind {A B} (m : reader A) (k : A -> reader B) : reader B :=
  fun mem p => let '(a, p') := m mem p in k a mem p'.

Notation "'do' x <- m ; k" := (rbind m (fun x => k))
  (at level 10, x name, m at level 100, k at level 200).

(** Modelled from the spec: [read_u8_inc] is an inline helper of
    libsigrok-internal.h, not of the driver sources; it returns the byte
    under the cursor and advances the cursor by one. *)
Definition read_u8_inc : reader Z :=
  fun mem p => (rd mem p, p + 1).

(** Modelled from the spec: [read_i24le_inc], also of
    libsigrok-internal.h, reads three bytes little-endian, sign-extends
    the value from bit 23 and advances the cursor by three. *)
Definition read_i24le_inc : reader Z :=
  fun mem p =>
    let u := Z.lor (rd mem p)
               (Z.lor (Z.shiftl (rd mem (p + 1)) 8)
                      (Z.shiftl (rd mem (p + 2)) 16)) in
    (if Z.testbit u 23 then u - 2 ^ 24 else u, p + 3).

(** *** Read Display *)

Record appadmm_display_data_s := mk_display_data {
  reading : Z;        (* int32_t *)
  dot : Z;
  unit : Z;
  data_content : Z;
  overload : Z
}.

Record appadmm_response_data_read_display_s := mk_read_display {
  function_code : Z;
  auto_test : Z;
  range_code : Z;     (* uint8_t *)
  auto_range : Z;
  main_display_data : appadmm_display_data_s;
  sub_display_data : appadmm_display_data_s
}.

(** The five bytes of one display: reading, dot and unit, data content
    and overload. *)
Definition read_display_data : reader appadmm_display_data_s :=
  do r <- read_i24le_inc ;
  do du <- read_u8_inc ;
  do co <- read_u8_inc ;
  rret {| reading := r;
          dot := Z.land du 0x7;
          unit := Z.shiftr du 3;
          data_content := Z.land co 0x7f;
          overload := Z.shiftr co 7 |}.

Definition appadmm_dec_read_display (arg_packet : TpAppa.sr_tp_appa_packet)
    (arg_read_display : appadmm_response_data_read_display_s)
  : Z * appadmm_response_data_read_display_s :=
  if negb (TpAppa.command arg_packet =? APPADMM_COMMAND_READ_DISPLAY)
  then (SR_ERR_DATA, arg_read_display)
  else if negb (appadmm_is_response_size_valid APPADMM_COMMAND_READ_DISPLAY
                  (TpAppa.length arg_packet) =? 0)
  then (SR_ERR_DATA, arg_read_display)
  else
    let decode :=
      do fm <- read_u8_inc ;
      do rg <- read_u8_inc ;
      do main <- read_display_data ;
      do sub <- read_display_data ;
      rret {| function_code := Z.land fm 0x7f;
              auto_test := Z.shiftr fm 7;
              range_code := Z.land rg 0x7f;
              auto_range := Z.shiftr rg 7;
              main_display_data := main;
              sub_display_data := sub |} in
    (SR_OK, fst (decode (TpAppa.data arg_packet) 0)).

(** *** Read Memory *)

(** Array accesses with their bounds: an access outside the array is a
    [Fault], so that a result other than [Fault] tells that every access
    stayed inside. *)
Inductive exec (A : Type) :=
| Ok (a : A)
| Fault.
Arguments Ok {A} a.
Arguments Fault {A}.

Definition in_bounds (a : list Z) (i : Z) : bool :=
  (0 <=? i) && (i <? Z.of_nat (List.length a)).

Definition load (a : list Z) (i : Z) : exec Z :=
  if in_bounds a i then Ok (rd a i) else Fault.

Definition store (a : list Z) (i : Z) (v : Z) : exec (list Z) :=
  if in_bounds a i then Ok (wr a i v) else Fault.

Module Rs.
(** Modelled from the spec: the declaration of
    [struct appadmm_response_data_read_memory_s] is missing from the
    driver sources; the Read Memory response record holds up to 64 raw
    bytes and their count. *)
Record appadmm_response_data_read_memory_s := mk {
  data : list Z;          (* uint8_t data[64] *)
  data_length : Z         (* uint8_t *)
}.
End Rs.

(** [sizeof(arg_read_memory->data)] *)
Definition sizeof_read_memory_data : Z := 64.

(** [for (xloop = 0; xloop < length; xloop++) data[xloop] = read_u8_inc(&rdptr);]
    with [n] iterations left. *)
Fixpoint copy_loop (n : nat) (xloop : Z) (src : list Z) (rdptr : Z)
    (dst : list Z) : exec (list Z) :=
  match n with
  | O => Ok dst
  | S n' =>
    match load src rdptr with
    | Fault => Fault
    | Ok v =>
      match store dst xloop v with
      | Fault => Fault
      | Ok dst' => copy_loop n' (xloop + 1) src (rdptr + 1) dst'
      end
    end
  end.

Definition appadmm_dec_read_memory (arg_packet : TpAppa.sr_tp_appa_packet)
    (arg_read_memory : Rs.appadmm_response_data_read_memory_s)
  : exec (Z * Rs.appadmm_response_data_read_memory_s) :=
  if negb (TpAppa.command arg_packet =? APPADMM_COMMAND_READ_MEMORY)
  then Ok (SR_ERR_DATA, arg_read_memory)
  else if negb (appadmm_is_response_size_valid APPADMM_COMMAND_READ_MEMORY
                  (TpAppa.length arg_packet) =? 0)
  then Ok (SR_ERR_DATA, arg_read_memory)
  else if TpAppa.length arg_packet >? sizeof_read_memory_data
  then Ok (SR_ERR_DATA, arg_read_memory)
  else
    match copy_loop (Z.to_nat (TpAppa.length arg_packet)) 0
            (TpAppa.data arg_packet) 0 (Rs.data arg_read_memory) with
    | Fault => Fault
    | Ok d =>
      Ok (SR_OK, {| Rs.data := d;
                    Rs.data_length := TpAppa.length arg_packet |})
    end.

(** *** Storage paging *)

Module Rq.
(** Modelled from the spec: the declaration of
    [struct appadmm_request_data_read_memory_s] is missing from the
    driver sources; the Read Memory request is
    [{device_number: u8, memory_address: u16le, data_length: u8}]. *)
Record appadmm_request_data_read_memory_s := mk {
  device_number : Z;      (* uint8_t *)
  memory_address : Z;     (* uint16_t *)
  data_length : Z         (* uint8_t *)
}.
End Rq.

(** Modelled from the spec: the declaration of
    [struct appadmm_storage_info_s] is missing from the driver sources;
    its fields [{rate, amount, entry_size, entry_count, mem_offset,
    mem_count}] are taken as [int]. *)
Record appadmm_storage_info_s := mk_storage_info {
  rate : Z;
  amount : Z;
  entry_size : Z;
  entry_count : Z;
  mem_offset : Z;
  mem_count : Z
}.

(** [while (data_length > SR_TP_APPA_MAX_DATA_SIZE) data_length -= entry_size;]
    on the [uint8_t] field; [None] when the fuel runs out. *)
Fixpoint clamp_loop (fuel : nat) (data_length : Z) (entry_size : Z) : option Z :=
  match fuel with
  | O => if data_length >? TpAppa.SR_TP_APPA_MAX_DATA_SIZE then None
         else Some data_length
  | S f =>
    if data_length >? TpAppa.SR_TP_APPA_MAX_DATA_SIZE
    then clamp_loop f (u8 (data_length - entry_size)) entry_size
    else Some data_length
  end.

(** [/] and [%] of C truncate towards zero: [Z.quot] and [Z.rem].  The
    result is [None] when the call does not return a value: the
    remainder by an [entry_count] of 0 or the quotient by an
    [entry_size] of 0 (undefined in C, a trap on the usual platforms),
    or the loop still running when the fuel is used up. *)
Definition appadmm_enc_read_storage (fuel : nat)
    (arg_read_memory : Rq.appadmm_request_data_read_memory_s)
    (arg_storage_info : appadmm_storage_info_s)
    (arg_start_entry : Z) (arg_entry_count : Z)
  : option (Z * Rq.appadmm_request_data_read_memory_s) :=
  let si := arg_storage_info in
  if arg_start_entry >? mem_count si * entry_count si
  then Some (SR_ERR_ARG, arg_read_memory)
  else if entry_count si =? 0 then None
  else
    let address_position := Z.rem arg_start_entry (entry_count si) in
    if entry_size si =? 0 then None
    else
    let arg_entry_count :=
      if arg_entry_count >? TpAppa.SR_TP_APPA_MAX_DATA_SIZE ÷ entry_size si
      then TpAppa.SR_TP_APPA_MAX_DATA_SIZE ÷ entry_size si
      else arg_entry_count in
    let arg_entry_count :=
      if address_position + arg_entry_count >? entry_count si
      then entry_count si - address_position
      else arg_entry_count in
    let device_number := u8 (arg_start_entry ÷ entry_count si) in
    let memory_address :=
      u16 (mem_offset si + address_position * entry_size si) in
    let data_length := u8 (arg_entry_count * entry_size si) in
    match clamp_loop fuel data_length (entry_size si) with
    | None => None
    | Some data_length =>
      if device_number >? mem_count si
      then Some (SR_ERR_BUG,
                 {| Rq.device_number := device_number;
                    Rq.memory_address := memory_address;
                    Rq.data_length := data_length |})
      else
        (* I don't want to know why I need to do this to avoid data to
           become garbage *)
        Some (SR_OK,
              {| Rq.device_number := device_number;
                 Rq.memory_address := memory_address;
                 Rq.data_length := 64 |})
    end.

(** *** Display semantics *)

Definition appadmm_is_wordcode (arg_wordcode : Z) : bool :=
  arg_wordcode >=? APPADMM_WORDCODE_TABLE_MIN.

Definition appadmm_is_wordcode_dash (arg_wordcode : Z) : bool :=
  (arg_wordcode =? APPADMM_WORDCODE_DASH)
  || (arg_wordcode =? APPADMM_WORDCODE_DASH1)
  || (arg_wordcode =? APPADMM_WORDCODE_DASH2).

(** Modelled from the spec: the declaration of [enum appadmm_channel_e]
    is missing from the driver sources; these are the channel roles the
    code names. *)
Inductive appadmm_channel_e :=
| APPADMM_CHANNEL_INVALID
| APPADMM_CHANNEL_SAMPLE_ID
| APPADMM_CHANNEL_MAIN
| APPADMM_CHANNEL_SUB.

(** Modelled from the spec: the SI units, quantity kinds and flags of
    the libsigrok public header, as far as the code names them.  All its
    quantity kinds are nonzero; "no quantity" ([mq == 0]) is [None]. *)
Inductive sr_unit :=
| SR_UNIT_UNITLESS | SR_UNIT_VOLT | SR_UNIT_AMPERE | SR_UNIT_DECIBEL_VOLT
| SR_UNIT_DECIBEL_MW | SR_UNIT_FARAD | SR_UNIT_OHM | SR_UNIT_PERCENTAGE
| SR_UNIT_HERTZ | SR_UNIT_CELSIUS | SR_UNIT_FAHRENHEIT | SR_UNIT_SECOND
| SR_UNIT_WATT.

Inductive sr_mq :=
| SR_MQ_COUNT | SR_MQ_VOLTAGE | SR_MQ_CURRENT | SR_MQ_POWER
| SR_MQ_CAPACITANCE | SR_MQ_RESISTANCE | SR_MQ_DIFFERENCE | SR_MQ_FREQUENCY
| SR_MQ_TEMPERATURE | SR_MQ_TIME | SR_MQ_POWER_FACTOR | SR_MQ_CONTINUITY.

Inductive sr_mqflag :=
| SR_MQFLAG_MAX | SR_MQFLAG_MIN | SR_MQFLAG_AVG | SR_MQFLAG_HOLD
| SR_MQFLAG_RELATIVE | SR_MQFLAG_REFERENCE | SR_MQFLAG_AUTORANGE
| SR_MQFLAG_AC | SR_MQFLAG_DC | SR_MQFLAG_RMS | SR_MQFLAG_DIODE.

#[global] Instance sr_unit_eq_dec : EqDecision sr_unit.
Proof. solve_decision. Defined.
#[global] Instance sr_mqflag_eq_dec : EqDecision sr_mqflag.
Proof. solve_decision. Defined.

Module Analog.
(** The fields of [struct sr_datafeed_analog] the interpreter touches:
    [meaning->mq], [meaning->unit], [meaning->mqflags],
    [encoding->digits] and [spec->spec_digits]. *)
Record sr_datafeed_analog := mk {
  mq : option sr_mq;
  unit : option sr_unit;
  mqflags : list sr_mqflag;
  digits : Z;
  spec_digits : Z
}.
End Analog.

(** [mqflags |= f] *)
Definition set_flag (f : sr_mqflag) (a : Analog.sr_datafeed_analog)
  : Analog.sr_datafeed_analog :=
  {| Analog.mq := Analog.mq a;
     Analog.unit := Analog.unit a;
     Analog.mqflags :=
       if bool_decide (f ∈ Analog.mqflags a) then Analog.mqflags a
       else Analog.mqflags a ++ [f];
     Analog.digits := Analog.digits a;
     Analog.spec_digits := Analog.spec_digits a |}.

Definition set_mq (m : sr_mq) (a : Analog.sr_datafeed_analog)
  : Analog.sr_datafeed_analog :=
  {| Analog.mq := Some m;
     Analog.unit := Analog.unit a;
     Analog.mqflags := Analog.mqflags a;
     Analog.digits := Analog.digits a;
     Analog.spec_digits := Analog.spec_digits a |}.

Definition set_unit (u : sr_unit) (a : Analog.sr_datafeed_analog)
  : Analog.sr_datafeed_analog :=
  {| Analog.mq := Analog.mq a;
     Analog.unit := Some u;
     Analog.mqflags := Analog.mqflags a;
     Analog.digits := Analog.digits a;
     Analog.spec_digits := Analog.spec_digits a |}.

Definition set_digits (d : Z) (a : Analog.sr_datafeed_analog)
  : Analog.sr_datafeed_analog :=
  {| Analog.mq := Analog.mq a;
     Analog.unit := Analog.unit a;
     Analog.mqflags := Analog.mqflags a;
     Analog.digits := d;
     Analog.spec_digits := d |}.

(** A [float] value: [FNum q] for the finite value that denotes [q],
    [FInf] for [INFINITY]. *)
Inductive fval :=
| FNum (q : Q)
| FInf.

(** [int8_t] wrap-around. *)
Definition i8 (z : Z) : Z := (z + 128) mod 256 - 128.

(** The locals of the interpreter that the switches update. *)
Record locals := mk_locals {
  unit_factor : Q;                      (* double *)
  digits : Z;                           (* int8_t *)
  analog : Analog.sr_datafeed_analog
}.

Definition on_analog (f : Analog.sr_datafeed_analog -> Analog.sr_datafeed_analog)
    (l : locals) : locals :=
  {| unit_factor := unit_factor l; digits := digits l; analog := f (analog l) |}.

(** [digits = d; unit_factor /= k;] *)
Definition dot_case (d : Z) (k : Z) (l : locals) : locals :=
  {| unit_factor := to_double (unit_factor l / inject_Z k)%Q;
     digits := d;
     analog := analog l |}.

(** [switch (display_data->dot)] *)
Definition switch_dot (dot : Z) (l : locals) : locals :=
  if dot =? APPADMM_DOT_9999_9 then dot_case 1 10 l
  else if dot =? APPADMM_DOT_999_99 then dot_case 2 100 l
  else if dot =? APPADMM_DOT_99_999 then dot_case 3 1000 l
  else if dot =? APPADMM_DOT_9_9999 then dot_case 4 10000 l
  else (* default, APPADMM_DOT_NONE *) dot_case 0 1 l.

Definition sub_only (arg_channel : appadmm_channel_e) (f : sr_mqflag)
    (l : locals) : locals :=
  match arg_channel with
  | APPADMM_CHANNEL_SUB => on_analog (set_flag f) l
  | _ => l
  end.

(** [switch (display_data->data_content)] *)
Definition switch_data_content (dc : Z) (arg_channel : appadmm_channel_e)
    (l : locals) : locals :=
  if dc =? APPADMM_DATA_CONTENT_MAXIMUM then on_analog (set_flag SR_MQFLAG_MAX) l
  else if dc =? APPADMM_DATA_CONTENT_MINIMUM then on_analog (set_flag SR_MQFLAG_MIN) l
  else if dc =? APPADMM_DATA_CONTENT_AVERAGE then on_analog (set_flag SR_MQFLAG_AVG) l
  else if dc =? APPADMM_DATA_CONTENT_PEAK_HOLD_MAX
  then sub_only arg_channel SR_MQFLAG_HOLD (on_analog (set_flag SR_MQFLAG_MAX) l)
  else if dc =? APPADMM_DATA_CONTENT_PEAK_HOLD_MIN
  then sub_only arg_channel SR_MQFLAG_HOLD (on_analog (set_flag SR_MQFLAG_MIN) l)
  else if dc =? APPADMM_DATA_CONTENT_AUTO_HOLD
  then sub_only arg_channel SR_MQFLAG_HOLD l
  else if dc =? APPADMM_DATA_CONTENT_HOLD
  then sub_only arg_channel SR_MQFLAG_HOLD l
  else if (dc =? APPADMM_DATA_CONTENT_REL_DELTA)
          || (dc =? APPADMM_DATA_CONTENT_REL_PERCENT)
  then match arg_channel with
       | APPADMM_CHANNEL_SUB => on_analog (set_flag SR_MQFLAG_REFERENCE) l
       | _ => on_analog (set_flag SR_MQFLAG_RELATIVE) l
       end
  else (* default: currently unused, unit data provides enough information *) l.

Definition meaning (u : sr_unit) (m : sr_mq) (l : locals) : locals :=
  on_analog (fun a => set_mq m (set_unit u a)) l.

(** [unit_factor /= k; digits += d;] *)
Definition div_by (k : Z) (d : Z) (l : locals) : locals :=
  {| unit_factor := to_double (unit_factor l / inject_Z k)%Q;
     digits := i8 (digits l + d);
     analog := analog l |}.

(** [unit_factor *= k; digits -= d;] *)
Definition mul_by (k : Z) (d : Z) (l : locals) : locals :=
  {| unit_factor := to_double (unit_factor l * inject_Z k)%Q;
     digits := i8 (digits l - d);
     analog := analog l |}.

(** [unit_factor *= k;] *)
Definition mul_only (k : Z) (l : locals) : locals :=
  {| unit_factor := to_double (unit_factor l * inject_Z k)%Q;
     digits := digits l;
     analog := analog l |}.

(** [switch (display_data->unit)] *)
Definition switch_unit (u : Z) (l : locals) : locals :=
  if u =? APPADMM_UNIT_MV then div_by 1000 3 (meaning SR_UNIT_VOLT SR_MQ_VOLTAGE l)
  else if u =? APPADMM_UNIT_V then meaning SR_UNIT_VOLT SR_MQ_VOLTAGE l
  else if u =? APPADMM_UNIT_UA then div_by 1000000 6 (meaning SR_UNIT_AMPERE SR_MQ_CURRENT l)
  else if u =? APPADMM_UNIT_MA then div_by 1000 3 (meaning SR_UNIT_AMPERE SR_MQ_CURRENT l)
  else if u =? APPADMM_UNIT_A then meaning SR_UNIT_AMPERE SR_MQ_CURRENT l
  else if u =? APPADMM_UNIT_DB then meaning SR_UNIT_DECIBEL_VOLT SR_MQ_POWER l
  else if u =? APPADMM_UNIT_DBM then meaning SR_UNIT_DECIBEL_MW SR_MQ_POWER l
  else if u =? APPADMM_UNIT_NF then div_by 1000000000 9 (meaning SR_UNIT_FARAD SR_MQ_CAPACITANCE l)
  else if u =? APPADMM_UNIT_UF then div_by 1000000 6 (meaning SR_UNIT_FARAD SR_MQ_CAPACITANCE l)
  else if u =? APPADMM_UNIT_MF then div_by 1000 3 (meaning SR_UNIT_FARAD SR_MQ_CAPACITANCE l)
  else if u =? APPADMM_UNIT_GOHM then mul_by 1000000000 9 (meaning SR_UNIT_OHM SR_MQ_RESISTANCE l)
  else if u =? APPADMM_UNIT_MOHM then mul_by 1000000 6 (meaning SR_UNIT_OHM SR_MQ_RESISTANCE l)
  else if u =? APPADMM_UNIT_KOHM then mul_by 1000 3 (meaning SR_UNIT_OHM SR_MQ_RESISTANCE l)
  else if u =? APPADMM_UNIT_OHM then meaning SR_UNIT_OHM SR_MQ_RESISTANCE l
  else if u =? APPADMM_UNIT_PERCENT then meaning SR_UNIT_PERCENTAGE SR_MQ_DIFFERENCE l
  else if u =? APPADMM_UNIT_MHZ then mul_by 1000000 6 (meaning SR_UNIT_HERTZ SR_MQ_FREQUENCY l)
  else if u =? APPADMM_UNIT_KHZ then mul_by 1000 3 (meaning SR_UNIT_HERTZ SR_MQ_FREQUENCY l)
  else if u =? APPADMM_UNIT_HZ then meaning SR_UNIT_HERTZ SR_MQ_FREQUENCY l
  else if u =? APPADMM_UNIT_DEGC then meaning SR_UNIT_CELSIUS SR_MQ_TEMPERATURE l
  else if u =? APPADMM_UNIT_DEGF then meaning SR_UNIT_FAHRENHEIT SR_MQ_TEMPERATURE l
  else if u =? APPADMM_UNIT_NS then div_by 1000000000 9 (meaning SR_UNIT_SECOND SR_MQ_TIME l)
  else if u =? APPADMM_UNIT_US then div_by 1000000 6 (meaning SR_UNIT_SECOND SR_MQ_TIME l)
  else if u =? APPADMM_UNIT_MS then div_by 1000 3 (meaning SR_UNIT_SECOND SR_MQ_TIME l)
  else if u =? APPADMM_UNIT_SEC then meaning SR_UNIT_SECOND SR_MQ_TIME l
  else if u =? APPADMM_UNIT_MIN then mul_only 60 (meaning SR_UNIT_SECOND SR_MQ_TIME l)
  else if u =? APPADMM_UNIT_KW then mul_by 1000 3 (meaning SR_UNIT_WATT SR_MQ_POWER l)
  else if u =? APPADMM_UNIT_PF then meaning SR_UNIT_UNITLESS SR_MQ_POWER_FACTOR l
  else (* default, APPADMM_UNIT_NONE *) on_analog (set_unit SR_UNIT_UNITLESS) l.

Definition one_of (codes : list Z) (x : Z) : bool := existsb (Z.eqb x) codes.

Definition function_codes_ac : list Z :=
    [APPADMM_FUNCTIONCODE_PEAK_HOLD_UA;
     APPADMM_FUNCTIONCODE_AC_UA;
     APPADMM_FUNCTIONCODE_AC_MV;
     APPADMM_FUNCTIONCODE_AC_MA;
     APPADMM_FUNCTIONCODE_LPF_MV;
     APPADMM_FUNCTIONCODE_LPF_MA;
     APPADMM_FUNCTIONCODE_AC_V;
     APPADMM_FUNCTIONCODE_AC_A;
     APPADMM_FUNCTIONCODE_LPF_V;
     APPADMM_FUNCTIONCODE_LPF_A;
     APPADMM_FUNCTIONCODE_LOZ_AC_V;
     APPADMM_FUNCTIONCODE_AC_W;
     APPADMM_FUNCTIONCODE_LOZ_LPF_V;
     APPADMM_FUNCTIONCODE_V_HARM;
     APPADMM_FUNCTIONCODE_INRUSH;
     APPADMM_FUNCTIONCODE_A_HARM;
     APPADMM_FUNCTIONCODE_FLEX_INRUSH;
     APPADMM_FUNCTIONCODE_FLEX_A_HARM;
     APPADMM_FUNCTIONCODE_AC_UA_HFR;
     APPADMM_FUNCTIONCODE_AC_A_HFR;
     APPADMM_FUNCTIONCODE_AC_MA_HFR;
     APPADMM_FUNCTIONCODE_AC_UA_HFR2;
     APPADMM_FUNCTIONCODE_AC_V_HFR;
     APPADMM_FUNCTIONCODE_AC_MV_HFR;
     APPADMM_FUNCTIONCODE_AC_V_PV;
     APPADMM_FUNCTIONCODE_AC_V_PV_HFR].

Definition function_codes_dc : list Z :=
    [APPADMM_FUNCTIONCODE_DC_UA;
     APPADMM_FUNCTIONCODE_DC_MV;
     APPADMM_FUNCTIONCODE_DC_MA;
     APPADMM_FUNCTIONCODE_DC_V;
     APPADMM_FUNCTIONCODE_DC_A;
     APPADMM_FUNCTIONCODE_DC_A_OUT;
     APPADMM_FUNCTIONCODE_DC_A_OUT_SLOW_LINEAR;
     APPADMM_FUNCTIONCODE_DC_A_OUT_FAST_LINEAR;
     APPADMM_FUNCTIONCODE_DC_A_OUT_SLOW_STEP;
     APPADMM_FUNCTIONCODE_DC_A_OUT_FAST_STEP;
     APPADMM_FUNCTIONCODE_LOOP_POWER;
     APPADMM_FUNCTIONCODE_LOZ_DC_V;
     APPADMM_FUNCTIONCODE_DC_W;
     APPADMM_FUNCTIONCODE_FLEX_AC_A;
     APPADMM_FUNCTIONCODE_FLEX_LPF_A;
     APPADMM_FUNCTIONCODE_FLEX_PEAK_HOLD_A;
     APPADMM_FUNCTIONCODE_DC_V_PV].

Definition function_codes_ac_dc : list Z :=
    [APPADMM_FUNCTIONCODE_AC_DC_MV;
     APPADMM_FUNCTIONCODE_AC_DC_MA;
     APPADMM_FUNCTIONCODE_AC_DC_V;
     APPADMM_FUNCTIONCODE_AC_DC_A;
     APPADMM_FUNCTIONCODE_VOLT_SENSE;
     APPADMM_FUNCTIONCODE_LOZ_AC_DC_V;
     APPADMM_FUNCTIONCODE_AC_DC_V_PV].

(** [unit == SR_UNIT_AMPERE || unit == SR_UNIT_VOLT || unit == SR_UNIT_WATT] *)
Definition is_electrical (a : Analog.sr_datafeed_analog) : bool :=
  bool_decide (Analog.unit a = Some SR_UNIT_AMPERE)
  || bool_decide (Analog.unit a = Some SR_UNIT_VOLT)
  || bool_decide (Analog.unit a = Some SR_UNIT_WATT).

(** [switch (arg_data->function_code)] *)
Definition switch_function_code (fc : Z) (l : locals) : locals :=
  if one_of function_codes_ac fc then
    if is_electrical (analog l)
    then on_analog (fun a => set_flag SR_MQFLAG_RMS (set_flag SR_MQFLAG_AC a)) l
    else l
  else if one_of function_codes_dc fc then on_analog (set_flag SR_MQFLAG_DC) l
  else if fc =? APPADMM_FUNCTIONCODE_CONTINUITY
  then on_analog (set_mq SR_MQ_CONTINUITY) l
  else if fc =? APPADMM_FUNCTIONCODE_DIODE
  then on_analog (fun a => set_flag SR_MQFLAG_DC (set_flag SR_MQFLAG_DIODE a)) l
  else if one_of function_codes_ac_dc fc then
    if is_electrical (analog l)
    then on_analog (fun a => set_flag SR_MQFLAG_RMS
                               (set_flag SR_MQFLAG_DC (set_flag SR_MQFLAG_AC a))) l
    else l
  else (* default: currently unused, unit data provides enough information *) l.

(** The messages of the word-code branch, without their text. *)
Inductive message :=
| MsgError            (* sr_err("ERROR [%s]: %s") *)
| MsgWarn             (* sr_warn("MESSAGE [%s]: %s") *)
| MsgWarnDegC         (* sr_warn("MESSAGE [%s]: %s °C") *)
| MsgWarnDegF.        (* sr_warn("MESSAGE [%s]: %s °F") *)

(** [switch (display_data->reading)] of the word-code branch. *)
Definition wordcode_message (display_data : appadmm_display_data_s)
  : option message :=
  let r := reading display_data in
  if one_of [APPADMM_WORDCODE_BATT; APPADMM_WORDCODE_HAZ; APPADMM_WORDCODE_FUSE;
             APPADMM_WORDCODE_PROBE; APPADMM_WORDCODE_ER; APPADMM_WORDCODE_ER1;
             APPADMM_WORDCODE_ER2; APPADMM_WORDCODE_ER3] r
  then Some MsgError
  else if one_of [APPADMM_WORDCODE_SPACE; APPADMM_WORDCODE_DASH;
                  APPADMM_WORDCODE_DASH1; APPADMM_WORDCODE_DASH2] r
  then None
  else if r =? APPADMM_WORDCODE_DEF then
    if unit display_data =? APPADMM_UNIT_DEGC then Some MsgWarnDegC
    else if unit display_data =? APPADMM_UNIT_DEGF then Some MsgWarnDegF
    else Some MsgWarn
  else Some MsgWarn.

(** The numeric branch up to the digit stores: the locals after the
    four switches, with both digit counts stored. *)
Definition numeric_locals (arg_channel : appadmm_channel_e)
    (arg_data : appadmm_response_data_read_display_s)
    (display_data : appadmm_display_data_s)
    (init : Analog.sr_datafeed_analog) : locals :=
  let l := {| unit_factor := 1; digits := 0; analog := init |} in
  let l := switch_dot (dot display_data) l in
  let l := switch_data_content (data_content display_data) arg_channel l in
  let l := if auto_range arg_data =? APPADMM_AUTO_RANGE
           then on_analog (set_flag SR_MQFLAG_AUTORANGE) l else l in
  let l := switch_unit (unit display_data) l in
  let l := switch_function_code (function_code arg_data) l in
  on_analog (set_digits (digits l)) l.

(** What a call of the interpreter leaves behind: its return value, the
    local [val], the analog descriptor, whether the packet went to the
    session, and the message logged. *)
Record transformed := mk_transformed {
  retr : Z;
  val : fval;
  out : Analog.sr_datafeed_analog;
  sent : bool;
  logged : option message
}.

(** [if (analog.meaning->mq != 0) { ... retr = sr_session_send(...); }
    return retr;] *)
Definition finish (retr send_retr : Z) (v : fval)
    (a : Analog.sr_datafeed_analog) (m : option message) : transformed :=
  match Analog.mq a with
  | Some _ => {| retr := send_retr; val := v; out := a; sent := true; logged := m |}
  | None => {| retr := retr; val := v; out := a; sent := false; logged := m |}
  end.

(** [appadmm_transform_display_data]: [init_retr] and [init] are what
    [sr_analog_init] returned and set up, [send_retr] what
    [sr_session_send] returns if called, [sample_id] is
    [devc->sample_id].  [display_reading_value] is a [double] that
    receives the reading converted to [float], [val] is the [float] the
    packet points to. *)
Definition appadmm_transform_display_data
    (init_retr : Z) (init : Analog.sr_datafeed_analog) (send_retr : Z)
    (sample_id : Z)
    (arg_channel : appadmm_channel_e)
    (arg_data : appadmm_response_data_read_display_s) : transformed :=
  let quit code :=
    {| retr := code; val := FNum 0; out := init; sent := false; logged := None |} in
  if init_retr <? SR_OK then quit init_retr
  else
    match arg_channel with
    | APPADMM_CHANNEL_INVALID => quit SR_ERR_BUG
    | APPADMM_CHANNEL_SAMPLE_ID =>
      finish init_retr send_retr (FNum (to_float (inject_Z sample_id)))
        (set_unit SR_UNIT_UNITLESS
           (set_mq SR_MQ_COUNT
              {| Analog.mq := Analog.mq init;
                 Analog.unit := Analog.unit init;
                 Analog.mqflags := Analog.mqflags init;
                 Analog.digits := 0;
                 Analog.spec_digits := Analog.spec_digits init |}))
        None
    | _ =>
      let display_data :=
        match arg_channel with
        | APPADMM_CHANNEL_MAIN => main_display_data arg_data
        | _ => sub_display_data arg_data
        end in
      let display_reading_value : Q :=
        to_float (inject_Z (reading display_data)) in
      let is_dash := appadmm_is_wordcode_dash (reading display_data) in
      if negb (appadmm_is_wordcode (reading display_data)) || is_dash then
        let l := numeric_locals arg_channel arg_data display_data init in
        let display_reading_value :=
          to_double (display_reading_value * unit_factor l)%Q in
        let v := if (overload display_data =? APPADMM_OVERLOAD) || is_dash
                 then FInf else FNum (to_float display_reading_value) in
        finish init_retr send_retr v (analog l) None
      else
        finish init_retr send_retr FInf init (wordcode_message display_data)
    end.

(** *** Request sizes *)

Definition APPADMM_FRAME_DATA_SIZE_REQUEST_READ_INFORMATION : Z := 0.
Definition APPADMM_FRAME_DATA_SIZE_REQUEST_READ_DISPLAY : Z := 0.
Definition APPADMM_FRAME_DATA_SIZE_REQUEST_READ_PROTOCOL_VERSION : Z := 0.
Definition APPADMM_FRAME_DATA_SIZE_REQUEST_READ_BATTERY_LIFE : Z := 0.
Definition APPADMM_FRAME_DATA_SIZE_REQUEST_WRITE_UART_CONFIGURATION : Z := 1.
Definition APPADMM_FRAME_DATA_SIZE_REQUEST_CAL_READING : Z := 0.
Definition APPADMM_FRAME_DATA_SIZE_REQUEST_READ_MEMORY : Z := 4.
Definition APPADMM_FRAME_DATA_SIZE_REQUEST_READ_HARMONICS_DATA : Z := 0.
Definition APPADMM_FRAME_DATA_SIZE_REQUEST_CAL_ENTER : Z := 0.
Definition APPADMM_FRAME_DATA_SIZE_REQUEST_CAL_WRITE_FUNCTION_CODE : Z := 1.
Definition APPADMM_FRAME_DATA_SIZE_REQUEST_CAL_WRITE_RANGE_CODE : Z := 1.
Definition APPADMM_FRAME_DATA_SIZE_REQUEST_CAL_WRITE_MEMORY : Z := 64. (* variable (max) *)
Definition APPADMM_FRAME_DATA_SIZE_REQUEST_CAL_EXIT : Z := 0.
Definition APPADMM_FRAME_DATA_SIZE_REQUEST_OTA_ENTER : Z := 0.
Definition APPADMM_FRAME_DATA_SIZE_REQUEST_OTA_SEND_INFORMATION : Z := 13.
Definition APPADMM_FRAME_DATA_SIZE_REQUEST_OTA_SEND_FIRMWARE_PACKAGE : Z := 64. (* variable (max) *)
Definition APPADMM_FRAME_DATA_SIZE_REQUEST_OTA_START_UPGRADE_PROCEDURE : Z := 1.

(** [switch (arg_command)] by first matching label. *)
Definition appadmm_get_request_size (arg_command : Z) : Z :=
  if arg_command =? APPADMM_COMMAND_READ_INFORMATION
  then APPADMM_FRAME_DATA_SIZE_REQUEST_READ_INFORMATION
  else if arg_command =? APPADMM_COMMAND_READ_DISPLAY
  then APPADMM_FRAME_DATA_SIZE_REQUEST_READ_DISPLAY
  else if arg_command =? APPADMM_COMMAND_READ_PROTOCOL_VERSION
  then APPADMM_FRAME_DATA_SIZE_REQUEST_READ_PROTOCOL_VERSION
  else if arg_command =? APPADMM_COMMAND_READ_BATTERY_LIFE
  then APPADMM_FRAME_DATA_SIZE_REQUEST_READ_BATTERY_LIFE
  else if arg_command =? APPADMM_COMMAND_WRITE_UART_CONFIGURATION
  then APPADMM_FRAME_DATA_SIZE_REQUEST_WRITE_UART_CONFIGURATION
  else if arg_command =? APPADMM_COMMAND_CAL_READING
  then APPADMM_FRAME_DATA_SIZE_REQUEST_CAL_READING
  else if arg_command =? APPADMM_COMMAND_READ_MEMORY
  then APPADMM_FRAME_DATA_SIZE_REQUEST_READ_MEMORY
  else if arg_command =? APPADMM_COMMAND_READ_HARMONICS_DATA
  then APPADMM_FRAME_DATA_SIZE_REQUEST_READ_HARMONICS_DATA
  else if arg_command =? APPADMM_COMMAND_CAL_ENTER
  then APPADMM_FRAME_DATA_SIZE_REQUEST_CAL_ENTER
  else if arg_command =? APPADMM_COMMAND_CAL_WRITE_FUNCTION_CODE
  then APPADMM_FRAME_DATA_SIZE_REQUEST_CAL_WRITE_FUNCTION_CODE
  else if arg_command =? APPADMM_COMMAND_CAL_WRITE_RANGE_CODE
  then APPADMM_FRAME_DATA_SIZE_REQUEST_CAL_WRITE_RANGE_CODE
  else if arg_command =? APPADMM_COMMAND_CAL_WRITE_MEMORY
  then APPADMM_FRAME_DATA_SIZE_REQUEST_CAL_WRITE_MEMORY
  else if arg_command =? APPADMM_COMMAND_CAL_EXIT
  then APPADMM_FRAME_DATA_SIZE_REQUEST_CAL_EXIT
  else if arg_command =? APPADMM_COMMAND_OTA_ENTER
  then APPADMM_FRAME_DATA_SIZE_REQUEST_OTA_ENTER
  else if arg_command =? APPADMM_COMMAND_OTA_SEND_INFORMATION
  then APPADMM_FRAME_DATA_SIZE_REQUEST_OTA_SEND_INFORMATION
  else if arg_command =? APPADMM_COMMAND_OTA_SEND_FIRMWARE_PACKAGE
  then APPADMM_FRAME_DATA_SIZE_REQUEST_OTA_SEND_FIRMWARE_PACKAGE
  else if arg_command =? APPADMM_COMMAND_OTA_START_UPGRADE_PROCEDURE
  then APPADMM_FRAME_DATA_SIZE_REQUEST_OTA_START_UPGRADE_PROCEDURE
  else
    (* FAILURE and SUCCESS are responses only; the safe default *)
    SR_ERR_DATA.

(** *** Cursor writes and 16-bit reads *)

(** Modelled from the spec: [write_u8_inc] of libsigrok-internal.h
    stores a byte under the cursor and advances the cursor by one. *)
Definition write_u8_inc (v : Z) (mem : list Z) (p : Z) : list Z * Z :=
  (wr mem p (u8 v), p + 1).

(** Modelled from the spec: [write_u16le_inc] of libsigrok-internal.h
    stores the low byte, then the high byte, and advances the cursor by
    two. *)
Definition write_u16le_inc (v : Z) (mem : list Z) (p : Z) : list Z * Z :=
  (wr (wr mem p (Z.land v 0xff)) (p + 1) (Z.land (Z.shiftr v 8) 0xff), p + 2).

(** Modelled from the spec: [read_u16le_inc] of libsigrok-internal.h
    reads two bytes, low byte first. *)
Definition read_u16le_inc : reader Z :=
  fun mem p => (Z.lor (rd mem p) (Z.shiftl (rd mem (p + 1)) 8), p + 2).

(** Modelled from the spec: [read_u16be_inc] of libsigrok-internal.h
    reads two bytes, high byte first. *)
Definition read_u16be_inc : reader Z :=
  fun mem p => (Z.lor (Z.shiftl (rd mem p) 8) (rd mem (p + 1)), p + 2).

(** *** Request encoders *)

(** The encoders fill [command] and [length] of the caller's packet, an
    uninitialised local; its [data] stays as it was but for the bytes
    written. *)
Definition appadmm_enc_read_information (arg_packet : TpAppa.sr_tp_appa_packet)
  : Z * TpAppa.sr_tp_appa_packet :=
  (SR_OK,
   {| TpAppa.command := APPADMM_COMMAND_READ_INFORMATION;
      TpAppa.length := u8 (appadmm_get_request_size APPADMM_COMMAND_READ_INFORMATION);
      TpAppa.data := TpAppa.data arg_packet |}).

Definition appadmm_enc_read_display (arg_packet : TpAppa.sr_tp_appa_packet)
  : Z * TpAppa.sr_tp_appa_packet :=
  (SR_OK,
   {| TpAppa.command := APPADMM_COMMAND_READ_DISPLAY;
      TpAppa.length := u8 (appadmm_get_request_size APPADMM_COMMAND_READ_DISPLAY);
      TpAppa.data := TpAppa.data arg_packet |}).

Definition appadmm_enc_read_memory
    (arg_read_memory : Rq.appadmm_request_data_read_memory_s)
    (arg_packet : TpAppa.sr_tp_appa_packet)
  : Z * TpAppa.sr_tp_appa_packet :=
  let '(d, wrptr) :=
    write_u8_inc (Rq.device_number arg_read_memory) (TpAppa.data arg_packet) 0 in
  let '(d, wrptr) := write_u16le_inc (Rq.memory_address arg_read_memory) d wrptr in
  let '(d, wrptr) := write_u8_inc (Rq.data_length arg_read_memory) d wrptr in
  (SR_OK,
   {| TpAppa.command := APPADMM_COMMAND_READ_MEMORY;
      TpAppa.length := u8 (appadmm_get_request_size APPADMM_COMMAND_READ_MEMORY);
      TpAppa.data := d |}).

(** *** Read Information *)

(** The string a [char] array holds: the characters before the first
    NUL. *)
Fixpoint c_string (a : list Z) : list Z :=
  match a with
  | [] => []
  | c :: r => if c =? 0 then [] else c :: c_string r
  end.

(** [g_ascii_isspace] of GLib: space, tab, line feed, vertical tab, form
    feed and carriage return. *)
Definition g_ascii_isspace (c : Z) : bool :=
  (c =? 32) || (c =? 9) || (c =? 10) || (c =? 11) || (c =? 12) || (c =? 13).

Fixpoint skip_space (s : list Z) : list Z :=
  match s with
  | [] => []
  | c :: r => if g_ascii_isspace c then skip_space r else s
  end.

(** [g_strstrip] of GLib, an external library: the string without its
    leading and trailing white space. *)
Definition g_strstrip (s : list Z) : list Z :=
  rev (skip_space (rev (skip_space s))).

Module Info.
(** [struct appadmm_response_data_read_information_s]; the two [char]
    arrays are held as the strings in them. *)
Record appadmm_response_data_read_information_s := mk {
  model_name : list Z;        (* char model_name[32] *)
  serial_number : list Z;     (* char serial_number[16] *)
  model_id : Z;               (* enum appadmm_model_id_e *)
  firmware_version : Z        (* u_int16_t *)
}.
End Info.

(** [for (xloop = 0; xloop < n; xloop++) { *ltr = read_u8_inc(&rdptr); ltr++; }] *)
Fixpoint read_chars (n : nat) (ltr : Z) (dst : list Z) : reader (list Z) :=
  match n with
  | O => rret dst
  | S n' => do c <- read_u8_inc ; read_chars n' (ltr + 1) (wr dst ltr c)
  end.

Definition appadmm_dec_read_information (arg_packet : TpAppa.sr_tp_appa_packet)
    (arg_read_information : Info.appadmm_response_data_read_information_s)
  : Z * Info.appadmm_response_data_read_information_s :=
  if negb (TpAppa.command arg_packet =? APPADMM_COMMAND_READ_INFORMATION)
  then (SR_ERR_DATA, arg_read_information)
  else if negb (appadmm_is_response_size_valid APPADMM_COMMAND_READ_INFORMATION
                  (TpAppa.length arg_packet) =? 0)
  then (SR_ERR_DATA, arg_read_information)
  else
    let decode :=
      do model_name <- read_chars 32 0 (replicate 32 0) ;
      let model_name := wr model_name 31 0 in
      do serial_number <- read_chars 16 0 (replicate 16 0) ;
      let serial_number := wr serial_number 15 0 in
      do model_id <- read_u16le_inc ;
      do firmware_version <- read_u16le_inc ;
      rret {| Info.model_name := g_strstrip (c_string model_name);
              Info.serial_number := g_strstrip (c_string serial_number);
              Info.model_id := model_id;
              Info.firmware_version := firmware_version |} in
    (SR_OK, fst (decode (TpAppa.data arg_packet) 0)).

(** [appadmm_rere_read_information]: request, wait for the response,
    decode.  [packet_request] and [packet_response] are the locals as
    they are on entry. *)
Definition appadmm_rere_read_information (stack line : list Z)
    (arg_tpai : TpAppa.sr_tp_appa_inst)
    (packet_request packet_response : TpAppa.sr_tp_appa_packet)
    (reads : list TpAppa.serial_read)
    (arg_response : Info.appadmm_response_data_read_information_s)
  : list Z * TpAppa.sr_tp_appa_inst * list TpAppa.serial_read
    * Info.appadmm_response_data_read_information_s * Z :=
  let '(retr, packet_request) := appadmm_enc_read_information packet_request in
  if retr <? SR_OK then (line, arg_tpai, reads, arg_response, retr) else
  let '(line, t, packet_response, reads, retr) :=
    TpAppa.sr_tp_appa_send_receive stack line arg_tpai packet_request
      packet_response reads in
  if retr <? TRUE then (line, t, reads, arg_response, retr) else
  let '(retr, response) := appadmm_dec_read_information packet_response arg_response in
  if retr <? SR_OK then (line, t, reads, response, retr) else
  (line, t, reads, response, TRUE).

(** [appadmm_rere_read_memory].  [Fault] is an access outside an array
    in the decoder's copy loop, the only accesses checked here; the
    sender's store to [header[4]] is outside its array in every run and
    is not reported as a fault (see [TpAppa.sr_tp_appa_send]). *)
Definition appadmm_rere_read_memory (stack line : list Z)
    (arg_tpai : TpAppa.sr_tp_appa_inst)
    (packet_request packet_response : TpAppa.sr_tp_appa_packet)
    (reads : list TpAppa.serial_read)
    (arg_request : Rq.appadmm_request_data_read_memory_s)
    (arg_response : Rs.appadmm_response_data_read_memory_s)
  : exec (list Z * TpAppa.sr_tp_appa_inst * list TpAppa.serial_read
          * Rs.appadmm_response_data_read_memory_s * Z) :=
  let '(retr, packet_request) := appadmm_enc_read_memory arg_request packet_request in
  if retr <? SR_OK then Ok (line, arg_tpai, reads, arg_response, retr) else
  let '(line, t, packet_response, reads, retr) :=
    TpAppa.sr_tp_appa_send_receive stack line arg_tpai packet_request
      packet_response reads in
  if retr <? TRUE then Ok (line, t, reads, arg_response, retr) else
  match appadmm_dec_read_memory packet_response arg_response with
  | Fault => Fault
  | Ok (retr, response) =>
    if retr <? SR_OK then Ok (line, t, reads, response, retr)
    else Ok (line, t, reads, response, TRUE)
  end.

(** The identification strings of [struct sr_dev_inst] and the model of
    the device context. *)
Record identity := mk_identity {
  vendor : list Z;
  model : list Z;
  version : list Z;
  serial_num : list Z;
  devc_model_id : Z
}.

(** [g_strrstr (s, " ")] of GLib: the index of the last space, if any. *)
Fixpoint g_strrstr_space (s : list Z) : option nat :=
  match s with
  | [] => None
  | c :: r =>
    match g_strrstr_space r with
    | Some i => Some (S i)
    | None => if c =? 32 then Some O else None
    end
  end.

Fixpoint uint_chars (u : Decimal.uint) : list Z :=
  match u with
  | Decimal.Nil => []
  | Decimal.D0 r => 48 :: uint_chars r
  | Decimal.D1 r => 49 :: uint_chars r
  | Decimal.D2 r => 50 :: uint_chars r
  | Decimal.D3 r => 51 :: uint_chars r
  | Decimal.D4 r => 52 :: uint_chars r
  | Decimal.D5 r => 53 :: uint_chars r
  | Decimal.D6 r => 54 :: uint_chars r
  | Decimal.D7 r => 55 :: uint_chars r
  | Decimal.D8 r => 56 :: uint_chars r
  | Decimal.D9 r => 57 :: uint_chars r
  end.

(** The conversion [%0<width>d] of a non-negative number. *)
Definition printf_0d (width : nat) (n : Z) : list Z :=
  let s := uint_chars (N.to_uint (Z.to_N n)) in
  replicate (width - List.length s) 48 ++ s.

(** [appadmm_read_information]: [response] is the local as it is on
    entry. *)
Definition appadmm_read_information (stack line : list Z)
    (arg_tpai : TpAppa.sr_tp_appa_inst)
    (packet_request packet_response : TpAppa.sr_tp_appa_packet)
    (reads : list TpAppa.serial_read)
    (response : Info.appadmm_response_data_read_information_s)
    (sdi : identity)
  : list Z * TpAppa.sr_tp_appa_inst * list TpAppa.serial_read * identity * Z :=
  let '(line, t, reads, response, retr) :=
    appadmm_rere_read_information stack line arg_tpai packet_request
      packet_response reads response in
  if retr <? SR_OK then (line, t, reads, sdi, retr) else
  (* Parse received model string and turn it into vendor/model combination *)
  let name := Info.model_name response in
  let delim :=
    match name with
    | [] => None
    | _ => g_strrstr_space name
    end in
  let '(vendor, model) :=
    match delim with
    | None => ([65; 80; 80; 65], name)
    | Some i =>
      let model := drop (S i) name in
      (take (List.length name - List.length model - 1) name, model)
    end in
  (* make fancy version *)
  let version :=
    printf_0d 1 (Info.firmware_version response ÷ 100)
    ++ [46] ++ printf_0d 2 (Z.rem (Info.firmware_version response) 100) in
  (line, t, reads,
   {| vendor := vendor;
      model := model;
      version := version;
      serial_num := Info.serial_number response;
      devc_model_id := Info.model_id response |},
   retr).

(** *** Model capabilities *)

(** enum appadmm_model_id_e *)
Definition APPADMM_MODEL_ID_INVALID : Z := 0x00.
Definition APPADMM_MODEL_ID_150 : Z := 0x01.
Definition APPADMM_MODEL_ID_150B : Z := 0x02.
Definition APPADMM_MODEL_ID_208 : Z := 0x03.
Definition APPADMM_MODEL_ID_208B : Z := 0x04.
Definition APPADMM_MODEL_ID_506 : Z := 0x05.
Definition APPADMM_MODEL_ID_506B : Z := 0x06.
Definition APPADMM_MODEL_ID_506B_2 : Z := 0x600.
Definition APPADMM_MODEL_ID_501 : Z := 0x07.
Definition APPADMM_MODEL_ID_502 : Z := 0x08.
Definition APPADMM_MODEL_ID_S1 : Z := 0x09.
Definition APPADMM_MODEL_ID_S2 : Z := 0x0a.
Definition APPADMM_MODEL_ID_S3 : Z := 0x0b.
Definition APPADMM_MODEL_ID_172 : Z := 0x0c.
Definition APPADMM_MODEL_ID_173 : Z := 0x0d.
Definition APPADMM_MODEL_ID_175 : Z := 0x0e.
Definition APPADMM_MODEL_ID_177 : Z := 0x0f.
Definition APPADMM_MODEL_ID_SFLEX_10A : Z := 0x10.
Definition APPADMM_MODEL_ID_SFLEX_18A : Z := 0x11.
Definition APPADMM_MODEL_ID_A17N : Z := 0x12.
Definition APPADMM_MODEL_ID_S0 : Z := 0x13.
Definition APPADMM_MODEL_ID_179 : Z := 0x14.
Definition APPADMM_MODEL_ID_503 : Z := 0x15.
Definition APPADMM_MODEL_ID_505 : Z := 0x16.

Definition models_with_sub : list Z :=
  [APPADMM_MODEL_ID_208; APPADMM_MODEL_ID_208B; APPADMM_MODEL_ID_501;
   APPADMM_MODEL_ID_502; APPADMM_MODEL_ID_503; APPADMM_MODEL_ID_505;
   APPADMM_MODEL_ID_506; APPADMM_MODEL_ID_506B; APPADMM_MODEL_ID_506B_2].

Definition models_without_sub : list Z :=
  [APPADMM_MODEL_ID_150; APPADMM_MODEL_ID_150B; APPADMM_MODEL_ID_172;
   APPADMM_MODEL_ID_173; APPADMM_MODEL_ID_175; APPADMM_MODEL_ID_177;
   APPADMM_MODEL_ID_179; APPADMM_MODEL_ID_SFLEX_10A;
   APPADMM_MODEL_ID_SFLEX_18A; APPADMM_MODEL_ID_A17N; APPADMM_MODEL_ID_S0;
   APPADMM_MODEL_ID_S1; APPADMM_MODEL_ID_S2; APPADMM_MODEL_ID_S3].

Definition appadmm_cap_channel (arg_model_id : Z)
    (arg_channel : appadmm_channel_e) : Z :=
  match arg_channel with
  | APPADMM_CHANNEL_INVALID => FALSE
  | APPADMM_CHANNEL_SAMPLE_ID => TRUE
  | APPADMM_CHANNEL_MAIN => TRUE
  | APPADMM_CHANNEL_SUB =>
    if one_of models_with_sub arg_model_id then TRUE
    else if one_of models_without_sub arg_model_id then FALSE
    else (* default, APPADMM_MODEL_ID_INVALID *) SR_ERR_NA
  end.

(** *** Processing a Read Display response *)

(** What the session does around one interpreter call: the return value
    and the descriptor of [sr_analog_init], and the return value of
    [sr_session_send]. *)
Record session := mk_session {
  analog_init_retr : Z;
  analog_init : Analog.sr_datafeed_analog;
  session_send_retr : Z
}.

(** One block of [appadmm_process_read_display]:
    [if (channel != NULL && channel->enabled) {
       if (appadmm_cap_channel(...)) retr = appadmm_transform_display_data(...);
       if (retr < SR_OK) return retr; }].
    The interpreter calls made are recorded with their channel. *)
Definition process_channel (env : appadmm_channel_e -> session)
    (sample_id model_id : Z) (enabled : bool) (ch : appadmm_channel_e)
    (arg_data : appadmm_response_data_read_display_s)
    (k : Z -> list (appadmm_channel_e * transformed)
         -> Z * list (appadmm_channel_e * transformed))
    (retr : Z) (calls : list (appadmm_channel_e * transformed))
  : Z * list (appadmm_channel_e * transformed) :=
  if enabled then
    let '(retr, calls) :=
      if negb (appadmm_cap_channel model_id ch =? 0) then
        let t := appadmm_transform_display_data
                   (analog_init_retr (env ch)) (analog_init (env ch))
                   (session_send_retr (env ch)) sample_id ch arg_data in
        (AppaDmm.retr t, calls ++ [(ch, t)])
      else (retr, calls) in
    if retr <? SR_OK then (retr, calls) else k retr calls
  else k retr calls.

(** [appadmm_process_read_display]; the three flags tell whether the
    channel exists and is enabled. *)
Definition appadmm_process_read_display (env : appadmm_channel_e -> session)
    (sample_id model_id : Z) (en_sample_id en_main en_sub : bool)
    (arg_data : appadmm_response_data_read_display_s)
  : Z * list (appadmm_channel_e * transformed) :=
  process_channel env sample_id model_id en_sample_id APPADMM_CHANNEL_SAMPLE_ID
    arg_data
    (process_channel env sample_id model_id en_main APPADMM_CHANNEL_MAIN arg_data
       (process_channel env sample_id model_id en_sub APPADMM_CHANNEL_SUB arg_data
          (fun retr calls => (retr, calls))))
    SR_OK [].

(** *** Storage information and stored readings (packet.h) *)

(** Modelled from the spec: [enum appadmm_storage_e] is missing from the
    driver sources; the array [arg_storage_info] is indexed by its two
    enumerators [APPADMM_STORAGE_MEM] and [APPADMM_STORAGE_LOG]. *)
Record storage_infos := mk_storage_infos {
  storage_mem : appadmm_storage_info_s;
  storage_log : appadmm_storage_info_s
}.

Definition appadmm_dec_storage_info
    (arg_read_memory : Rs.appadmm_response_data_read_memory_s)
    (arg_storage_info : storage_infos) : Z * storage_infos :=
  if negb (Rs.data_length arg_read_memory =? 6)
  then (SR_ERR_DATA, arg_storage_info)
  else
    let decode :=
      do log_rate <- read_u16be_inc ;
      do log_amount <- read_u16be_inc ;
      do mem_amount <- read_u16be_inc ;
      rret {| storage_mem :=
                {| rate := rate (storage_mem arg_storage_info);
                   amount := mem_amount;
                   entry_size := 5;
                   entry_count := 500;
                   mem_offset := 0x500;
                   mem_count := 2 |};
              storage_log :=
                {| rate := log_rate;
                   amount := log_amount;
                   entry_size := 5;
                   entry_count := 10000;
                   mem_offset := 0x1000;
                   mem_count := 4 |} |} in
    (SR_OK, fst (decode (Rs.data arg_read_memory) 0)).

(** The five byte reads of one stored reading, each checked against the
    bounds of the response data. *)
Definition load_display_data (src : list Z) (rdptr : Z)
  : exec appadmm_display_data_s :=
  if in_bounds src rdptr && in_bounds src (rdptr + 4)
  then Ok (fst (read_display_data src rdptr))
  else Fault.

(** [arg_display_data[xloop] = ...], checked against the bounds of the
    caller's array. *)
Definition store_display_data (a : list appadmm_display_data_s) (i : Z)
    (v : appadmm_display_data_s) : exec (list appadmm_display_data_s) :=
  if (0 <=? i) && (i <? Z.of_nat (List.length a))
  then Ok (<[Z.to_nat i := v]> a) else Fault.

(** The loop of [appadmm_dec_read_storage] with [n] iterations left. *)
Fixpoint storage_loop (n : nat) (xloop : Z) (src : list Z) (rdptr : Z)
    (dst : list appadmm_display_data_s) : exec (list appadmm_display_data_s) :=
  match n with
  | O => Ok dst
  | S n' =>
    match load_display_data src rdptr with
    | Fault => Fault
    | Ok v =>
      match store_display_data dst xloop v with
      | Fault => Fault
      | Ok dst' => storage_loop n' (xloop + 1) src (rdptr + 5) dst'
      end
    end
  end.

(** [appadmm_dec_read_storage]; a division by an [entry_size] of zero is
    a [Fault]. *)
Definition appadmm_dec_read_storage
    (arg_read_memory : Rs.appadmm_response_data_read_memory_s)
    (arg_storage_info : appadmm_storage_info_s)
    (arg_display_data : list appadmm_display_data_s)
  : exec (Z * list appadmm_display_data_s) :=
  if entry_size arg_storage_info =? 0 then Fault
  else
    match storage_loop
            (Z.to_nat (Rs.data_length arg_read_memory ÷ entry_size arg_storage_info))
            0 (Rs.data arg_read_memory) 0 arg_display_data with
    | Fault => Fault
    | Ok d => Ok (SR_OK, d)
    end.

End AppaDmm.

(** ** The earlier framer: [appadmm_receive] on the device context *)

Module Legacy.
Import Sr.

Definition APPADMM_FRAME_HEADER_SIZE : Z := 4.
Definition APPADMM_FRAME_CHECKSUM_SIZE : Z := 1.
Definition APPADMM_FRAME_MAX_DATA_SIZE : Z := 64.
Definition APPADMM_FRAME_MAX_SIZE : Z :=
  APPADMM_FRAME_MAX_DATA_SIZE + APPADMM_FRAME_HEADER_SIZE
  + APPADMM_FRAME_CHECKSUM_SIZE.
Definition APPADMM_FRAME_START_VALUE_BYTE : Z := 0x55.

(** The receive buffer of [struct appadmm_context]. *)
Record appadmm_context := mk_context {
  recv_buffer : list Z;       (* uint8_t recv_buffer[APPADMM_FRAME_MAX_SIZE] *)
  recv_buffer_len : Z         (* uint8_t *)
}.

Definition appadmm_receive_buffer_reset (arg_devc : appadmm_context)
  : appadmm_context :=
  {| recv_buffer_len := 0;
     recv_buffer := wr (wr (wr (wr (recv_buffer arg_devc) 0 0) 1 0) 2 0) 3 0 |}.

(** Same switch as [AppaDmm.appadmm_get_response_size]. *)
Definition appadmm_frame_response_size (arg_command : Z) : Z :=
  AppaDmm.appadmm_get_response_size arg_command.

Definition appadmm_is_response_frame_data_size_valid (arg_command : Z)
    (arg_size : Z) : Z :=
  let size := appadmm_frame_response_size arg_command in
  if size <? SR_OK then size
  else if (arg_command =? AppaDmm.APPADMM_COMMAND_READ_MEMORY)
          && (arg_size <=? size)
  then SR_OK
  else if size =? arg_size then SR_OK
  else SR_ERR_DATA.

(** The header checks of the loop: [Some d] when the byte is dropped
    ([continue], with the possibly reset context), [None] when it is to
    be stored. *)
Definition rejects (devc : appadmm_context) (b : Z) : option appadmm_context :=
  if recv_buffer_len devc <? 1 then
    if negb (b =? APPADMM_FRAME_START_VALUE_BYTE) then Some devc else None
  else if recv_buffer_len devc <? 2 then
    if negb (b =? APPADMM_FRAME_START_VALUE_BYTE)
    then Some (appadmm_receive_buffer_reset devc) else None
  else if recv_buffer_len devc <? 3 then
    if appadmm_frame_response_size b <? 0
    then Some (appadmm_receive_buffer_reset devc) else None
  else if recv_buffer_len devc <? 4 then
    if appadmm_is_response_frame_data_size_valid
         (rd (recv_buffer devc) (recv_buffer_len devc - 1)) b <? SR_OK
    then Some (appadmm_receive_buffer_reset devc) else None
  else None.

(** One iteration of the loop.  A complete frame is handed to
    [appadmm_frame_decode] and [appadmm_process], which work on the
    session and leave the receive buffer alone: the frame is recorded in
    the second component. *)
Definition receive_byte (devc : appadmm_context) (b : Z)
  : appadmm_context * list (list Z) :=
  match rejects devc b with
  | Some d => (d, [])
  | None =>
    let d := {| recv_buffer := wr (recv_buffer devc) (recv_buffer_len devc) b;
                recv_buffer_len := u8 (recv_buffer_len devc + 1) |} in
    let '(d, frames) :=
      if (recv_buffer_len d >? 4)
         && (rd (recv_buffer d) 3 + APPADMM_FRAME_HEADER_SIZE
             + APPADMM_FRAME_CHECKSUM_SIZE =? recv_buffer_len d)
      then (appadmm_receive_buffer_reset d,
            [take (Z.to_nat (recv_buffer_len d)) (recv_buffer d)])
      else (d, []) in
    if recv_buffer_len d >? APPADMM_FRAME_MAX_SIZE
    then (appadmm_receive_buffer_reset d, frames)
    else (d, frames)
  end.

Fixpoint receive_loop (bytes : list Z) (devc : appadmm_context)
  : appadmm_context * list (list Z) :=
  match bytes with
  | [] => (devc, [])
  | b :: rest =>
    let '(d, fs) := receive_byte devc b in
    let '(d', fs') := receive_loop rest d in
    (d', fs ++ fs')
  end.

(** [appadmm_receive] on the bytes one read returned. *)
Definition appadmm_receive (devc : appadmm_context) (rx : TpAppa.serial_read)
  : appadmm_context * list (list Z) * Z :=
  match rx with
  | TpAppa.ReadError len => (devc, [], len)
  | TpAppa.ReadBytes bytes =>
    let '(d, fs) := receive_loop bytes devc in (d, fs, SR_OK)
  end.

(** A device context with an empty receive buffer. *)
Definition context0 : appadmm_context :=
  appadmm_receive_buffer_reset
    {| recv_buffer := replicate 69 0; recv_buffer_len := 0 |}.

(** One [appadmm_receive] call per chunk of bytes read; the frames
    handed to the decoder are collected in order. *)
Fixpoint receive_calls (devc : appadmm_context) (chunks : list (list Z))
  : appadmm_context * list (list Z) :=
  match chunks with
  | [] => (devc, [])
  | c :: rest =>
    let '(d, fs, _) := appadmm_receive devc (TpAppa.ReadBytes c) in
    let '(d', fs') := receive_calls d rest in
    (d', fs ++ fs')
  end.

(** *** Frames: encoding and decoding *)

Definition APPADMM_FRAME_START_VALUE : Z := 0x5555.

(** [appadmm_frame_checksum]: the same loop as [sr_tp_appa_checksum],
    with an [int] size. *)
Definition appadmm_frame_checksum (arg_data : list Z) (arg_size : Z) : Z :=
  TpAppa.checksum_loop arg_data (Z.to_nat arg_size) 0.

(** Same switch as [AppaDmm.appadmm_get_request_size]. *)
Definition appadmm_frame_request_size (arg_command : Z) : Z :=
  AppaDmm.appadmm_get_request_size arg_command.

(** Modelled from the spec: the declarations of [struct appadmm_frame_s]
    and of [struct appadmm_response_data_read_protocol_version_s] of
    this revision are missing from the sources; a frame is its command
    and the union of the response records the decoders fill, the
    protocol version being [{protocol_id: u16, major_protocol_version:
    u8, minor_protocol_version: u8}]. *)
Inductive response_data :=
| read_information (r : AppaDmm.Info.appadmm_response_data_read_information_s)
| read_display (r : AppaDmm.appadmm_response_data_read_display_s)
| read_protocol_version (protocol_id major_protocol_version
                         minor_protocol_version : Z).

Record appadmm_frame_s := mk_frame {
  command : Z;
  response : response_data
}.

Import AppaDmm.

Definition appadmm_frame_decode_read_information
  : reader (Z * Info.appadmm_response_data_read_information_s) :=
  do model_name <- read_chars 32 0 (replicate 32 0) ;
  let model_name := wr model_name 31 0 in
  do serial_number <- read_chars 16 0 (replicate 16 0) ;
  let serial_number := wr serial_number 15 0 in
  do model_id <- read_u16le_inc ;
  do firmware_version <- read_u16le_inc ;
  rret (SR_OK,
        {| Info.model_name := g_strstrip (c_string model_name);
           Info.serial_number := g_strstrip (c_string serial_number);
           Info.model_id := model_id;
           Info.firmware_version := firmware_version |}).

Definition appadmm_frame_decode_read_display
  : reader (Z * appadmm_response_data_read_display_s) :=
  do fm <- read_u8_inc ;
  do rg <- read_u8_inc ;
  do main <- read_display_data ;
  do sub <- read_display_data ;
  rret (SR_OK,
        {| function_code := Z.land fm 0x7f;
           auto_test := Z.shiftr fm 7;
           range_code := Z.land rg 0x7f;
           auto_range := Z.shiftr rg 7;
           main_display_data := main;
           sub_display_data := sub |}).

Definition appadmm_frame_decode_read_protocol_version
  : reader (Z * response_data) :=
  do protocol_id <- read_u16le_inc ;
  do major <- read_u8_inc ;
  do minor <- read_u8_inc ;
  rret (SR_OK, read_protocol_version protocol_id major minor).

(** The [switch (arg_out_frame->command)] of [appadmm_frame_decode]:
    an early return code, or the response decoded and the cursor behind
    it. *)
Definition decode_response (cmd size : Z) (arg_data : list Z) (rdptr : Z)
  : Z + (response_data * Z) :=
  if cmd =? APPADMM_COMMAND_READ_INFORMATION then
    if negb (size =? APPADMM_FRAME_DATA_SIZE_RESPONSE_READ_INFORMATION)
    then inl SR_ERR_DATA
    else
      let '((retr, r), p) := appadmm_frame_decode_read_information arg_data rdptr in
      if retr <? SR_OK then inl retr else inr (read_information r, p)
  else if cmd =? APPADMM_COMMAND_READ_DISPLAY then
    if negb (size =? APPADMM_FRAME_DATA_SIZE_RESPONSE_READ_DISPLAY)
    then inl SR_ERR_DATA
    else
      let '((retr, r), p) := appadmm_frame_decode_read_display arg_data rdptr in
      if retr <? SR_OK then inl retr else inr (read_display r, p)
  else if cmd =? APPADMM_COMMAND_READ_PROTOCOL_VERSION then
    if negb (size =? APPADMM_FRAME_DATA_SIZE_RESPONSE_READ_PROTOCOL_VERSION)
    then inl SR_ERR_DATA
    else
      let '((retr, r), p) :=
        appadmm_frame_decode_read_protocol_version arg_data rdptr in
      if retr <? SR_OK then inl retr else inr (r, p)
  else inl SR_ERR_DATA.

(** [appadmm_frame_decode]: the return code and the frame decoded;
    [arg_out_frame] is the caller's frame on entry. *)
Definition appadmm_frame_decode (arg_data : list Z) (arg_size : Z)
    (arg_out_frame : appadmm_frame_s) : Z * appadmm_frame_s :=
  let '(u16, rdptr) := read_u16le_inc arg_data 0 in
  if negb (u16 =? APPADMM_FRAME_START_VALUE) then (SR_ERR_DATA, arg_out_frame)
  else
    let '(cmd, rdptr) := read_u8_inc arg_data rdptr in
    let frame := {| command := cmd; response := response arg_out_frame |} in
    let '(size, rdptr) := read_u8_inc arg_data rdptr in
    if size + APPADMM_FRAME_HEADER_SIZE + APPADMM_FRAME_CHECKSUM_SIZE >? arg_size
    then (SR_ERR_DATA, frame)
    else
      match decode_response cmd size arg_data rdptr with
      | inl retr => (retr, frame)
      | inr (r, rdptr) =>
        let frame := {| command := cmd; response := r |} in
        let '(u8, rdptr) := read_u8_inc arg_data rdptr in
        if negb (u8 =? appadmm_frame_checksum arg_data
                         (size + APPADMM_FRAME_HEADER_SIZE))
        then (SR_ERR_DATA, frame)
        else (SR_OK, frame)
      end.

(** [appadmm_frame_encode]: the return code, the output buffer and
    [*arg_out_size]. *)
Definition appadmm_frame_encode (arg_frame : appadmm_frame_s)
    (arg_out_data : list Z) (arg_size : Z) (arg_out_size : Z)
  : Z * list Z * Z :=
  let size := appadmm_frame_request_size (command arg_frame) in
  if size <? 0 then (SR_ERR_DATA, arg_out_data, arg_out_size)
  else if size + APPADMM_FRAME_HEADER_SIZE + APPADMM_FRAME_CHECKSUM_SIZE >? arg_size
  then (SR_ERR_DATA, arg_out_data, arg_out_size)
  else
    (* encode frame header *)
    let '(d, wrptr) := write_u16le_inc APPADMM_FRAME_START_VALUE arg_out_data 0 in
    let '(d, wrptr) := write_u8_inc (command arg_frame) d wrptr in
    let '(d, wrptr) := write_u8_inc size d wrptr in
    (* encode frame data *)
    if one_of [APPADMM_COMMAND_READ_INFORMATION; APPADMM_COMMAND_READ_DISPLAY;
               APPADMM_COMMAND_READ_PROTOCOL_VERSION;
               APPADMM_COMMAND_READ_BATTERY_LIFE; APPADMM_COMMAND_CAL_READING]
         (command arg_frame)
    then
      (* These frames have no payload, so nothing to do here *)
      let '(d, wrptr) :=
        write_u8_inc (appadmm_frame_checksum d (size + APPADMM_FRAME_HEADER_SIZE))
          d wrptr in
      (SR_OK, d,
       size + APPADMM_FRAME_HEADER_SIZE + APPADMM_FRAME_CHECKSUM_SIZE)
    else (SR_ERR_DATA, d, arg_out_size).

(** Modelled from the spec: [serial_write_blocking] belongs to the
    serial layer; a write of [n] bytes is taken to put all of them on the
    line and to return [n]. *)
Definition serial_write_blocking (line : list Z) (bytes : list Z) (n : Z)
  : list Z * Z :=
  (line ++ take (Z.to_nat n) bytes, n).

(** [appadmm_send]: [buf] and [len] are the locals as they are on
    entry, [line] the bytes already on the serial line. *)
Definition appadmm_send (buf : list Z) (len : Z) (line : list Z)
    (arg_frame : appadmm_frame_s) : list Z * Z :=
  let '(retr, buf, len) :=
    appadmm_frame_encode arg_frame buf APPADMM_FRAME_MAX_SIZE len in
  if retr <? 0 then (line, retr)
  else
    let '(line, retr) := serial_write_blocking line buf len in
    if retr =? len then (line, SR_OK) else (line, SR_ERR_IO).

End Legacy.

(** ** The specification's own words, to compare the code with *)

Module Spec.
Import AppaDmm.

(** The additive checksum: the sum of the bytes modulo 256. *)
Definition checksum (l : list Z) : Z := fold_right Z.add 0 l mod 256.

(** The 4 header bytes of a frame with command [c] and payload [P]. *)
Definition header (c : Z) (P : list Z) : list Z :=
  [0x55; 0x55; c; Z.of_nat (List.length P)].

(** A candidate frame on the wire, with trailing byte [cs]. *)
Definition frame (c : Z) (P : list Z) (cs : Z) : list Z :=
  header c P ++ P ++ [cs].

(** A checksum-valid frame: the trailing byte is the checksum of header
    and payload. *)
Definition valid_frame (c : Z) (P : list Z) : list Z :=
  frame c P (checksum (header c P ++ P)).

(** No two consecutive start bytes. *)
Fixpoint no_double_start (G : list Z) : bool :=
  match G with
  | a :: (b :: _) as rest =>
    negb ((a =? 0x55) && (b =? 0x55)) && no_double_start rest
  | _ => true
  end.

(** What a delivered packet carries: command and payload. *)
Definition delivered (p : TpAppa.sr_tp_appa_packet) : Z * list Z :=
  (TpAppa.command p, TpAppa.payload p).

(** Bits [lo .. lo+n-1] of [x]. *)
Definition bits (x lo n : Z) : Z := (x / 2 ^ lo) mod 2 ^ n.

(** Three bytes as a little-endian 24-bit two's complement number. *)
Definition i24le (b0 b1 b2 : Z) : Z :=
  let u := b0 + 256 * b1 + 65536 * b2 in
  if u <? 2 ^ 23 then u else u - 2 ^ 24.

(** The 5-byte display layout at offset [off] of a payload [b]. *)
Definition layout_display (b : Z -> Z) (off : Z) : appadmm_display_data_s :=
  {| reading := i24le (b off) (b (off + 1)) (b (off + 2));
     dot := bits (b (off + 3)) 0 3;
     unit := bits (b (off + 3)) 3 5;
     data_content := bits (b (off + 4)) 0 7;
     overload := bits (b (off + 4)) 7 1 |}.

(** The 12-byte Read Display payload. *)
Definition layout_read_display (b : Z -> Z)
  : appadmm_response_data_read_display_s :=
  {| function_code := bits (b 0) 0 7;
     auto_test := bits (b 0) 7 1;
     range_code := bits (b 1) 0 7;
     auto_range := bits (b 1) 7 1;
     main_display_data := layout_display b 2;
     sub_display_data := layout_display b 7 |}.

(** The response catalog as a table: the commands that have a response
    size, with that size. *)
Definition response_catalog : list (Z * Z) :=
  [ (APPADMM_COMMAND_READ_INFORMATION, 52);
    (APPADMM_COMMAND_READ_DISPLAY, 12);
    (APPADMM_COMMAND_READ_PROTOCOL_VERSION, 4);
    (APPADMM_COMMAND_READ_BATTERY_LIFE, 4);
    (APPADMM_COMMAND_CAL_READING, 23);
    (APPADMM_COMMAND_READ_MEMORY, 64);
    (APPADMM_COMMAND_READ_HARMONICS_DATA, 50);
    (APPADMM_COMMAND_FAILURE, 1);
    (APPADMM_COMMAND_SUCCESS, 0) ].

Fixpoint lookup_size (tbl : list (Z * Z)) (cmd : Z) : option Z :=
  match tbl with
  | [] => None
  | (c, n) :: rest => if cmd =? c then Some n else lookup_size rest cmd
  end.

Definition catalog_size (cmd : Z) : option Z := lookup_size response_catalog cmd.

(** The display record a channel role selects. *)
Definition display_of (arg_channel : appadmm_channel_e)
    (arg_data : appadmm_response_data_read_display_s) : appadmm_display_data_s :=
  match arg_channel with
  | APPADMM_CHANNEL_MAIN => main_display_data arg_data
  | _ => sub_display_data arg_data
  end.

(** The per-unit adjustment as a table: the factor the reading is scaled
    by, and the number of decimal digits added. *)
Definition unit_table : list (Z * (Q * Z)) :=
  [ (APPADMM_UNIT_NONE, (1%Q, 0));
    (APPADMM_UNIT_V, (1%Q, 0));
    (APPADMM_UNIT_MV, ((1 # 1000)%Q, 3));
    (APPADMM_UNIT_A, (1%Q, 0));
    (APPADMM_UNIT_MA, ((1 # 1000)%Q, 3));
    (APPADMM_UNIT_DB, (1%Q, 0));
    (APPADMM_UNIT_DBM, (1%Q, 0));
    (APPADMM_UNIT_MF, ((1 # 1000)%Q, 3));
    (APPADMM_UNIT_UF, ((1 # 1000000)%Q, 6));
    (APPADMM_UNIT_NF, ((1 # 1000000000)%Q, 9));
    (APPADMM_UNIT_GOHM, ((1000000000 # 1)%Q, -9));
    (APPADMM_UNIT_MOHM, ((1000000 # 1)%Q, -6));
    (APPADMM_UNIT_KOHM, ((1000 # 1)%Q, -3));
    (APPADMM_UNIT_OHM, (1%Q, 0));
    (APPADMM_UNIT_PERCENT, (1%Q, 0));
    (APPADMM_UNIT_MHZ, ((1000000 # 1)%Q, -6));
    (APPADMM_UNIT_KHZ, ((1000 # 1)%Q, -3));
    (APPADMM_UNIT_HZ, (1%Q, 0));
    (APPADMM_UNIT_DEGC, (1%Q, 0));
    (APPADMM_UNIT_DEGF, (1%Q, 0));
    (APPADMM_UNIT_SEC, (1%Q, 0));
    (APPADMM_UNIT_MS, ((1 # 1000)%Q, 3));
    (APPADMM_UNIT_US, ((1 # 1000000)%Q, 6));
    (APPADMM_UNIT_NS, ((1 # 1000000000)%Q, 9));
    (APPADMM_UNIT_UA, ((1 # 1000000)%Q, 6));
    (APPADMM_UNIT_MIN, ((60 # 1)%Q, 0));
    (APPADMM_UNIT_KW, ((1000 # 1)%Q, -3));
    (APPADMM_UNIT_PF, (1%Q, 0)) ].

Fixpoint lookup_unit (tbl : list (Z * (Q * Z))) (u : Z) : Q * Z :=
  match tbl with
  | [] => (1%Q, 0)
  | (c, adj) :: rest => if u =? c then adj else lookup_unit rest u
  end.

Definition unit_scale (u : Z) : Q := fst (lookup_unit unit_table u).
Definition unit_digits (u : Z) : Z := snd (lookup_unit unit_table u).

(** Dot [d] of 0..4 divides by [10 ^ d]. *)
Definition dot_scale (d : Z) : Q := (1 / inject_Z (10 ^ d))%Q.

End Spec.

(** A list of bytes: every element fits [uint8_t]. *)
Definition is_u8b (z : Z) : bool := (0 <=? z) && (z <? 256).
Definition bytes (l : list Z) : Prop := forallb is_u8b l = true.

(** ** Notions and inputs the properties are stated with *)

Module Framing.
Import TpAppa.

(** [buffer[buffer_size++] = b] *)
Definition push (t : sr_tp_appa_inst) (b : Z) : sr_tp_appa_inst :=
  {| buffer := wr (buffer t) (buffer_size t) b;
     buffer_size := buffer_size t + 1 |}.

(** The bytes buffered so far. *)
Definition filled (t : sr_tp_appa_inst) : list Z :=
  take (Z.to_nat (buffer_size t)) (buffer t).

Definition room (t : sr_tp_appa_inst) : Prop :=
  0 <= buffer_size t /\ (Z.to_nat (buffer_size t) < List.length (buffer t))%nat.

(** What the framer relies on between two bytes of a call: the buffer
    has its 69 cells, at most 68 are filled, and once the length byte is
    buffered it is in 0..64 and the frame is not complete yet. *)
Definition framer_inv (t : sr_tp_appa_inst) : Prop :=
  List.length (buffer t) = 69%nat
  /\ 0 <= buffer_size t <= 68
  /\ (4 <= buffer_size t ->
      0 <= rd (buffer t) 3 <= 64 /\ buffer_size t < rd (buffer t) 3 + 5).

(** No start byte among the bytes. *)
Definition no_start (bs : list Z) : Prop :=
  forallb (fun b => negb (b =? SR_TP_APPA_START_BYTE)) bs = true.

(** A read that brought no start byte. *)
Definition quiet (rx : serial_read) : Prop :=
  match rx with
  | ReadError _ => False
  | ReadBytes bs => no_start bs
  end.

(** The same notions for the earlier framer. *)
Definition lpush (d : Legacy.appadmm_context) (b : Z) : Legacy.appadmm_context :=
  {| Legacy.recv_buffer := wr (Legacy.recv_buffer d) (Legacy.recv_buffer_len d) b;
     Legacy.recv_buffer_len := Legacy.recv_buffer_len d + 1 |}.

Definition lfilled (d : Legacy.appadmm_context) : list Z :=
  take (Z.to_nat (Legacy.recv_buffer_len d)) (Legacy.recv_buffer d).

(** An empty receive buffer of 69 cells. *)
Definition lempty (d : Legacy.appadmm_context) : Prop :=
  Legacy.recv_buffer_len d = 0 /\ List.length (Legacy.recv_buffer d) = 69%nat.

End Framing.

(** ** Text fields of the Read Information response *)

Module Text.
Import AppaDmm.

(** A field filled up with spaces to [n] characters. *)
Definition pad (n : nat) (s : list Z) : list Z :=
  s ++ replicate (n - List.length s) 32.

(** No NUL inside and no white space at either end. *)
Definition trimmed (s : list Z) : bool :=
  forallb (fun c => negb (c =? 0)) s
  && negb (g_ascii_isspace (List.hd 1 s))
  && negb (g_ascii_isspace (List.last s 1)).

Definition no_space (s : list Z) : bool :=
  forallb (fun c => negb (c =? 32)) s.

(** The two bytes of a 16-bit number, low byte first. *)
Definition u16le (v : Z) : list Z := [v mod 256; v / 256].

(** The payload of a Read Information response. *)
Definition information (name serial : list Z) (id fw : Z) : list Z :=
  pad 32 name ++ pad 16 serial ++ u16le id ++ u16le fw.

End Text.

(** ** The flags of a reading, flag by flag *)

Module Flags.
Import AppaDmm.

(** The display units that are measured in volt, ampere or watt. *)
Definition electrical (u : Z) : bool :=
  one_of [APPADMM_UNIT_V; APPADMM_UNIT_MV; APPADMM_UNIT_A; APPADMM_UNIT_MA;
          APPADMM_UNIT_UA; APPADMM_UNIT_KW] u.

(** The flags of the data content [dc] on channel [ch]. *)
Definition content_flag (ch : appadmm_channel_e) (dc : Z) (f : sr_mqflag) : bool :=
  let sub := match ch with APPADMM_CHANNEL_SUB => true | _ => false end in
  let relative := one_of [APPADMM_DATA_CONTENT_REL_DELTA;
                          APPADMM_DATA_CONTENT_REL_PERCENT] dc in
  match f with
  | SR_MQFLAG_MAX => one_of [APPADMM_DATA_CONTENT_MAXIMUM;
                             APPADMM_DATA_CONTENT_PEAK_HOLD_MAX] dc
  | SR_MQFLAG_MIN => one_of [APPADMM_DATA_CONTENT_MINIMUM;
                             APPADMM_DATA_CONTENT_PEAK_HOLD_MIN] dc
  | SR_MQFLAG_AVG => dc =? APPADMM_DATA_CONTENT_AVERAGE
  | SR_MQFLAG_HOLD => sub && one_of [APPADMM_DATA_CONTENT_PEAK_HOLD_MAX;
                                     APPADMM_DATA_CONTENT_PEAK_HOLD_MIN;
                                     APPADMM_DATA_CONTENT_AUTO_HOLD;
                                     APPADMM_DATA_CONTENT_HOLD] dc
  | SR_MQFLAG_REFERENCE => sub && relative
  | SR_MQFLAG_RELATIVE => negb sub && relative
  | _ => false
  end.

(** The flags of the function code [fc], for a display unit that is
    electrical or not. *)
Definition function_flag (el : bool) (fc : Z) (f : sr_mqflag) : bool :=
  match f with
  | SR_MQFLAG_AC | SR_MQFLAG_RMS =>
    el && (one_of function_codes_ac fc || one_of function_codes_ac_dc fc)
  | SR_MQFLAG_DC =>
    one_of function_codes_dc fc || (fc =? APPADMM_FUNCTIONCODE_DIODE)
    || (el && one_of function_codes_ac_dc fc)
  | SR_MQFLAG_DIODE => fc =? APPADMM_FUNCTIONCODE_DIODE
  | _ => false
  end.

(** Whether flag [f] belongs to the reading [dd] of channel [ch]. *)
Definition expected (ch : appadmm_channel_e)
    (arg_data : appadmm_response_data_read_display_s)
    (dd : appadmm_display_data_s) (f : sr_mqflag) : bool :=
  content_flag ch (data_content dd) f
  || (bool_decide (f = SR_MQFLAG_AUTORANGE)
      && (auto_range arg_data =? APPADMM_AUTO_RANGE))
  || function_flag (electrical (unit dd)) (function_code arg_data) f.

End Flags.

Module Vectors.
Import Sr TpAppa AppaDmm Spec.

(** A frame that is valid both for the specification (trailing byte =
    checksum of header and payload) and for the framer's test: its last
    four payload bytes add up to 0 modulo 256. *)
Definition frame_A : list Z := valid_frame 3 [1; 255; 2; 254].

(** The Read Display request: command 0x01, no payload. *)
Definition read_display_request : sr_tp_appa_packet :=
  {| command := 0x01; length := 0; data := replicate 64 0 |}.

(** What the receiver returns for the bytes the sender puts on the line,
    when [header[3]] held [u] on entry. *)
Definition loopback (u : Z) : Z * Z :=
  let '(line, sent) := sr_tp_appa_send [0; 0; 0; u] [] read_display_request in
  (sent, snd (sr_tp_appa_receive inst0 packet0 (ReadBytes line))).

(** A Read Display response: DC V, auto range, primary -1 with dot 3 in
    volt, secondary the DASH word code with overload set. *)
Definition sample_display_packet : sr_tp_appa_packet :=
  {| TpAppa.command := 0x01;
     TpAppa.length := 12;
     TpAppa.data :=
       [0x02; 0x81; 0xff; 0xff; 0xff; 0x0b; 0x0d; 0x14; 0x00; 0x70; 0x92; 0x80]
       ++ replicate 52 0 |}.

Definition blank_display : appadmm_response_data_read_display_s :=
  {| function_code := 0; auto_test := 0; range_code := 0; auto_range := 0;
     main_display_data := mk_display_data 0 0 0 0 0;
     sub_display_data := mk_display_data 0 0 0 0 0 |}.

(** A Read Memory response with 6 payload bytes and a zeroed record. *)
Definition sample_memory_packet : TpAppa.sr_tp_appa_packet :=
  {| TpAppa.command := 0x1a;
     TpAppa.length := 6;
     TpAppa.data := [0x00; 0x0a; 0x01; 0xf4; 0x00; 0x07] ++ replicate 58 0xee |}.

Definition blank_memory : Rs.appadmm_response_data_read_memory_s :=
  {| Rs.data := replicate 64 0; Rs.data_length := 0 |}.

(** The MEM storage layout of the paging scenario. *)
Definition mem_storage_info : appadmm_storage_info_s :=
  {| rate := 0; amount := 0;
     entry_size := 5; entry_count := 500; mem_offset := 0x500; mem_count := 2 |}.

Definition blank_request : Rq.appadmm_request_data_read_memory_s :=
  {| Rq.device_number := 0; Rq.memory_address := 0; Rq.data_length := 0 |}.

(** The DASH word code on the primary display: dot 0, volt, no
    overload. *)
Definition dash_display : appadmm_response_data_read_display_s :=
  {| function_code := APPADMM_FUNCTIONCODE_DC_V;
     auto_test := 0; range_code := 0; auto_range := 0;
     main_display_data :=
       {| reading := APPADMM_WORDCODE_DASH; dot := 0; unit := APPADMM_UNIT_V;
          data_content := 0; overload := 0 |};
     sub_display_data := mk_display_data 0 0 0 0 0 |}.

Definition analog0 : Analog.sr_datafeed_analog :=
  {| Analog.mq := None; Analog.unit := None; Analog.mqflags := [];
     Analog.digits := 0; Analog.spec_digits := 0 |}.

(** A plain reading: 1234 with dot 3 in kOhm on the primary display. *)
Definition kohm_display : appadmm_response_data_read_display_s :=
  {| function_code := APPADMM_FUNCTIONCODE_OHM;
     auto_test := 0; range_code := 0; auto_range := 1;
     main_display_data :=
       {| reading := 1234; dot := APPADMM_DOT_99_999; unit := APPADMM_UNIT_KOHM;
          data_content := 0; overload := 0 |};
     sub_display_data := mk_display_data 0 0 0 0 0 |}.

(** A scaled reading: 12345 with dot 2 in mV on the primary display,
    123.45 mV. *)
Definition millivolt_display : appadmm_response_data_read_display_s :=
  {| function_code := APPADMM_FUNCTIONCODE_DC_MV;
     auto_test := 0; range_code := 0; auto_range := 0;
     main_display_data :=
       {| reading := 12345; dot := APPADMM_DOT_999_99; unit := APPADMM_UNIT_MV;
          data_content := 0; overload := 0 |};
     sub_display_data := mk_display_data 0 0 0 0 0 |}.

(** A held reading on the secondary display: 2300 with dot 1 in volt,
    AC voltage function, automatic range. *)
Definition hold_display : appadmm_response_data_read_display_s :=
  {| function_code := APPADMM_FUNCTIONCODE_AC_V;
     auto_test := 0; range_code := 0; auto_range := APPADMM_AUTO_RANGE;
     main_display_data := mk_display_data 0 0 0 0 0;
     sub_display_data :=
       {| reading := 2300; dot := APPADMM_DOT_9999_9; unit := APPADMM_UNIT_V;
          data_content := APPADMM_DATA_CONTENT_HOLD; overload := 0 |} |}.

(** An overloaded reading: 1234 mV with the overload bit set on the
    secondary display. *)
Definition overload_display : appadmm_response_data_read_display_s :=
  {| function_code := APPADMM_FUNCTIONCODE_DC_MV;
     auto_test := 0; range_code := 0; auto_range := 0;
     main_display_data := mk_display_data 0 0 0 0 0;
     sub_display_data :=
       {| reading := 1234; dot := APPADMM_DOT_9999_9; unit := APPADMM_UNIT_MV;
          data_content := 0; overload := 1 |} |}.

(** A Read Information response of an APPA 506B: the payload, and the
    frame with the trailing byte the framer tests for. *)
Definition info_name : list Z := [65; 80; 80; 65; 32; 53; 48; 54; 66].
Definition info_serial : list Z := [49; 50; 51; 52].

Definition info_payload : list Z :=
  Text.information info_name info_serial APPADMM_MODEL_ID_506B 123.

Definition info_frame : list Z :=
  frame APPADMM_COMMAND_READ_INFORMATION info_payload
    (checksum (take 52 (header APPADMM_COMMAND_READ_INFORMATION info_payload
                        ++ info_payload))).

Definition blank_information : Info.appadmm_response_data_read_information_s :=
  {| Info.model_name := []; Info.serial_number := [];
     Info.model_id := 0; Info.firmware_version := 0 |}.

Definition blank_identity : identity :=
  {| vendor := []; model := []; version := []; serial_num := [];
     devc_model_id := APPADMM_MODEL_ID_INVALID |}.

(** A session in which every descriptor is set up and every packet
    accepted. *)
Definition ok_session (ch : appadmm_channel_e) : session :=
  {| analog_init_retr := SR_OK; analog_init := analog0;
     session_send_retr := SR_OK |}.

End Vectors.
(** * Properties *)

Lemma u8_range z : is_u8 (u8 z).
Proof. unfold is_u8, u8. apply Z.mod_pos_bound. lia. Qed.

Lemma u8_id z : is_u8 z -> u8 z = z.
Proof. unfold is_u8, u8. intros H. apply Z.mod_small. exact H. Qed.

(** ** The frame catalog *)

Module CatalogFacts.
Import Sr AppaDmm Spec.

Lemma get_response_size_catalog cmd :
  appadmm_get_response_size cmd =
  match catalog_size cmd with Some n => n | None => SR_ERR_DATA end.
Proof.
  unfold appadmm_get_response_size, catalog_size, response_catalog, lookup_size.
  repeat (destruct (cmd =? _); [reflexivity|]).
  reflexivity.
Qed.

Lemma catalog_size_nonneg cmd n : catalog_size cmd = Some n -> 0 <= n <= 64.
Proof.
  unfold catalog_size, response_catalog, lookup_size.
  repeat (destruct (cmd =? _); [intros [= <-]; lia|]).
  discriminate.
Qed.

(** C8: the response-size validator returns [SR_OK] exactly when the
    command is Read Memory and the size is at most the catalog maximum
    of Read Memory, or the size is exactly the catalog size of the
    command; for a command without a response size it returns an
    error. *)
Theorem C8_response_size_valid (cmd size : Z) :
  (appadmm_is_response_size_valid cmd size = SR_OK <->
     (cmd = APPADMM_COMMAND_READ_MEMORY /\
      exists max, catalog_size APPADMM_COMMAND_READ_MEMORY = Some max /\ size <= max)
     \/ catalog_size cmd = Some size)
  /\ (appadmm_is_response_size_valid cmd size = SR_OK \/
      appadmm_is_response_size_valid cmd size = SR_ERR_DATA)
  /\ (catalog_size cmd = None ->
      appadmm_is_response_size_valid cmd size = SR_ERR_DATA).
Proof.
  unfold appadmm_is_response_size_valid.
  rewrite get_response_size_catalog.
  assert (Hmem : catalog_size APPADMM_COMMAND_READ_MEMORY = Some 64) by reflexivity.
  destruct (catalog_size cmd) as [n|] eqn:Hc.
  - pose proof (catalog_size_nonneg _ _ Hc) as Hn.
    unfold SR_OK, SR_ERR_DATA.
    destruct (n <? 0) eqn:Hneg; [lia|].
    destruct (cmd =? APPADMM_COMMAND_READ_MEMORY) eqn:Hrm; simpl.
    + apply Z.eqb_eq in Hrm. subst cmd.
      assert (n = 64) as -> by congruence.
      destruct (size <=? 64) eqn:Hle.
      * split; [|split; [auto|discriminate]].
        split; [|reflexivity]. intros _. left. split; [reflexivity|].
        exists 64. split; [reflexivity|lia].
      * destruct (64 =? size) eqn:He; [lia|].
        split; [|split; [auto|discriminate]].
        split; [discriminate|].
        intros [[_ [max [Hm Hs]]]|Hs].
        -- rewrite Hmem in Hm. injection Hm as <-. lia.
        -- injection Hs as <-. lia.
    + apply Z.eqb_neq in Hrm.
      destruct (n =? size) eqn:He.
      * apply Z.eqb_eq in He. subst size.
        split; [|split; [auto|discriminate]].
        split; [auto|reflexivity].
      * apply Z.eqb_neq in He.
        split; [|split; [auto|discriminate]].
        split; [discriminate|].
        intros [[Hcmd _]|Hs]; [contradiction|]. injection Hs as <-. lia.
  - unfold SR_OK, SR_ERR_DATA. simpl.
    split; [|split; [auto|reflexivity]].
    split; [discriminate|].
    intros [[Hcmd _]|Hs]; [|discriminate].
    subst cmd. rewrite Hmem in Hc. discriminate.
Qed.

End CatalogFacts.

(** ** Bit fields and the Read Display decoder *)

Module CodecFacts.
Import Sr AppaDmm Spec Vectors.

Lemma is_u8b_spec z : is_u8b z = true <-> is_u8 z.
Proof. unfold is_u8b, is_u8. rewrite andb_true_iff, Z.leb_le, Z.ltb_lt. tauto. Qed.

Lemma rd_bytes l i : bytes l -> is_u8 (rd l i).
Proof.
  unfold bytes, rd. intros H.
  destruct (l !! Z.to_nat i) as [x|] eqn:E; simpl; [|unfold is_u8; lia].
  apply is_u8b_spec. rewrite forallb_forall in H. apply H.
  apply list_elem_of_In. eapply list_elem_of_lookup_2. exact E.
Qed.

Lemma land_mask b n : 0 <= n -> Z.land b (Z.ones n) = bits b 0 n.
Proof. intros. unfold bits. rewrite Z.land_ones by lia. rewrite Z.pow_0_r, Z.div_1_r. reflexivity. Qed.

Lemma land_0x7 b : Z.land b 0x7 = bits b 0 3.
Proof. apply (land_mask b 3). lia. Qed.

Lemma land_0x7f b : Z.land b 0x7f = bits b 0 7.
Proof. apply (land_mask b 7). lia. Qed.

Lemma shiftr_bits b lo n : is_u8 b -> 0 <= lo -> 0 <= n -> lo + n = 8 -> Z.shiftr b lo = bits b lo n.
Proof.
  intros Hb Hlo Hn0 Hn. unfold bits. rewrite Z.shiftr_div_pow2 by lia.
  symmetry. apply Z.mod_small. unfold is_u8 in Hb. split.
  - apply Z.div_pos; [lia|]. apply Z.pow_pos_nonneg; lia.
  - apply Z.div_lt_upper_bound; [apply Z.pow_pos_nonneg; lia|].
    rewrite <- Z.pow_add_r by lia. rewrite Hn. change (2 ^ 8) with 256. lia.
Qed.

Lemma land_low_high x y k : 0 <= k -> 0 <= x < 2 ^ k -> Z.land x (Z.shiftl y k) = 0.
Proof.
  intros Hk Hx. apply Z.bits_inj'. intros n Hn.
  rewrite Z.land_spec, Z.bits_0.
  destruct (Z.lt_ge_cases n k) as [Hlt|Hge].
  - rewrite Z.shiftl_spec_low by lia. apply andb_false_r.
  - assert (Z.testbit x n = false) as ->; [|reflexivity].
    destruct (Z.eq_dec x 0) as [->|Hx0]; [apply Z.bits_0|].
    apply Z.bits_above_log2; [lia|].
    assert (Z.log2 x < k) by (apply Z.log2_lt_pow2; lia). lia.
Qed.

Lemma lor_low_high x y k : 0 <= k -> 0 <= x < 2 ^ k -> Z.lor x (Z.shiftl y k) = x + y * 2 ^ k.
Proof.
  intros Hk Hx. pose proof (Z.add_lor_land x (Z.shiftl y k)) as H.
  rewrite land_low_high in H by assumption.
  rewrite Z.shiftl_mul_pow2 in * by lia. lia.
Qed.

Lemma lor_bytes b0 b1 b2 : is_u8 b0 -> is_u8 b1 -> is_u8 b2 ->
  Z.lor b0 (Z.lor (Z.shiftl b1 8) (Z.shiftl b2 16)) = b0 + 256 * b1 + 65536 * b2.
Proof.
  unfold is_u8. intros H0 H1 H2.
  replace (Z.shiftl b2 16) with (Z.shiftl (Z.shiftl b2 8) 8)
    by (rewrite Z.shiftl_shiftl by lia; reflexivity).
  rewrite <- Z.shiftl_lor.
  rewrite (lor_low_high b1 b2 8) by (change (2 ^ 8) with 256; lia).
  rewrite lor_low_high by (change (2 ^ 8) with 256; lia).
  change (2 ^ 8) with 256. lia.
Qed.

Lemma testbit_23 u : 0 <= u < 2 ^ 24 -> Z.testbit u 23 = negb (u <? 2 ^ 23).
Proof.
  intros Hu. destruct (u <? 2 ^ 23) eqn:E; cbn [negb].
  - apply Z.ltb_lt in E. destruct (Z.eq_dec u 0) as [->|]; [reflexivity|].
    apply Z.bits_above_log2; [lia|]. apply Z.log2_lt_pow2; lia.
  - apply Z.ltb_ge in E. apply Z.testbit_true; [lia|].
    assert (u / 2 ^ 23 = 1) as ->; [|reflexivity].
    symmetry. apply Z.div_unique with (r := u - 2 ^ 23); lia.
Qed.

Lemma read_i24le_inc_spec mem p : bytes mem ->
  read_i24le_inc mem p = (i24le (rd mem p) (rd mem (p + 1)) (rd mem (p + 2)), p + 3).
Proof.
  intros Hm. unfold read_i24le_inc, i24le.
  pose proof (rd_bytes mem p Hm) as H0.
  pose proof (rd_bytes mem (p + 1) Hm) as H1.
  pose proof (rd_bytes mem (p + 2) Hm) as H2.
  rewrite lor_bytes by assumption.
  unfold is_u8 in *.
  rewrite testbit_23 by (change (2 ^ 24) with 16777216; lia).
  destruct (_ <? _); reflexivity.
Qed.

Lemma read_display_data_spec mem p : bytes mem ->
  read_display_data mem p = (layout_display (rd mem) p, p + 5).
Proof.
  intros Hm. unfold read_display_data, rbind, rret, read_u8_inc.
  rewrite read_i24le_inc_spec by assumption.
  unfold layout_display.
  rewrite land_0x7, land_0x7f.
  rewrite (shiftr_bits _ 3 5), (shiftr_bits _ 7 1) by (try apply rd_bytes; auto; lia).
  replace (p + 3 + 1) with (p + 4) by lia.
  replace (p + 4 + 1) with (p + 5) by lia.
  reflexivity.
Qed.

(** C5: the Read Display decoder returns a data error, leaving the
    output record as it was, whenever the packet's command is not Read
    Display or its length is not 12; otherwise it succeeds and the record
    holds the 12-byte layout: byte 0 bits 0-6 function code and bit 7
    auto test, byte 1 bits 0-6 range code and bit 7 auto range, bytes 2-4
    the primary reading as a sign-extended little-endian 24-bit number,
    byte 5 bits 0-2 dot and bits 3-7 unit, byte 6 bits 0-6 data content
    and bit 7 overload, and the same five bytes at 7-11 for the
    secondary display. *)
Theorem C5_dec_read_display (pkt : TpAppa.sr_tp_appa_packet) out :
  bytes (TpAppa.data pkt) ->
  (TpAppa.command pkt <> APPADMM_COMMAND_READ_DISPLAY \/ TpAppa.length pkt <> 12 ->
     appadmm_dec_read_display pkt out = (SR_ERR_DATA, out))
  /\ (TpAppa.command pkt = APPADMM_COMMAND_READ_DISPLAY -> TpAppa.length pkt = 12 ->
     appadmm_dec_read_display pkt out = (SR_OK, layout_read_display (rd (TpAppa.data pkt)))).
Proof.
  intros Hm. unfold appadmm_dec_read_display. split.
  - intros [Hc|Hl].
    + apply Z.eqb_neq in Hc. rewrite Hc. reflexivity.
    + destruct (_ =? APPADMM_COMMAND_READ_DISPLAY); [|reflexivity]. cbn [negb].
      unfold appadmm_is_response_size_valid.
      change (appadmm_get_response_size APPADMM_COMMAND_READ_DISPLAY) with 12.
      change (12 <? SR_OK) with false.
      change (APPADMM_COMMAND_READ_DISPLAY =? APPADMM_COMMAND_READ_MEMORY) with false.
      cbn [andb]. apply Z.eqb_neq in Hl. rewrite Z.eqb_sym in Hl. rewrite Hl.
      reflexivity.
  - intros Hc Hl. rewrite Hc, Hl.
    change (negb (APPADMM_COMMAND_READ_DISPLAY =? APPADMM_COMMAND_READ_DISPLAY)) with false.
    change (negb (appadmm_is_response_size_valid APPADMM_COMMAND_READ_DISPLAY 12 =? 0)) with false.
    cbv iota. f_equal.
    unfold rbind, rret, read_u8_inc.
    rewrite !read_display_data_spec by assumption. cbn [fst].
    unfold layout_read_display.
    rewrite !land_0x7f.
    rewrite !(shiftr_bits _ 7 1) by (try apply rd_bytes; auto; lia).
    reflexivity.
Qed.

Lemma C5_dec_read_display_witness :
  appadmm_dec_read_display sample_display_packet blank_display =
  (SR_OK,
   {| function_code := 2; auto_test := 0; range_code := 1; auto_range := 1;
      main_display_data := mk_display_data (-1) 3 1 13 0;
      sub_display_data := mk_display_data 0x700014 2 18 0 1 |}).
Proof.
  exact (proj2 (C5_dec_read_display sample_display_packet blank_display
                  eq_refl) eq_refl eq_refl).
Defined.

End CodecFacts.

(** ** The Read Memory decoder stays inside its arrays *)

Module MemoryFacts.
Import Sr AppaDmm Vectors.

Lemma in_bounds_lt (a : list Z) (k : nat) :
  (k < List.length a)%nat -> in_bounds a (Z.of_nat k) = true.
Proof.
  intros H. unfold in_bounds. apply andb_true_iff. split.
  - apply Z.leb_le. lia.
  - apply Z.ltb_lt. lia.
Qed.

(** The copy loop, started at index [k] with [n] bytes to go, faults
    nowhere and replaces exactly the cells [k .. k+n-1]. *)
Lemma copy_loop_spec (n : nat) : forall (k : nat) (src dst : list Z),
  (k + n <= List.length src)%nat ->
  (k + n <= List.length dst)%nat ->
  copy_loop n (Z.of_nat k) src (Z.of_nat k) dst =
  Ok (take k dst ++ take n (drop k src) ++ drop (k + n) dst).
Proof.
  induction n as [|n IH]; intros k src dst Hs Hd.
  - cbn [copy_loop]. rewrite Nat.add_0_r, take_0. cbn [app].
    rewrite take_drop. reflexivity.
  - cbn [copy_loop]. unfold load, store.
    rewrite !in_bounds_lt by lia.
    replace (Z.of_nat k + 1) with (Z.of_nat (S k)) by lia.
    rewrite IH; [|lia|unfold wr; rewrite length_insert; lia].
    f_equal. unfold wr, rd. rewrite Nat2Z.id.
    destruct (lookup_lt_is_Some_2 src k ltac:(lia)) as [v Hv].
    rewrite Hv. cbn [default].
    rewrite (drop_S src v k Hv). rewrite firstn_cons.
    rewrite (take_S_r _ _ v) by (apply list_lookup_insert_eq; lia).
    rewrite take_insert_ge by lia.
    rewrite drop_insert_lt by lia.
    rewrite <- app_assoc. cbn [app].
    replace (S k + n)%nat with (k + S n)%nat by lia.
    reflexivity.
Qed.

(** C10: for a packet whose declared length exceeds the 64-byte data
    array of the Read Memory response record the decoder returns a data
    error before copying any byte (the record is unchanged); no call
    accesses an array outside its bounds; and on success the declared
    length is at most 64, the cells below it hold the packet's bytes and
    every cell from the declared length on is untouched. *)
Theorem C10_dec_read_memory_in_bounds
    (pkt : TpAppa.sr_tp_appa_packet) (out : Rs.appadmm_response_data_read_memory_s) :
  List.length (TpAppa.data pkt) = 64%nat ->
  List.length (Rs.data out) = 64%nat ->
  (TpAppa.length pkt > 64 ->
     appadmm_dec_read_memory pkt out = Ok (SR_ERR_DATA, out))
  /\ appadmm_dec_read_memory pkt out <> Fault
  /\ (forall out', appadmm_dec_read_memory pkt out = Ok (SR_OK, out') ->
        TpAppa.length pkt <= 64
        /\ Rs.data_length out' = TpAppa.length pkt
        /\ List.length (Rs.data out') = 64%nat
        /\ take (Z.to_nat (TpAppa.length pkt)) (Rs.data out')
           = take (Z.to_nat (TpAppa.length pkt)) (TpAppa.data pkt)
        /\ drop (Z.to_nat (TpAppa.length pkt)) (Rs.data out')
           = drop (Z.to_nat (TpAppa.length pkt)) (Rs.data out)).
Proof.
  intros Hp Ho. unfold appadmm_dec_read_memory.
  destruct (negb (TpAppa.command pkt =? APPADMM_COMMAND_READ_MEMORY)) eqn:Hc.
  { repeat split; try discriminate. }
  unfold appadmm_is_response_size_valid.
  change (appadmm_get_response_size APPADMM_COMMAND_READ_MEMORY) with 64.
  change (64 <? SR_OK) with false.
  change (APPADMM_COMMAND_READ_MEMORY =? APPADMM_COMMAND_READ_MEMORY) with true.
  cbv iota. cbn [andb].
  destruct (TpAppa.length pkt <=? 64) eqn:Hle.
  - apply Z.leb_le in Hle.
    change (negb (SR_OK =? 0)) with false. cbv iota.
    unfold sizeof_read_memory_data.
    destruct (TpAppa.length pkt >? 64) eqn:Hgt; [lia|].
    pose proof (copy_loop_spec (Z.to_nat (TpAppa.length pkt)) 0
                  (TpAppa.data pkt) (Rs.data out)) as Hcopy.
    change (Z.of_nat 0) with 0 in Hcopy.
    rewrite take_0, drop_0 in Hcopy. cbn [app Nat.add] in Hcopy.
    rewrite Hcopy by lia. clear Hcopy.
    split; [lia|]. split; [discriminate|].
    intros out' [= <-]. cbn [Rs.data Rs.data_length].
    assert (Hlen : List.length (take (Z.to_nat (TpAppa.length pkt)) (TpAppa.data pkt))
                   = Z.to_nat (TpAppa.length pkt))
      by (rewrite length_take; lia).
    repeat split.
    + exact Hle.
    + rewrite length_app, Hlen, length_drop. lia.
    + rewrite take_app_length'; [reflexivity|symmetry; exact Hlen].
    + rewrite drop_app_length'; [reflexivity|symmetry; exact Hlen].
  - apply Z.leb_gt in Hle.
    destruct (64 =? TpAppa.length pkt) eqn:He; [lia|].
    change (negb (SR_ERR_DATA =? 0)) with true. cbv iota.
    repeat split; try discriminate.
Qed.

Lemma C10_dec_read_memory_in_bounds_witness :
  appadmm_dec_read_memory sample_memory_packet blank_memory <> Fault.
Proof.
  exact (proj1 (proj2 (C10_dec_read_memory_in_bounds
                         sample_memory_packet blank_memory eq_refl eq_refl))).
Defined.

End MemoryFacts.

(** ** Storage paging *)

Module StorageFacts.
Import Sr AppaDmm Vectors.

(** What the encoder returns for entry 501 of the scenario when asked
    for 12 entries: device 1, address 0x505, and 64 bytes. *)
Example enc_read_storage_501 :
  appadmm_enc_read_storage 256 blank_request mem_storage_info 501 12 =
  Some (SR_OK, {| Rq.device_number := 1; Rq.memory_address := 0x505;
                  Rq.data_length := 64 |}).
Proof. reflexivity. Qed.

(** The claim as written fails on the scenario: the encoder succeeds,
    but the data length it produces is 64, which is no multiple of 5. *)
Lemma C9_counterexample :
  ~ (exists rm,
       appadmm_enc_read_storage 256 blank_request mem_storage_info 501 12
         = Some (SR_OK, rm)
       /\ Rq.device_number rm = 1
       /\ Rq.memory_address rm = 0x505
       /\ Rq.data_length rm mod 5 = 0
       /\ Rq.data_length rm <= 64).
Proof.
  intros (rm & Henc & _ & _ & Hmod & _).
  rewrite enc_read_storage_501 in Henc.
  injection Henc as <-. cbn [Rq.data_length] in Hmod. discriminate Hmod.
Qed.

(** C9 (amended): for the storage info of the scenario and start entry
    501 the encoder succeeds, whatever the number of entries asked for
    and the record passed in, with device number 1, memory address 0x505
    and a data length of 64: not above 64, but forced to 64 rather than
    clamped to a multiple of 5. *)
Theorem C9_enc_read_storage_scenario
    (fuel : nat) (rm0 : Rq.appadmm_request_data_read_memory_s)
    (arg_entry_count : Z) :
  0 <= arg_entry_count ->
  appadmm_enc_read_storage fuel rm0 mem_storage_info 501 arg_entry_count =
  Some (SR_OK, {| Rq.device_number := 1; Rq.memory_address := 0x505;
                  Rq.data_length := 64 |}).
Proof.
  intros Hc. unfold appadmm_enc_read_storage.
  cbn [entry_size entry_count mem_offset mem_count mem_storage_info].
  change (501 >? 2 * 500) with false. cbv iota.
  change (500 =? 0) with false. change (5 =? 0) with false. cbv iota.
  change (Z.rem 501 500) with 1.
  change (TpAppa.SR_TP_APPA_MAX_DATA_SIZE ÷ 5) with 12.
  change (u8 (501 ÷ 500)) with 1.
  change (u16 (1280 + 1 * 5)) with 0x505.
  set (n := if arg_entry_count >? 12 then 12 else arg_entry_count).
  assert (Hn : 0 <= n <= 12) by (subst n; destruct (Z.gtb_spec arg_entry_count 12); lia).
  destruct (1 + n >? 500) eqn:Hgt; [lia|].
  assert (Hdl : 0 <= u8 (n * 5) <= 60).
  { rewrite u8_id by (unfold is_u8; lia). lia. }
  assert (Hclamp : clamp_loop fuel (u8 (n * 5)) 5 = Some (u8 (n * 5))).
  { unfold TpAppa.SR_TP_APPA_MAX_DATA_SIZE.
    destruct fuel; cbn [clamp_loop]; unfold TpAppa.SR_TP_APPA_MAX_DATA_SIZE;
      destruct (Z.gtb_spec (u8 (n * 5)) 64); (lia || reflexivity). }
  rewrite Hclamp. reflexivity.
Qed.

Lemma C9_enc_read_storage_scenario_witness :
  appadmm_enc_read_storage 0 blank_request mem_storage_info 501 3 =
  Some (SR_OK, {| Rq.device_number := 1; Rq.memory_address := 0x505;
                  Rq.data_length := 64 |}).
Proof.
  apply (C9_enc_read_storage_scenario 0 blank_request 3). lia.
Defined.

End StorageFacts.

(** ** Rounding *)

(** An inequality between two given rationals, by computation. *)
Ltac qle := apply Qle_bool_iff; vm_compute; reflexivity.

Module IeeeFacts.
Import Ieee.

(** The nearest integer is at most one half away. *)
Lemma nearest_even_half (x : Q) :
  (Qabs (inject_Z (nearest_even x) - x) <= 1 # 2)%Q.
Proof.
  destruct x as [n d]. unfold nearest_even. cbn [Qnum Qden].
  pose proof (Z.div_mod n (Zpos d) ltac:(lia)) as Hdm.
  pose proof (Z.mod_pos_bound n (Zpos d) ltac:(lia)) as Hr.
  set (fl := n / Zpos d) in *. set (r := n mod Zpos d) in *.
  apply Qabs_Qle_condition.
  unfold Qle, Qminus, Qplus, Qopp, inject_Z. cbn [Qnum Qden].
  rewrite !Pos2Z.inj_mul.
  destruct (2 * r <? Zpos d) eqn:E1; [apply Z.ltb_lt in E1|apply Z.ltb_ge in E1].
  { split; nia. }
  destruct (Zpos d <? 2 * r) eqn:E2; [apply Z.ltb_lt in E2|apply Z.ltb_ge in E2].
  { split; nia. }
  destruct (Z.even fl); split; nia.
Qed.

Lemma two_pos (k : Z) : (0 < Qpower two k)%Q.
Proof. apply Qpower_0_lt. reflexivity. Qed.

Lemma two_plus (a b : Z) : (Qpower two (a + b) == Qpower two a * Qpower two b)%Q.
Proof. apply Qpower_plus. discriminate. Qed.

(** The binade starts at or below the value. *)
Lemma binade_le (x : Q) : (0 < x)%Q -> (Qpower two (binade x) <= x)%Q.
Proof.
  intros Hx. unfold binade.
  set (k := Z.log2 (Qnum x) - Z.log2 (Zpos (Qden x))).
  destruct (Qle_bool (Qpower two k) x) eqn:E.
  { now apply Qle_bool_iff. }
  destruct x as [n d]. cbn [Qnum Qden] in *.
  assert (Hn : 0 < n) by (unfold Qlt in Hx; cbn in Hx; lia).
  pose proof (Z.log2_spec n Hn) as [Ha _].
  pose proof (Z.log2_spec (Zpos d) ltac:(lia)) as [_ Hb].
  pose proof (Z.log2_nonneg n) as Ha0.
  pose proof (Z.log2_nonneg (Zpos d)) as Hb0.
  set (a := Z.log2 n) in *. set (b := Z.log2 (Zpos d)) in *.
  replace (k - 1) with (a + - (Z.succ b)) by (unfold k; lia).
  rewrite two_plus, Qpower_opp.
  unfold two. rewrite <- !Zpower_Qpower by lia.
  assert (Hp : 0 < 2 ^ Z.succ b) by (apply Z.pow_pos_nonneg; lia).
  change (inject_Z (2 ^ a) / inject_Z (2 ^ Z.succ b) <= n # d)%Q.
  apply Qle_shift_div_r.
  { change 0%Q with (inject_Z 0). rewrite <- Zlt_Qlt. exact Hp. }
  unfold Qle, Qmult, inject_Z. cbn [Qnum Qden]. nia.
Qed.

Lemma round_abs_error (prec : Z) (x : Q) :
  (0 < x)%Q ->
  let ulp := Qpower two (binade x - prec + 1) in
  (Qabs (inject_Z (nearest_even (x / ulp)) * ulp - x) <= unit_roundoff prec * x)%Q.
Proof.
  intros Hx ulp.
  pose proof (two_pos (binade x - prec + 1)) as Hulp. fold ulp in Hulp.
  pose proof (nearest_even_half (x / ulp)) as Hh.
  set (m := inject_Z (nearest_even (x / ulp))) in *.
  assert (Hlow : (Qpower two (prec - 1) * ulp <= x)%Q).
  { unfold ulp. rewrite <- two_plus.
    replace (prec - 1 + (binade x - prec + 1)) with (binade x) by lia.
    now apply binade_le. }
  assert (Hu : (unit_roundoff prec * Qpower two (prec - 1) == 1 # 2)%Q).
  { unfold unit_roundoff. rewrite <- two_plus.
    replace (- prec + (prec - 1)) with (-1) by lia. reflexivity. }
  assert (Hup : (0 < unit_roundoff prec)%Q) by apply two_pos.
  assert (E : (m * ulp - x == (m - x / ulp) * ulp)%Q).
  { field. intros H0. rewrite H0 in Hulp. discriminate. }
  rewrite E, Qabs_Qmult, (Qabs_pos ulp) by now apply Qlt_le_weak.
  apply Qle_trans with ((1 # 2) * ulp)%Q.
  { apply Qmult_le_compat_r; [exact Hh|now apply Qlt_le_weak]. }
  rewrite <- Hu, <- Qmult_assoc.
  apply Qmult_le_l; [exact Hup|exact Hlow].
Qed.

(** Rounding to [prec] bits moves a value by at most the fraction
    [2 ^ - prec] of it. *)
Lemma round_to_error (prec : Z) (q : Q) :
  (Qabs (round_to prec q - q) <= unit_roundoff prec * Qabs q)%Q.
Proof.
  unfold round_to.
  destruct (Qnum q =? 0) eqn:E0.
  { apply Z.eqb_eq in E0.
    assert (Hq : (q == 0)%Q) by (destruct q; cbn in E0; subst; reflexivity).
    rewrite Hq. cbn. unfold unit_roundoff.
    rewrite Qmult_0_r. apply Qle_refl. }
  apply Z.eqb_neq in E0.
  assert (Hx : (0 < Qabs q)%Q).
  { destruct q as [n d]. unfold Qlt. cbn in *. lia. }
  pose proof (round_abs_error prec (Qabs q) Hx) as H. cbv zeta in H.
  cbv zeta.
  set (v := (inject_Z _ * _)%Q) in *.
  destruct (Qnum q <? 0) eqn:Es.
  - apply Z.ltb_lt in Es.
    assert (Hneg : (q <= 0)%Q) by (destruct q; unfold Qle; cbn in *; lia).
    rewrite (Qabs_neg q Hneg) in H |- *.
    setoid_replace (- Qred v - q)%Q with (- (v - - q))%Q using relation Qeq
      by (rewrite (Qred_correct v); ring).
    rewrite Qabs_opp. exact H.
  - apply Z.ltb_ge in Es.
    assert (Hpos : (0 <= q)%Q) by (destruct q; unfold Qle; cbn in *; lia).
    rewrite (Qabs_pos q Hpos) in H |- *.
    setoid_replace (Qred v - q)%Q with (v - q)%Q using relation Qeq
      by (rewrite (Qred_correct v); ring).
    exact H.
Qed.

(** The decimal fractions of the interpreter as [double] and [float]. *)
Example to_double_tenth :
  to_double (1 # 10) = (3602879701896397 # 36028797018963968)%Q.
Proof. vm_compute. reflexivity. Qed.

Example to_float_third : to_float (1 # 3) = (11184811 # 33554432)%Q.
Proof. vm_compute. reflexivity. Qed.

Example to_float_odd : to_float (inject_Z 16777217) = inject_Z 16777216.
Proof. vm_compute. reflexivity. Qed.

#[global] Instance within_proper : Proper (Qeq ==> Qeq ==> Qeq ==> iff) within.
Proof.
  intros e e' He v v' Hv x x' Hx. unfold within. now rewrite He, Hv, Hx.
Qed.

Lemma within_weaken (e e' v x : Q) :
  within e v x -> (e <= e')%Q -> within e' v x.
Proof.
  unfold within. intros H He. eapply Qle_trans; [exact H|].
  apply Qmult_le_compat_r; [exact He|apply Qabs_nonneg].
Qed.

Lemma within_scale (e a x c : Q) :
  within e a x -> within e (a * c) (x * c).
Proof.
  unfold within. intros H.
  setoid_replace (a * c - x * c)%Q with ((a - x) * c)%Q
    using relation Qeq by ring.
  rewrite !Qabs_Qmult, Qmult_assoc.
  apply Qmult_le_compat_r; [exact H|apply Qabs_nonneg].
Qed.

Lemma within_mul (e1 e2 a b x y : Q) :
  (0 <= e1)%Q -> (0 <= e2)%Q ->
  within e1 a x -> within e2 b y ->
  within (e1 + e2 + e1 * e2) (a * b) (x * y).
Proof.
  unfold within. intros H1 H2 Ha Hb.
  setoid_replace (a * b - x * y)%Q
    with ((a - x) * (b - y) + ((a - x) * y + x * (b - y)))%Q
    using relation Qeq by ring.
  eapply Qle_trans; [apply Qabs_triangle|].
  eapply Qle_trans; [apply Qplus_le_r, Qabs_triangle|].
  rewrite !Qabs_Qmult.
  pose proof (Qabs_nonneg x) as Hx. pose proof (Qabs_nonneg y) as Hy.
  pose proof (Qabs_nonneg (a - x)) as Hp. pose proof (Qabs_nonneg (b - y)) as Hq.
  set (X := Qabs x) in *. set (Y := Qabs y) in *.
  set (P := Qabs (a - x)) in *. set (R := Qabs (b - y)) in *.
  nra.
Qed.

(** Rounding a value that is near [x] leaves it near [x]. *)
Lemma within_round (prec : Z) (e a x : Q) :
  (0 <= e)%Q -> within e a x ->
  within (e + unit_roundoff prec + e * unit_roundoff prec) (round_to prec a) x.
Proof.
  unfold within. intros He Ha.
  pose proof (round_to_error prec a) as Hr.
  assert (Hu : (0 <= unit_roundoff prec)%Q) by apply Qlt_le_weak, two_pos.
  setoid_replace (round_to prec a - x)%Q
    with ((round_to prec a - a) + (a - x))%Q using relation Qeq by ring.
  eapply Qle_trans; [apply Qabs_triangle|].
  assert (Hax : (Qabs a <= Qabs x + Qabs (a - x))%Q).
  { setoid_replace a with (x + (a - x))%Q using relation Qeq at 1 by ring.
    apply Qabs_triangle. }
  pose proof (Qabs_nonneg x) as Hx.
  set (u := unit_roundoff prec) in *.
  set (X := Qabs x) in *. set (A := Qabs a) in *.
  set (P := Qabs (a - x)) in *. set (R := Qabs (round_to prec a - a)) in *.
  nra.
Qed.

(** Rounding an exact value. *)
Lemma within_round_exact (prec : Z) (x : Q) :
  within (unit_roundoff prec) (round_to prec x) x.
Proof. unfold within. apply round_to_error. Qed.

End IeeeFacts.

(** ** Display semantics: scaling, digits and overload *)

Module DisplayFacts.
Import Sr Ieee AppaDmm Spec Vectors.

(** Only the dot and unit switches touch the scale factor and the digit
    count. *)
Lemma on_analog_factor f l :
  unit_factor (on_analog f l) = unit_factor l /\ digits (on_analog f l) = digits l.
Proof. split; reflexivity. Qed.

Lemma sub_only_factor ch f l :
  unit_factor (sub_only ch f l) = unit_factor l /\ digits (sub_only ch f l) = digits l.
Proof. destruct ch; split; reflexivity. Qed.

Lemma switch_data_content_factor dc ch l :
  unit_factor (switch_data_content dc ch l) = unit_factor l
  /\ digits (switch_data_content dc ch l) = digits l.
Proof.
  unfold switch_data_content.
  repeat (match goal with |- context [if ?c then _ else _] => destruct c end);
    try (destruct ch); split; reflexivity.
Qed.

Lemma switch_function_code_factor fc l :
  unit_factor (switch_function_code fc l) = unit_factor l
  /\ digits (switch_function_code fc l) = digits l.
Proof.
  unfold switch_function_code.
  repeat (match goal with |- context [if ?c then _ else _] => destruct c end);
    split; reflexivity.
Qed.

(** The dot switch, for the five dot positions. *)
Lemma switch_dot_spec d l :
  0 <= d <= 4 ->
  unit_factor (switch_dot d l) = to_double (unit_factor l / inject_Z (10 ^ d))%Q
  /\ digits (switch_dot d l) = d.
Proof.
  intros Hd.
  assert (d = 0 \/ d = 1 \/ d = 2 \/ d = 3 \/ d = 4) as [->|[->|[->|[->| ->]]]] by lia;
    split; reflexivity.
Qed.

Lemma lookup_unit_none u :
  u <> APPADMM_UNIT_V -> u <> APPADMM_UNIT_MV -> u <> APPADMM_UNIT_A ->
  u <> APPADMM_UNIT_MA -> u <> APPADMM_UNIT_DB -> u <> APPADMM_UNIT_DBM ->
  u <> APPADMM_UNIT_MF -> u <> APPADMM_UNIT_UF -> u <> APPADMM_UNIT_NF ->
  u <> APPADMM_UNIT_GOHM -> u <> APPADMM_UNIT_MOHM -> u <> APPADMM_UNIT_KOHM ->
  u <> APPADMM_UNIT_OHM -> u <> APPADMM_UNIT_PERCENT -> u <> APPADMM_UNIT_MHZ ->
  u <> APPADMM_UNIT_KHZ -> u <> APPADMM_UNIT_HZ -> u <> APPADMM_UNIT_DEGC ->
  u <> APPADMM_UNIT_DEGF -> u <> APPADMM_UNIT_SEC -> u <> APPADMM_UNIT_MS ->
  u <> APPADMM_UNIT_US -> u <> APPADMM_UNIT_NS -> u <> APPADMM_UNIT_UA ->
  u <> APPADMM_UNIT_MIN -> u <> APPADMM_UNIT_KW -> u <> APPADMM_UNIT_PF ->
  lookup_unit unit_table u = (1%Q, 0).
Proof.
  intros. unfold unit_table, lookup_unit.
  repeat match goal with
         | |- context [if u =? ?c then _ else _] =>
           destruct (Z.eqb_spec u c) as [->|?]; [congruence|]
         end.
  reflexivity.
Qed.

(** The digit count after the unit switch, against the unit table. *)
Lemma switch_unit_digits u l :
  -100 <= digits l <= 100 ->
  digits (switch_unit u l) = digits l + unit_digits u.
Proof.
  intros Hd. unfold switch_unit.
  repeat (match goal with
          | |- context [if u =? ?c then _ else _] =>
            destruct (Z.eqb_spec u c) as [->|?]
          end;
          [ cbn [digits div_by mul_by mul_only meaning on_analog];
            unfold unit_digits, i8; cbn [snd]; vm_compute lookup_unit;
            cbn [snd];
            repeat match goal with
                   | |- context [(?a mod 256)] =>
                     rewrite (Z.mod_small a 256) by lia
                   end; lia
          | ]).
  unfold unit_digits. rewrite lookup_unit_none by assumption. cbn [snd].
  cbn [digits on_analog]. lia.
Qed.

(** The three shapes of a case of the unit switch, in [double]. *)
Lemma factor_kept (e a x : Q) :
  (0 <= e)%Q -> within e a x ->
  within (e + unit_roundoff 53 + e * unit_roundoff 53) a (x * 1).
Proof.
  intros He H. rewrite Qmult_1_r.
  apply (IeeeFacts.within_weaken e); [exact H|].
  assert (Hu : (0 < unit_roundoff 53)%Q) by apply IeeeFacts.two_pos.
  set (U := unit_roundoff 53) in *.
  assert (HeU : (0 <= e * U)%Q) by (apply Qmult_le_0_compat; [exact He|now apply Qlt_le_weak]).
  lra.
Qed.

Lemma factor_divided (e a x : Q) (k : Z) :
  (0 <= e)%Q -> within e a x ->
  within (e + unit_roundoff 53 + e * unit_roundoff 53)
    (to_double (a / inject_Z k)) (x * / inject_Z k).
Proof.
  intros He H. apply IeeeFacts.within_round; [exact He|].
  apply IeeeFacts.within_scale. exact H.
Qed.

Lemma factor_multiplied (e a x : Q) (k : Z) :
  (0 <= e)%Q -> within e a x ->
  within (e + unit_roundoff 53 + e * unit_roundoff 53)
    (to_double (a * inject_Z k)) (x * inject_Z k).
Proof.
  intros He H. apply IeeeFacts.within_round; [exact He|].
  apply IeeeFacts.within_scale. exact H.
Qed.

(** The factor after the unit switch, against the unit table: one more
    rounding. *)
Lemma switch_unit_factor u l (e x : Q) :
  (0 <= e)%Q -> within e (unit_factor l) x ->
  within (e + unit_roundoff 53 + e * unit_roundoff 53)
    (unit_factor (switch_unit u l)) (x * unit_scale u).
Proof.
  intros He H. unfold switch_unit.
  repeat (match goal with
          | |- context [if u =? ?c then _ else _] =>
            destruct (Z.eqb_spec u c) as [->|?]
          end;
          [ cbn [unit_factor div_by mul_by mul_only meaning on_analog];
            first [ exact (factor_kept e (unit_factor l) x He H)
                  | exact (factor_divided e (unit_factor l) x _ He H)
                  | exact (factor_multiplied e (unit_factor l) x _ He H) ]
          | ]).
  unfold unit_scale. rewrite lookup_unit_none by assumption. cbn [fst].
  cbn [unit_factor on_analog]. exact (factor_kept e (unit_factor l) x He H).
Qed.

(** The locals after the four switches: the factor is the unit scale
    over the power of ten of the dot up to two roundings in [double],
    the digit count is the dot plus the unit's adjustment, and both
    digit fields of the descriptor hold it. *)
Lemma numeric_locals_spec ch arg_data dd init :
  0 <= dot dd <= 4 ->
  let l := numeric_locals ch arg_data dd init in
  within (3 # 9007199254740992) (unit_factor l)
    (unit_scale (unit dd) * dot_scale (dot dd))
  /\ digits l = dot dd + unit_digits (unit dd)
  /\ Analog.digits (analog l) = digits l
  /\ Analog.spec_digits (analog l) = digits l.
Proof.
  intros Hd l. subst l. unfold numeric_locals.
  set (l0 := {| unit_factor := 1; digits := 0; analog := init |}).
  set (l1 := switch_dot (dot dd) l0).
  set (l2 := switch_data_content (data_content dd) ch l1).
  set (l3 := if auto_range arg_data =? APPADMM_AUTO_RANGE
             then on_analog (set_flag SR_MQFLAG_AUTORANGE) l2 else l2).
  set (l4 := switch_unit (unit dd) l3).
  set (l5 := switch_function_code (function_code arg_data) l4).
  destruct (switch_dot_spec (dot dd) l0 Hd) as [F1 D1]. fold l1 in F1, D1.
  destruct (switch_data_content_factor (data_content dd) ch l1) as [F2 D2].
  fold l2 in F2, D2.
  assert (F3 : unit_factor l3 = unit_factor l2 /\ digits l3 = digits l2)
    by (subst l3; destruct (_ =? _); split; reflexivity).
  destruct F3 as [F3 D3].
  pose proof (switch_unit_digits (unit dd) l3 ltac:(lia)) as D4. fold l4 in D4.
  destruct (switch_function_code_factor (function_code arg_data) l4) as [F5 D5].
  fold l5 in F5, D5.
  cbn [unit_factor digits analog on_analog set_digits
       Analog.digits Analog.spec_digits].
  split; [|split; [lia|split; reflexivity]].
  assert (W3 : within (unit_roundoff 53) (unit_factor l3) (dot_scale (dot dd))).
  { rewrite F3, F2, F1. cbn [unit_factor l0]. apply IeeeFacts.within_round_exact. }
  assert (W4 : within (unit_roundoff 53 + unit_roundoff 53
                       + unit_roundoff 53 * unit_roundoff 53)
                 (unit_factor l4) (dot_scale (dot dd) * unit_scale (unit dd)))
    by (apply switch_unit_factor; [qle|exact W3]).
  rewrite F5. rewrite (Qmult_comm (unit_scale (unit dd))).
  apply (IeeeFacts.within_weaken _ _ _ _ W4). qle.
Qed.

(** From the factor to the value: the reading as a [float], the product
    in [double], the result as a [float]. *)
Lemma emitted_value_within (r : Z) (F S : Q) :
  within (3 # 9007199254740992) F S ->
  within (1 # 4194304)
    (to_float (to_double (to_float (inject_Z r) * F))) (inject_Z r * S).
Proof.
  intros HF.
  set (eF := (3 # 9007199254740992)%Q) in *.
  set (u53 := unit_roundoff 53). set (u24 := unit_roundoff 24).
  pose proof (IeeeFacts.within_round_exact 24 (inject_Z r)) as HR. fold u24 in HR.
  set (eP := (u24 + eF + u24 * eF)%Q).
  assert (HP : within eP (to_float (inject_Z r) * F) (inject_Z r * S))
    by (apply IeeeFacts.within_mul; [qle|qle|exact HR|exact HF]).
  set (eD := (eP + u53 + eP * u53)%Q).
  assert (HD : within eD (to_double (to_float (inject_Z r) * F)) (inject_Z r * S))
    by (apply IeeeFacts.within_round; [qle|exact HP]).
  set (eV := (eD + u24 + eD * u24)%Q).
  assert (HV : within eV (to_float (to_double (to_float (inject_Z r) * F)))
                 (inject_Z r * S))
    by (apply IeeeFacts.within_round; [qle|exact HD]).
  apply (IeeeFacts.within_weaken _ _ _ _ HV). qle.
Qed.

(** What the interpreter leaves for a number or a dash sentinel on the
    primary or secondary display. *)
Lemma transform_numeric init_retr init send_retr sample_id arg_channel arg_data :
  let dd := display_of arg_channel arg_data in
  let l := numeric_locals arg_channel arg_data dd init in
  0 <= init_retr ->
  arg_channel = APPADMM_CHANNEL_MAIN \/ arg_channel = APPADMM_CHANNEL_SUB ->
  appadmm_is_wordcode (reading dd) = false
    \/ appadmm_is_wordcode_dash (reading dd) = true ->
  appadmm_transform_display_data init_retr init send_retr sample_id
    arg_channel arg_data
  = finish init_retr send_retr
      (if (overload dd =? APPADMM_OVERLOAD)
          || appadmm_is_wordcode_dash (reading dd)
       then FInf
       else FNum (to_float (to_double (to_float (inject_Z (reading dd))
                                       * unit_factor l))))
      (analog l) None.
Proof.
  intros dd l Hinit Hch Hnum. subst l.
  unfold appadmm_transform_display_data.
  destruct (Z.ltb_spec init_retr SR_OK) as [Hlt|_]; [unfold SR_OK in Hlt; lia|].
  assert (Hbranch : negb (appadmm_is_wordcode (reading dd))
                    || appadmm_is_wordcode_dash (reading dd) = true)
    by (destruct Hnum as [-> | ->]; [reflexivity|apply orb_true_r]).
  destruct Hch as [-> | ->]; cbv zeta; fold dd;
    unfold display_of in dd; fold dd; rewrite Hbranch; reflexivity.
Qed.

Lemma finish_out_val r s v a m :
  out (finish r s v a m) = a /\ val (finish r s v a m) = v.
Proof. unfold finish. destruct (Analog.mq a); split; reflexivity. Qed.

(** The claim as written fails twice.  For a dash sentinel: the DASH
    reading on the primary display, dot 0, volt, no overload, is emitted
    as infinity, not as the reading times the factor.  For a number:
    12345 with dot 2 in mV is emitted as the [float] nearest to 0.12345,
    which is not 12345 times 1/100000. *)
Lemma C6_counterexample :
  let t := appadmm_transform_display_data SR_OK analog0 SR_OK 0
             APPADMM_CHANNEL_MAIN dash_display in
  let t' := appadmm_transform_display_data SR_OK analog0 SR_OK 0
              APPADMM_CHANNEL_MAIN millivolt_display in
  (appadmm_is_wordcode_dash (reading (main_display_data dash_display)) = true
   /\ sent t = true
   /\ val t = FInf
   /\ val t <> FNum (inject_Z (reading (main_display_data dash_display))
                     * (unit_scale APPADMM_UNIT_V * dot_scale 0))%Q)
  /\ (sent t' = true
      /\ val t' = FNum (16569179 # 134217728)
      /\ ~ ((16569179 # 134217728)
            == inject_Z 12345 * (unit_scale APPADMM_UNIT_MV * dot_scale 2))%Q).
Proof.
  cbv zeta. split.
  - repeat split. discriminate.
  - split; [reflexivity|]. split; [vm_compute; reflexivity|].
    vm_compute. discriminate.
Qed.

(** C6 (amended): for a display reading that is no word code, or is one
    of the three dash sentinels, with dot 0..4, the interpreter's scale
    factor is, up to the rounding of its [double] arithmetic (a relative
    error of at most 3 * 2^-53), the unit's factor of the table divided
    by 1, 10, 100, 1000 or 10000, and the digit count it stores is the
    dot plus the unit's adjustment.  Provided the overload flag is clear
    and the reading is not a dash sentinel, the emitted value is the
    [float] of the [double] product of the reading, converted to
    [float], and that factor; it differs from the reading times the
    table's factor by at most the fraction 2^-22 of it. *)
Theorem C6_scaling
    (init_retr : Z) (init : Analog.sr_datafeed_analog) (send_retr sample_id : Z)
    (arg_channel : appadmm_channel_e)
    (arg_data : appadmm_response_data_read_display_s) :
  let dd := display_of arg_channel arg_data in
  let t := appadmm_transform_display_data init_retr init send_retr sample_id
             arg_channel arg_data in
  0 <= init_retr ->
  arg_channel = APPADMM_CHANNEL_MAIN \/ arg_channel = APPADMM_CHANNEL_SUB ->
  appadmm_is_wordcode (reading dd) = false
    \/ appadmm_is_wordcode_dash (reading dd) = true ->
  0 <= dot dd <= 4 ->
  exists factor : Q,
    within (3 # 9007199254740992) factor
      (unit_scale (unit dd) * dot_scale (dot dd))
    /\ Analog.digits (out t) = dot dd + unit_digits (unit dd)
    /\ Analog.spec_digits (out t) = dot dd + unit_digits (unit dd)
    /\ (overload dd <> APPADMM_OVERLOAD ->
        appadmm_is_wordcode_dash (reading dd) = false ->
        exists q : Q,
          val t = FNum q
          /\ q = to_float (to_double (to_float (inject_Z (reading dd)) * factor))
          /\ within (1 # 4194304) q
               (inject_Z (reading dd)
                * (unit_scale (unit dd) * dot_scale (dot dd)))).
Proof.
  intros dd t Hinit Hch Hnum Hdot.
  pose proof (numeric_locals_spec arg_channel arg_data dd init Hdot) as Hl.
  cbv zeta in Hl. destruct Hl as (HF & HD & HA & HS).
  exists (unit_factor (numeric_locals arg_channel arg_data dd init)).
  pose proof (transform_numeric init_retr init send_retr sample_id arg_channel
                arg_data Hinit Hch Hnum) as Ht.
  cbv zeta in Ht. fold dd in Ht. fold t in Ht.
  destruct (finish_out_val init_retr send_retr
              (if (overload dd =? APPADMM_OVERLOAD)
                  || appadmm_is_wordcode_dash (reading dd)
               then FInf
               else FNum (to_float (to_double
                      (to_float (inject_Z (reading dd))
                       * unit_factor (numeric_locals arg_channel arg_data dd init)))))
              (analog (numeric_locals arg_channel arg_data dd init)) None)
    as [Hout Hval].
  rewrite <- Ht in Hout, Hval.
  split; [exact HF|]. rewrite Hout.
  split; [lia|]. split; [lia|].
  intros Hov Hnd. rewrite Hval.
  apply Z.eqb_neq in Hov. rewrite Hov, Hnd. cbn [orb].
  eexists. split; [reflexivity|]. split; [reflexivity|].
  apply emitted_value_within. exact HF.
Qed.

Lemma C6_scaling_witness :
  exists factor : Q,
    within (3 # 9007199254740992) factor
      (unit_scale APPADMM_UNIT_MV * dot_scale 2)
    /\ Analog.digits (out (appadmm_transform_display_data SR_OK analog0 SR_OK 0
                             APPADMM_CHANNEL_MAIN millivolt_display)) = 2 + 3
    /\ Analog.spec_digits (out (appadmm_transform_display_data SR_OK analog0 SR_OK 0
                             APPADMM_CHANNEL_MAIN millivolt_display)) = 2 + 3
    /\ (0 <> APPADMM_OVERLOAD ->
        appadmm_is_wordcode_dash 12345 = false ->
        exists q : Q,
          val (appadmm_transform_display_data SR_OK analog0 SR_OK 0
                 APPADMM_CHANNEL_MAIN millivolt_display) = FNum q
          /\ q = to_float (to_double (to_float (inject_Z 12345) * factor))
          /\ within (1 # 4194304) q
               (inject_Z 12345 * (unit_scale APPADMM_UNIT_MV * dot_scale 2))).
Proof.
  apply (C6_scaling SR_OK analog0 SR_OK 0 APPADMM_CHANNEL_MAIN millivolt_display).
  - unfold SR_OK. lia.
  - left. reflexivity.
  - left. reflexivity.
  - split; apply Z.leb_le; reflexivity.
Defined.

(** C7: for every unit and dot, when the overload flag of the display
    record is set or its reading is one of the three dash sentinels, the
    value computed for the primary or secondary channel is positive
    infinity, and so is the value of whatever is sent to the session. *)
Theorem C7_overload_is_infinity
    (init_retr : Z) (init : Analog.sr_datafeed_analog) (send_retr sample_id : Z)
    (arg_channel : appadmm_channel_e)
    (arg_data : appadmm_response_data_read_display_s) :
  let dd := display_of arg_channel arg_data in
  let t := appadmm_transform_display_data init_retr init send_retr sample_id
             arg_channel arg_data in
  0 <= init_retr ->
  arg_channel = APPADMM_CHANNEL_MAIN \/ arg_channel = APPADMM_CHANNEL_SUB ->
  overload dd = APPADMM_OVERLOAD
    \/ reading dd = 0x700014 \/ reading dd = 0x700015 \/ reading dd = 0x700017 ->
  val t = FInf.
Proof.
  intros dd t Hinit Hch Hov. subst t.
  unfold appadmm_transform_display_data.
  destruct (Z.ltb_spec init_retr SR_OK) as [Hlt|_]; [unfold SR_OK in Hlt; lia|].
  assert (Hinf : (overload dd =? APPADMM_OVERLOAD)
                 || appadmm_is_wordcode_dash (reading dd) = true).
  { destruct Hov as [-> | Hdash]; [reflexivity|].
    apply orb_true_iff. right.
    destruct Hdash as [-> | [-> | ->]]; reflexivity. }
  destruct Hch as [-> | ->]; cbv zeta; unfold display_of in dd; fold dd;
    (destruct (negb (appadmm_is_wordcode (reading dd))
               || appadmm_is_wordcode_dash (reading dd));
     [rewrite Hinf|]; unfold finish; destruct (Analog.mq _); reflexivity).
Qed.

Lemma C7_overload_is_infinity_witness :
  sent (appadmm_transform_display_data SR_OK analog0 SR_OK 0
          APPADMM_CHANNEL_SUB overload_display) = true
  /\ val (appadmm_transform_display_data SR_OK analog0 SR_OK 0
            APPADMM_CHANNEL_SUB overload_display) = FInf.
Proof.
  split; [reflexivity|].
  apply (C7_overload_is_infinity SR_OK analog0 SR_OK 0
           APPADMM_CHANNEL_SUB overload_display).
  - unfold SR_OK. lia.
  - right. reflexivity.
  - left. reflexivity.
Defined.

End DisplayFacts.

(** ** The receive framer of tp/appa.c *)

Module FramerFacts.
Import Sr TpAppa Spec Framing Vectors.

(** *** One call returns at the first completed frame *)

(** Once the loop is left through [break] or [return], the bytes after
    that point play no role. *)
Lemma receive_loop_break bytes : forall rest tpai pkt retr t p r,
  r <> retr ->
  receive_loop bytes tpai pkt retr = Left t p r ->
  receive_loop (bytes ++ rest) tpai pkt retr = Left t p r.
Proof.
  induction bytes as [|b bytes IH]; intros rest tpai pkt retr t p r Hr H.
  - cbn [receive_loop] in H. injection H as _ _ E. congruence.
  - cbn [receive_loop app] in *.
    destruct (receive_byte tpai pkt b); [apply IH; assumption|exact H|exact H].
Qed.

(** *** Accumulating a frame *)

Lemma rd_wr_ne a i j v : 0 <= i -> 0 <= j -> i <> j -> rd (wr a i v) j = rd a j.
Proof.
  intros Hi Hj Hne. unfold rd, wr.
  rewrite list_lookup_insert_ne by lia. reflexivity.
Qed.

Lemma rd_wr_eq a i v : 0 <= i -> (Z.to_nat i < List.length a)%nat -> rd (wr a i v) i = v.
Proof.
  intros Hi Hlt. unfold rd, wr.
  rewrite list_lookup_insert_eq by lia. reflexivity.
Qed.

Lemma filled_push t b : room t -> filled (push t b) = filled t ++ [b].
Proof.
  intros [H0 Hlt]. unfold filled, push. cbn [buffer buffer_size].
  replace (Z.to_nat (buffer_size t + 1)) with (S (Z.to_nat (buffer_size t))) by lia.
  unfold wr.
  rewrite (take_S_r _ _ b) by (apply list_lookup_insert_eq; lia).
  rewrite take_insert_ge by lia. reflexivity.
Qed.

Lemma length_push t b : List.length (buffer (push t b)) = List.length (buffer t).
Proof. unfold push, wr. cbn [buffer]. apply length_insert. Qed.

(** The checksum loop reads only the cells below its size. *)
Lemma checksum_loop_take a n k acc :
  (n <= k)%nat -> checksum_loop (take k a) n acc = checksum_loop a n acc.
Proof.
  revert acc. induction n as [|n IH]; intros acc Hn; [reflexivity|].
  cbn [checksum_loop]. rewrite IH by lia. do 2 f_equal.
  unfold rd. rewrite Nat2Z.id. rewrite lookup_take_lt by lia. reflexivity.
Qed.

(** A byte beyond the header that does not complete the frame is
    stored. *)
Lemma receive_byte_accumulate t pkt b :
  room t -> 4 <= buffer_size t ->
  rd (buffer t) 3 <= 64 ->
  buffer_size t + 1 < rd (buffer t) 3 + 5 ->
  receive_byte t pkt b = Continue (push t b).
Proof.
  intros [H0 Hlt] H4 HL Hinc. unfold receive_byte, validate_header.
  destruct (Z.ltb_spec (buffer_size t) 1); [lia|].
  destruct (Z.ltb_spec (buffer_size t) 2); [lia|].
  destruct (Z.ltb_spec (buffer_size t) 4); [lia|].
  cbn [buffer buffer_size].
  rewrite u8_id by (unfold is_u8; lia).
  rewrite rd_wr_ne by lia.
  unfold SR_TP_APPA_HEADER_SIZE, SR_TP_APPA_MAX_PACKET_SIZE.
  destruct (Z.eqb_spec (rd (buffer t) 3 + 4 + 1) (buffer_size t + 1)); [lia|].
  rewrite andb_false_r.
  destruct (Z.gtb_spec (buffer_size t + 1) 69); [lia|].
  reflexivity.
Qed.

(** The byte that completes the frame ends the loop: with the packet
    when the checksum test passes, with [SR_ERR_IO] otherwise. *)
Lemma receive_byte_complete t pkt b :
  room t -> 4 <= buffer_size t ->
  0 <= rd (buffer t) 3 <= 64 ->
  buffer_size t + 1 = rd (buffer t) 3 + 5 ->
  receive_byte t pkt b =
  if sr_tp_appa_checksum (filled t) (rd (buffer t) 3) =? b
  then Break (push t b)
         {| command := rd (buffer t) 2;
            length := rd (buffer t) 3;
            data := memcpy (data pkt) (filled t) 4 (rd (buffer t) 3) |}
         TRUE
  else Break (push t b) pkt SR_ERR_IO.
Proof.
  intros [H0 Hlt] H4 HL Hfull. unfold receive_byte, validate_header.
  destruct (Z.ltb_spec (buffer_size t) 1); [lia|].
  destruct (Z.ltb_spec (buffer_size t) 2); [lia|].
  destruct (Z.ltb_spec (buffer_size t) 4); [lia|].
  cbn [buffer buffer_size].
  rewrite u8_id by (unfold is_u8; lia).
  rewrite !rd_wr_ne by lia.
  unfold SR_TP_APPA_HEADER_SIZE.
  destruct (Z.gtb_spec (buffer_size t + 1) 4); [|lia].
  destruct (Z.eqb_spec (rd (buffer t) 3 + 4 + 1) (buffer_size t + 1)); [|lia].
  cbn [andb].
  replace (buffer_size t + 1 - 1) with (buffer_size t) by lia.
  rewrite rd_wr_eq by lia.
  fold (push t b).
  assert (Hcs : sr_tp_appa_checksum (wr (buffer t) (buffer_size t) b) (rd (buffer t) 3)
                = sr_tp_appa_checksum (filled t) (rd (buffer t) 3)).
  { unfold sr_tp_appa_checksum, filled.
    rewrite u8_id by (unfold is_u8; lia).
    rewrite <- (checksum_loop_take (wr _ _ _) _ (Z.to_nat (buffer_size t))) by lia.
    unfold wr. rewrite take_insert_ge by lia. reflexivity. }
  rewrite Hcs.
  assert (Hcp : memcpy (data pkt) (wr (buffer t) (buffer_size t) b) 4 (rd (buffer t) 3)
                = memcpy (data pkt) (filled t) 4 (rd (buffer t) 3)).
  { unfold memcpy, filled, wr. f_equal.
    rewrite !take_drop_commute.
    rewrite take_insert_ge by lia.
    rewrite take_take.
    replace (Nat.min (Z.to_nat 4 + Z.to_nat (rd (buffer t) 3))
                     (Z.to_nat (buffer_size t)))
      with (Z.to_nat 4 + Z.to_nat (rd (buffer t) 3))%nat by lia.
    reflexivity. }
  rewrite Hcp. rewrite (rd_wr_ne _ _ 2) by lia. unfold push. reflexivity.
Qed.

(** Payload bytes that do not complete the frame are buffered one by
    one. *)
Lemma receive_loop_payload P : forall t pkt r rest,
  0 <= buffer_size t -> 4 <= buffer_size t ->
  rd (buffer t) 3 <= 64 ->
  buffer_size t + Z.of_nat (List.length P) < rd (buffer t) 3 + 5 ->
  (Z.to_nat (buffer_size t) + List.length P <= List.length (buffer t))%nat ->
  exists t',
    receive_loop (P ++ rest) t pkt r = receive_loop rest t' pkt r
    /\ buffer_size t' = buffer_size t + Z.of_nat (List.length P)
    /\ filled t' = filled t ++ P
    /\ List.length (buffer t') = List.length (buffer t)
    /\ rd (buffer t') 3 = rd (buffer t) 3
    /\ rd (buffer t') 2 = rd (buffer t) 2.
Proof.
  induction P as [|b P IH]; intros t pkt r rest H0 H4 HL Hinc Hroom.
  - exists t. cbn [app List.length Z.of_nat]. rewrite Z.add_0_r, app_nil_r.
    repeat split; reflexivity.
  - cbn [List.length] in Hinc, Hroom.
    assert (Hr : room t) by (split; lia).
    cbn [app receive_loop].
    rewrite receive_byte_accumulate by (auto; lia).
    destruct (IH (push t b) pkt r rest) as (t' & Hloop & Hsz & Hf & Hlen & H3 & H2).
    + cbn [push buffer_size]. lia.
    + cbn [push buffer_size]. lia.
    + cbn [push buffer]. rewrite rd_wr_ne by lia. exact HL.
    + cbn [push buffer buffer_size]. rewrite rd_wr_ne by lia. lia.
    + rewrite length_push. cbn [push buffer_size]. lia.
    + exists t'. split; [exact Hloop|].
      rewrite length_push in Hlen.
      cbn [push buffer buffer_size] in Hsz, H3, H2.
      rewrite rd_wr_ne in H3 by lia. rewrite rd_wr_ne in H2 by lia.
      rewrite filled_push in Hf by exact Hr.
      cbn [List.length]. rewrite <- app_assoc in Hf. cbn [app] in Hf.
      repeat split; try assumption. lia.
Qed.

(** A header byte that passes its check is stored. *)
Lemma receive_byte_header t pkt b :
  0 <= buffer_size t < 4 ->
  (buffer_size t < 2 -> b = SR_TP_APPA_START_BYTE) ->
  (2 <= buffer_size t -> b <= 64) ->
  receive_byte t pkt b = Continue (push t b).
Proof.
  intros Hsz Hstart Hle. unfold receive_byte, validate_header.
  assert (Hv : (if buffer_size t <? 1
                then if negb (b =? SR_TP_APPA_START_BYTE) then Some t else None
                else if buffer_size t <? 2
                then if negb (b =? SR_TP_APPA_START_BYTE)
                     then Some (sr_tp_appa_buffer_reset t) else None
                else if buffer_size t <? 4
                then if b >? SR_TP_APPA_MAX_DATA_SIZE
                     then Some (sr_tp_appa_buffer_reset t) else None
                else None) = None).
  { destruct (Z.ltb_spec (buffer_size t) 1).
    - rewrite Hstart by lia. rewrite Z.eqb_refl. reflexivity.
    - destruct (Z.ltb_spec (buffer_size t) 2).
      + rewrite Hstart by lia. rewrite Z.eqb_refl. reflexivity.
      + destruct (Z.ltb_spec (buffer_size t) 4); [|reflexivity].
        unfold SR_TP_APPA_MAX_DATA_SIZE.
        destruct (Z.gtb_spec b 64); [|reflexivity].
        specialize (Hle ltac:(lia)). lia. }
  rewrite Hv. cbn [buffer buffer_size].
  rewrite u8_id by (unfold is_u8; lia).
  destruct (Z.gtb_spec (buffer_size t + 1) 4); [lia|]. cbn [andb].
  unfold SR_TP_APPA_MAX_PACKET_SIZE.
  destruct (Z.gtb_spec (buffer_size t + 1) 69); [lia|].
  reflexivity.
Qed.

(** The four header bytes of a frame, from an empty buffer. *)
Lemma receive_loop_header c L rest t pkt r :
  buffer_size t = 0 -> (4 < List.length (buffer t))%nat ->
  c <= 64 -> L <= 64 ->
  exists t4,
    receive_loop ([0x55; 0x55; c; L] ++ rest) t pkt r = receive_loop rest t4 pkt r
    /\ buffer_size t4 = 4
    /\ filled t4 = [0x55; 0x55; c; L]
    /\ List.length (buffer t4) = List.length (buffer t)
    /\ rd (buffer t4) 3 = L
    /\ rd (buffer t4) 2 = c.
Proof.
  intros Hsz Hlen Hc HL.
  set (t1 := push t 0x55). set (t2 := push t1 0x55).
  set (t3 := push t2 c). set (t4 := push t3 L).
  assert (S1 : buffer_size t1 = 1) by (subst t1; cbn [push buffer_size]; lia).
  assert (S2 : buffer_size t2 = 2) by (subst t2; cbn [push buffer_size]; lia).
  assert (S3 : buffer_size t3 = 3) by (subst t3; cbn [push buffer_size]; lia).
  assert (S4 : buffer_size t4 = 4) by (subst t4; cbn [push buffer_size]; lia).
  assert (L1 : List.length (buffer t1) = List.length (buffer t)) by apply length_push.
  assert (L2 : List.length (buffer t2) = List.length (buffer t))
    by (subst t2; rewrite length_push; exact L1).
  assert (L3 : List.length (buffer t3) = List.length (buffer t))
    by (subst t3; rewrite length_push; exact L2).
  assert (L4 : List.length (buffer t4) = List.length (buffer t))
    by (subst t4; rewrite length_push; exact L3).
  exists t4. cbn [app receive_loop].
  rewrite (receive_byte_header t) by (try reflexivity; lia). fold t1.
  rewrite (receive_byte_header t1) by (try reflexivity; lia). fold t2.
  rewrite (receive_byte_header t2) by lia. fold t3.
  rewrite (receive_byte_header t3) by lia. fold t4.
  split; [reflexivity|]. split; [exact S4|].
  split.
  { subst t4. rewrite filled_push by (split; lia).
    subst t3. rewrite filled_push by (split; lia).
    subst t2. rewrite filled_push by (split; lia).
    subst t1. rewrite filled_push by (split; lia).
    unfold filled. rewrite Hsz. reflexivity. }
  split; [exact L4|].
  split.
  - subst t4. cbn [push buffer]. rewrite S3. apply rd_wr_eq; lia.
  - subst t4. cbn [push buffer]. rewrite S3. rewrite rd_wr_ne by lia.
    subst t3. cbn [push buffer]. rewrite S2. apply rd_wr_eq; lia.
Qed.

(** *** A whole frame in one call *)

(** From an empty buffer, the bytes of a candidate frame lead to the
    checksum test, whatever follows them: the packet is delivered when
    the test passes, [SR_ERR_IO] is returned when it fails. *)
Lemma receive_loop_frame c P cs rest t pkt :
  buffer_size t = 0 -> List.length (buffer t) = 69%nat ->
  c <= 64 -> (List.length P <= 64)%nat ->
  exists t',
    List.length (buffer t') = 69%nat /\
    receive_loop (frame c P cs ++ rest) t pkt FALSE =
    if sr_tp_appa_checksum (header c P ++ P) (Z.of_nat (List.length P)) =? cs
    then Left t'
           {| command := c;
              length := Z.of_nat (List.length P);
              data := P ++ drop (List.length P) (data pkt) |}
           TRUE
    else Left t' pkt SR_ERR_IO.
Proof.
  intros Hsz Hlen Hc HP.
  unfold frame, header. rewrite <- !app_assoc.
  destruct (receive_loop_header c (Z.of_nat (List.length P))
              (P ++ [cs] ++ rest) t pkt FALSE)
    as (t4 & Hloop4 & S4 & F4 & L4 & R3 & R2); [assumption|lia|assumption|lia|].
  rewrite Hloop4.
  destruct (receive_loop_payload P t4 pkt FALSE ([cs] ++ rest))
    as (t5 & Hloop5 & S5 & F5 & L5 & R3' & R2'); [lia|lia|lia|lia|lia|].
  rewrite Hloop5. cbn [app receive_loop].
  assert (Hroom : room t5) by (split; lia).
  rewrite receive_byte_complete by (auto; lia).
  rewrite R3', R3, R2', R2, F5, F4.
  exists (push t5 cs).
  assert (Hcp : memcpy (data pkt) ([85; 85; c; Z.of_nat (List.length P)] ++ P) 4
                  (Z.of_nat (List.length P))
                = P ++ drop (List.length P) (data pkt)).
  { unfold memcpy. rewrite Nat2Z.id. cbn [app]. cbn [Z.to_nat Pos.to_nat Pos.iter_op Nat.add drop].
    rewrite firstn_all. reflexivity. }
  rewrite Hcp.
  split; [rewrite length_push; lia|].
  destruct (_ =? cs); reflexivity.
Qed.

Lemma length_buffer_reset t :
  List.length (buffer (sr_tp_appa_buffer_reset t)) = List.length (buffer t).
Proof.
  unfold sr_tp_appa_buffer_reset, wr. cbn [buffer].
  rewrite !length_insert. reflexivity.
Qed.

(** The same for the whole call: the buffer is reset when it returns. *)
Lemma receive_frame c P cs rest t pkt :
  buffer_size t = 0 -> List.length (buffer t) = 69%nat ->
  c <= 64 -> (List.length P <= 64)%nat ->
  exists t',
    buffer_size t' = 0 /\ List.length (buffer t') = 69%nat /\
    sr_tp_appa_receive t pkt (ReadBytes (frame c P cs ++ rest)) =
    if sr_tp_appa_checksum (header c P ++ P) (Z.of_nat (List.length P)) =? cs
    then (t',
          {| command := c;
             length := Z.of_nat (List.length P);
             data := P ++ drop (List.length P) (data pkt) |},
          TRUE)
    else (t', pkt, SR_ERR_IO).
Proof.
  intros Hsz Hlen Hc HP.
  destruct (receive_loop_frame c P cs rest t pkt Hsz Hlen Hc HP)
    as (t' & Hl & Hloop).
  exists (sr_tp_appa_buffer_reset t').
  split; [reflexivity|]. split.
  - rewrite length_buffer_reset. exact Hl.
  - unfold sr_tp_appa_receive. rewrite Hloop.
    destruct (_ =? cs); reflexivity.
Qed.

(** *** The checksum test in the specification's vocabulary *)

Lemma checksum_loop_sum a n : forall acc,
  is_u8 acc -> (n <= List.length a)%nat ->
  checksum_loop a n acc = (acc + fold_right Z.add 0 (take n a)) mod 256.
Proof.
  induction n as [|n IH]; intros acc Hacc Hn.
  - cbn [checksum_loop]. rewrite take_0. cbn [fold_right].
    rewrite Z.add_0_r. symmetry. apply Z.mod_small. exact Hacc.
  - cbn [checksum_loop].
    destruct (lookup_lt_is_Some_2 a n ltac:(lia)) as [x Hx].
    rewrite IH by (try apply u8_range; lia).
    rewrite (take_S_r _ _ x Hx). rewrite fold_right_app. cbn [fold_right].
    unfold rd. rewrite Nat2Z.id, Hx. cbn [default]. unfold u8.
    rewrite Z.add_mod_idemp_l by lia.
    assert (Hsum : forall (l : list Z) z,
               fold_right Z.add z l = fold_right Z.add 0 l + z).
    { induction l as [|y l IHl]; intros z; cbn [fold_right]; [lia|].
      rewrite IHl. lia. }
    rewrite (Hsum (take n a) (x + 0)). unfold id.
    apply (f_equal (fun z => z mod 256)). lia.
Qed.

(** [sr_tp_appa_checksum l n] is the additive checksum of the first [n]
    bytes of [l]. *)
Lemma sr_tp_appa_checksum_spec l n :
  0 <= n < 256 -> (Z.to_nat n <= List.length l)%nat ->
  sr_tp_appa_checksum l n = checksum (take (Z.to_nat n) l).
Proof.
  intros Hn Hl. unfold sr_tp_appa_checksum, checksum.
  rewrite u8_id by exact Hn.
  rewrite checksum_loop_sum by (unfold is_u8; lia). reflexivity.
Qed.

(** The test the framer applies to a completed frame: its trailing byte
    against the checksum of the first [L] of the [L + 4] bytes before
    it. *)
Lemma receive_frame_test c P cs rest t pkt :
  buffer_size t = 0 -> List.length (buffer t) = 69%nat ->
  c <= 64 -> (List.length P <= 64)%nat ->
  snd (sr_tp_appa_receive t pkt (ReadBytes (frame c P cs ++ rest))) = TRUE
  <-> cs = checksum (take (List.length P) (header c P ++ P)).
Proof.
  intros Hsz Hlen Hc HP.
  destruct (receive_frame c P cs rest t pkt Hsz Hlen Hc HP) as (t' & _ & _ & Hr).
  rewrite Hr. rewrite sr_tp_appa_checksum_spec.
  - rewrite Nat2Z.id.
    destruct (Z.eqb_spec (checksum (take (List.length P) (header c P ++ P))) cs);
      cbn [snd]; split; intros H; try congruence; discriminate.
  - lia.
  - rewrite Nat2Z.id, length_app. lia.
Qed.

(** Every call that read bytes leaves the buffer empty. *)
Lemma receive_forgets t pkt bytes :
  buffer_size (fst (fst (sr_tp_appa_receive t pkt (ReadBytes bytes)))) = 0.
Proof.
  unfold sr_tp_appa_receive.
  destruct (receive_loop bytes t pkt FALSE) eqn:E; cbn [fst]; [reflexivity|].
  revert t E. induction bytes as [|b bytes IH]; intros t E.
  - discriminate.
  - cbn [receive_loop] in E.
    destruct (receive_byte t pkt b) eqn:Eb; [eapply IH; exact E|discriminate|].
    injection E as <- <-.
    unfold receive_byte in Eb.
    destruct (validate_header t b); [discriminate|].
    repeat match type of Eb with
           | context [if ?c then _ else _] => destruct c
           end; try discriminate.
    injection Eb as <- _. reflexivity.
Qed.

(** *** C1: which frames pass the checksum test *)

(** C1 (evaluated on the code): a frame with command 3 and payload
    [1;2;3;4] whose trailing byte 0xBB is the sum modulo 256 of its 4
    header bytes and 4 payload bytes is rejected, and with [SR_ERR_IO],
    not a data error; the same frame with trailing byte 0xB1, the sum of
    its first 4 bytes only, is delivered. *)
Theorem C1_checksum_test_on_frames :
  checksum (header 3 [1; 2; 3; 4] ++ [1; 2; 3; 4]) = 0xBB
  /\ valid_frame 3 [1; 2; 3; 4] = [0x55; 0x55; 3; 4; 1; 2; 3; 4; 0xBB]
  /\ snd (sr_tp_appa_receive inst0 packet0
            (ReadBytes (valid_frame 3 [1; 2; 3; 4]))) = SR_ERR_IO
  /\ snd (sr_tp_appa_receive inst0 packet0
            (ReadBytes (frame 3 [1; 2; 3; 4] 0xB1))) = TRUE
  /\ delivered (snd (fst (sr_tp_appa_receive inst0 packet0
                            (ReadBytes (frame 3 [1; 2; 3; 4] 0xB1)))))
     = (3, [1; 2; 3; 4]).
Proof. repeat split. Qed.

(** *** C2: two frames with garbage between them *)

Example frame_A_bytes :
  frame_A = [0x55; 0x55; 3; 4; 1; 255; 2; 254; 0xB1].
Proof. reflexivity. Qed.

(** The claim as written fails on [frame_A ++ [0] ++ frame_A]: read in
    one call, only the first frame is delivered; read byte by byte, none
    is. *)
Lemma C2_counterexample :
  no_double_start [0] = true
  /\ map delivered (fst (receive_calls inst0 [frame_A ++ [0] ++ frame_A]))
     = [(3, [1; 255; 2; 254])]
  /\ map delivered (fst (receive_calls inst0 [frame_A ++ [0] ++ frame_A]))
     <> [(3, [1; 255; 2; 254]); (3, [1; 255; 2; 254])]
  /\ map delivered
       (fst (receive_calls inst0 (map (fun b => [b]) (frame_A ++ [0] ++ frame_A))))
     = []
  /\ map delivered
       (fst (receive_calls inst0 (map (fun b => [b]) (frame_A ++ [0] ++ frame_A))))
     <> [(3, [1; 255; 2; 254]); (3, [1; 255; 2; 254])].
Proof. repeat split; discriminate. Qed.

(** C2 (amended): for every frame F1 with command [c] and payload [P]
    that the framer accepts when it is read alone, and all bytes G and
    F2 after it, one receive call that reads F1 ++ G ++ F2 into an empty
    buffer delivers exactly one packet, the one of F1 with its command
    and payload intact; G and F2 are dumped and the buffer is empty when
    the call returns. *)
Theorem C2_one_call_delivers_first_frame
    (c : Z) (P : list Z) (cs : Z) (G F2 : list Z) (t : sr_tp_appa_inst) :
  buffer_size t = 0 -> List.length (buffer t) = 69%nat ->
  c <= 64 -> (List.length P <= 64)%nat ->
  fst (receive_calls t [frame c P cs]) <> [] ->
  map delivered (fst (receive_calls t [frame c P cs ++ G ++ F2])) = [(c, P)]
  /\ buffer_size (snd (receive_calls t [frame c P cs ++ G ++ F2])) = 0.
Proof.
  intros Hsz Hlen Hc HP Hacc.
  destruct (receive_frame c P cs [] t packet0 Hsz Hlen Hc HP) as (t1 & _ & _ & H1).
  destruct (receive_frame c P cs (G ++ F2) t packet0 Hsz Hlen Hc HP)
    as (t2 & Hs2 & _ & H2).
  rewrite app_nil_r in H1.
  cbn [receive_calls] in *.
  rewrite H1 in Hacc. rewrite H2.
  destruct (sr_tp_appa_checksum (header c P ++ P) (Z.of_nat (List.length P)) =? cs).
  - cbn [fst snd map]. change (TRUE =? TRUE) with true. cbv iota.
    cbn [map fst snd]. split; [|exact Hs2].
    unfold delivered, payload. cbn [command length data].
    rewrite Nat2Z.id, take_app_length. reflexivity.
  - exfalso. apply Hacc. reflexivity.
Qed.

Lemma C2_one_call_delivers_first_frame_witness :
  map delivered (fst (receive_calls inst0
                        [frame 3 [1; 255; 2; 254] 0xB1 ++ [0] ++ frame_A]))
    = [(3, [1; 255; 2; 254])]
  /\ buffer_size (snd (receive_calls inst0
                         [frame 3 [1; 255; 2; 254] 0xB1 ++ [0] ++ frame_A])) = 0.
Proof.
  apply (C2_one_call_delivers_first_frame 3 [1; 255; 2; 254] 0xB1 [0] frame_A inst0).
  - reflexivity.
  - reflexivity.
  - lia.
  - cbn [List.length]. lia.
  - discriminate.
Defined.

(** *** C3: a call that ends inside a frame *)

(** C3 (evaluated on the code): [frame_A] read in one call is delivered;
    when a call ends after its first 5 bytes, the buffer is empty on
    return, and the remaining 4 bytes arriving in the next call do not
    complete the frame: nothing is delivered. *)
Theorem C3_partial_frame_is_forgotten :
  map delivered (fst (receive_calls inst0 [frame_A])) = [(3, [1; 255; 2; 254])]
  /\ snd (sr_tp_appa_receive inst0 packet0 (ReadBytes (take 5 frame_A))) = FALSE
  /\ filled (fst (fst (sr_tp_appa_receive inst0 packet0
                          (ReadBytes (take 5 frame_A))))) = []
  /\ map delivered (fst (receive_calls inst0 [take 5 frame_A; drop 5 frame_A]))
     = [].
Proof. repeat split. Qed.

(** The earlier framer keeps its buffer: reading a stream in two calls
    leaves the same context and hands over the same frames as reading it
    in one. *)
Lemma legacy_receive_loop_app a : forall b devc,
  Legacy.receive_loop (a ++ b) devc =
  let '(d1, f1) := Legacy.receive_loop a devc in
  let '(d2, f2) := Legacy.receive_loop b d1 in
  (d2, f1 ++ f2).
Proof.
  induction a as [|x a IH]; intros b devc.
  - cbn [app Legacy.receive_loop].
    destruct (Legacy.receive_loop b devc). reflexivity.
  - cbn [app Legacy.receive_loop].
    destruct (Legacy.receive_byte devc x) as [d fs].
    rewrite IH.
    destruct (Legacy.receive_loop a d) as [d1 f1].
    destruct (Legacy.receive_loop b d1) as [d2 f2].
    rewrite app_assoc. reflexivity.
Qed.

(** For instance the frame of C3, split after its fifth byte, is handed
    over complete by the earlier framer. *)
Example legacy_completes_split_frame :
  let '(d1, f1) := Legacy.receive_loop (take 5 frame_A) Legacy.context0 in
  let '(d2, f2) := Legacy.receive_loop (drop 5 frame_A) d1 in
  f1 = [] /\ Legacy.recv_buffer_len d1 = 5
  /\ f2 = [frame_A] /\ Legacy.recv_buffer_len d2 = 0.
Proof. repeat split. Qed.

(** *** C4: sending a packet and receiving it back *)

Lemma loopback_fails_all :
  forallb (fun u => let '(sent, got) := loopback (Z.of_nat u) in
                    (sent =? SR_OK) && negb (got =? TRUE))
          (seq 0 256) = true.
Proof. vm_compute. reflexivity. Qed.

(** C4 (evaluated on the code): the Read Display request (command 0x01,
    empty payload) is sent successfully, but whatever byte the
    uninitialised [header[3]] holds, feeding the bytes sent to the
    receiver does not give the packet back: the call does not return
    [TRUE]. *)
Theorem C4_loopback_fails (stack : list Z) :
  List.length stack = 4%nat -> is_u8 (rd stack 3) ->
  let '(line, sent) := sr_tp_appa_send stack [] read_display_request in
  sent = SR_OK
  /\ snd (sr_tp_appa_receive inst0 packet0 (ReadBytes line)) <> TRUE.
Proof.
  intros Hlen Hu.
  destruct stack as [|a [|b [|c [|u [|? ?]]]]]; try discriminate Hlen.
  change (rd [a; b; c; u] 3) with u in Hu.
  pose proof loopback_fails_all as Hall.
  rewrite forallb_forall in Hall.
  specialize (Hall (Z.to_nat u)).
  rewrite Z2Nat.id in Hall by (unfold is_u8 in Hu; lia).
  assert (Hin : In (Z.to_nat u) (seq 0 256))
    by (apply in_seq; unfold is_u8 in Hu; lia).
  specialize (Hall Hin). unfold loopback in Hall.
  change (sr_tp_appa_send [a; b; c; u] [] read_display_request)
    with (sr_tp_appa_send [0; 0; 0; u] [] read_display_request).
  destruct (sr_tp_appa_send [0; 0; 0; u] [] read_display_request) as [line sent].
  apply andb_true_iff in Hall. destruct Hall as [Hs Hg].
  apply Z.eqb_eq in Hs. apply negb_true_iff, Z.eqb_neq in Hg.
  split; assumption.
Qed.

Lemma C4_loopback_fails_witness :
  fst (loopback 0) = SR_OK /\ snd (loopback 0) <> TRUE.
Proof.
  exact (C4_loopback_fails [0; 0; 0; 0] eq_refl
           (conj (Z.le_refl 0) eq_refl)).
Defined.

End FramerFacts.

(** ** More on tp/appa.c: checksum, framer invariant, sender *)

Module TransportFacts.
Import Sr TpAppa Spec Framing Vectors.

Lemma sum_app (a b : list Z) :
  fold_right Z.add 0 (a ++ b) = fold_right Z.add 0 a + fold_right Z.add 0 b.
Proof.
  induction a as [|x a IH]; cbn [app fold_right]; [lia|]. rewrite IH. lia.
Qed.

(** X1: The checksum routine returns the sum modulo 256 of the first
    [arg_size] bytes of its array. *)
Theorem checksum_is_byte_sum (arg_data : list Z) (arg_size : Z) :
  0 <= arg_size < 256 ->
  (Z.to_nat arg_size <= List.length arg_data)%nat ->
  sr_tp_appa_checksum arg_data arg_size
  = fold_right Z.add 0 (take (Z.to_nat arg_size) arg_data) mod 256.
Proof.
  intros Hn Hl. rewrite FramerFacts.sr_tp_appa_checksum_spec by assumption.
  reflexivity.
Qed.

Lemma checksum_is_byte_sum_witness :
  sr_tp_appa_checksum [0x55; 0x55; 0x01; 0x00; 0xff] 4
  = fold_right Z.add 0 (take 4 [0x55; 0x55; 0x01; 0x00; 0xff]) mod 256.
Proof.
  apply (checksum_is_byte_sum [0x55; 0x55; 0x01; 0x00; 0xff] 4).
  - lia.
  - cbn. lia.
Defined.

(** X2: From an empty buffer, a candidate frame followed by anything makes
    the call return [TRUE] with the frame's command, length and payload
    when its trailing byte is the checksum of the frame's first [L]
    bytes, and [SR_ERR_IO] with the caller's packet untouched otherwise;
    either way the buffer is empty afterwards. *)
Theorem receive_candidate_frame
    (c : Z) (P : list Z) (cs : Z) (rest : list Z)
    (t : sr_tp_appa_inst) (pkt : sr_tp_appa_packet) :
  buffer_size t = 0 -> List.length (buffer t) = 69%nat ->
  c <= 64 -> (List.length P <= 64)%nat ->
  exists t',
    buffer_size t' = 0 /\
    sr_tp_appa_receive t pkt (ReadBytes (frame c P cs ++ rest)) =
    if checksum (take (List.length P) (header c P ++ P)) =? cs
    then (t',
          {| command := c;
             length := Z.of_nat (List.length P);
             data := P ++ drop (List.length P) (data pkt) |},
          TRUE)
    else (t', pkt, SR_ERR_IO).
Proof.
  intros Hsz Hlen Hc HP.
  destruct (FramerFacts.receive_frame c P cs rest t pkt Hsz Hlen Hc HP)
    as (t' & Hs & _ & Hr).
  exists t'. split; [exact Hs|]. rewrite Hr.
  rewrite FramerFacts.sr_tp_appa_checksum_spec.
  - rewrite Nat2Z.id. reflexivity.
  - lia.
  - rewrite Nat2Z.id, length_app. lia.
Qed.

Lemma receive_candidate_frame_witness :
  exists t',
    buffer_size t' = 0 /\
    sr_tp_appa_receive inst0 packet0
      (ReadBytes (frame 1 [7; 8] 0xAA ++ [0x55])) =
    if checksum (take 2 (header 1 [7; 8] ++ [7; 8])) =? 0xAA
    then (t',
          {| command := 1; length := 2;
             data := [7; 8] ++ drop 2 (data packet0) |},
          TRUE)
    else (t', packet0, SR_ERR_IO).
Proof.
  apply (receive_candidate_frame 1 [7; 8] 0xAA [0x55] inst0 packet0).
  - reflexivity.
  - reflexivity.
  - lia.
  - cbn. lia.
Defined.

(** Bytes without a start byte leave an empty buffer as it is. *)
Lemma receive_loop_no_start bs : forall t pkt r,
  buffer_size t = 0 -> no_start bs ->
  receive_loop bs t pkt r = Left t pkt r.
Proof.
  induction bs as [|b bs IH]; intros t pkt r Hsz Hns; [reflexivity|].
  unfold no_start in Hns. cbn [forallb] in Hns.
  apply andb_true_iff in Hns. destruct Hns as [Hb Hns].
  cbn [receive_loop]. unfold receive_byte, validate_header.
  rewrite Hsz. change (0 <? 1) with true. cbv iota. rewrite Hb.
  apply IH; assumption.
Qed.

Lemma receive_garbage_is_dropped_aux
    (bs : list Z) (t : sr_tp_appa_inst) (pkt : sr_tp_appa_packet) :
  buffer_size t = 0 -> no_start bs ->
  sr_tp_appa_receive t pkt (ReadBytes bs)
  = (sr_tp_appa_buffer_reset t, pkt, FALSE).
Proof.
  intros Hsz Hns. unfold sr_tp_appa_receive.
  rewrite receive_loop_no_start by assumption. reflexivity.
Qed.

(** X3: A call that reads no start byte into an empty buffer returns
    [FALSE], delivers nothing and leaves the buffer empty: garbage is
    dropped silently. *)
Theorem receive_garbage_is_dropped
    (bs : list Z) (t : sr_tp_appa_inst) (pkt : sr_tp_appa_packet) :
  buffer_size t = 0 -> no_start bs ->
  sr_tp_appa_receive t pkt (ReadBytes bs)
  = (sr_tp_appa_buffer_reset t, pkt, FALSE).
Proof.
  intros Hsz Hns. unfold sr_tp_appa_receive.
  rewrite receive_loop_no_start by assumption. reflexivity.
Qed.

Lemma receive_garbage_is_dropped_witness :
  sr_tp_appa_receive inst0 packet0 (ReadBytes [0x00; 0x54; 0x56; 0xff])
  = (sr_tp_appa_buffer_reset inst0, packet0, FALSE).
Proof.
  apply (receive_garbage_is_dropped [0x00; 0x54; 0x56; 0xff] inst0 packet0);
    reflexivity.
Defined.

(** *** The invariant of the receive loop *)

Lemma framer_inv_reset t :
  List.length (buffer t) = 69%nat -> framer_inv (sr_tp_appa_buffer_reset t).
Proof.
  intros Hl. unfold framer_inv. rewrite FramerFacts.length_buffer_reset.
  cbn [sr_tp_appa_buffer_reset buffer_size]. repeat split; try lia; exact Hl.
Qed.

(** One byte either keeps the invariant, or leaves the loop through
    [break]; the [return SR_ERR_BUG] is never taken. *)
Lemma receive_byte_inv t pkt b :
  framer_inv t -> 0 <= b ->
  match receive_byte t pkt b with
  | Continue t' => framer_inv t'
  | Break t' _ r => List.length (buffer t') = 69%nat /\ (r = TRUE \/ r = SR_ERR_IO)
  | Return _ _ => False
  end.
Proof.
  intros (Hl & Hsz & H4) Hb. unfold receive_byte.
  destruct (validate_header t b) as [t0|] eqn:Hv.
  - unfold validate_header in Hv.
    repeat match type of Hv with
           | context [if ?c then _ else _] => destruct c
           end; try discriminate; injection Hv as <-;
      try (apply framer_inv_reset; exact Hl).
    unfold framer_inv; auto.
  - set (t1 := {| buffer := wr (buffer t) (buffer_size t) b;
                  buffer_size := u8 (buffer_size t + 1) |}).
    assert (Hs1 : buffer_size t1 = buffer_size t + 1)
      by (subst t1; cbn [buffer_size]; apply u8_id; unfold is_u8; lia).
    assert (Hl1 : List.length (buffer t1) = 69%nat)
      by (subst t1; cbn [buffer]; unfold wr; rewrite length_insert; exact Hl).
    assert (H3 : 3 <= buffer_size t -> b <= 64 \/ 4 <= buffer_size t).
    { intros H3. unfold validate_header in Hv.
      destruct (Z.ltb_spec (buffer_size t) 1); [lia|].
      destruct (Z.ltb_spec (buffer_size t) 2); [lia|].
      destruct (Z.ltb_spec (buffer_size t) 4); [|right; lia].
      unfold SR_TP_APPA_MAX_DATA_SIZE in Hv.
      destruct (Z.gtb_spec b 64); [discriminate|left; lia]. }
    assert (HL : 4 <= buffer_size t1 ->
                 0 <= rd (buffer t1) 3 <= 64
                 /\ buffer_size t1 <= rd (buffer t1) 3 + 5).
    { intros Hge. rewrite Hs1 in *. subst t1. cbn [buffer].
      destruct (Z.eq_dec (buffer_size t) 3) as [E3|N3].
      - rewrite E3. rewrite FramerFacts.rd_wr_eq by lia.
        destruct (H3 ltac:(lia)); lia.
      - rewrite FramerFacts.rd_wr_ne by lia.
        destruct (H4 ltac:(lia)). lia. }
    destruct (Z.gtb_spec (buffer_size t1) 4) as [Hgt|Hle]; cbn [andb].
    + destruct (HL ltac:(lia)) as [HL1 HL2].
      unfold SR_TP_APPA_HEADER_SIZE.
      destruct (Z.eqb_spec (rd (buffer t1) 3 + 4 + 1) (buffer_size t1)) as [E|N].
      * destruct (_ =? _); split; auto.
      * unfold SR_TP_APPA_MAX_PACKET_SIZE.
        destruct (Z.gtb_spec (buffer_size t1) 69); [lia|].
        unfold framer_inv. repeat split; try lia; exact Hl1.
    + unfold SR_TP_APPA_MAX_PACKET_SIZE.
      destruct (Z.gtb_spec (buffer_size t1) 69); [lia|].
      unfold framer_inv. split; [exact Hl1|]. split; [lia|].
      intros Hge. destruct (HL Hge). split; lia.
Qed.

Lemma receive_loop_inv bs : forall t pkt r,
  framer_inv t -> Forall (fun b => 0 <= b) bs ->
  exists t' p r',
    receive_loop bs t pkt r = Left t' p r'
    /\ List.length (buffer t') = 69%nat
    /\ (r' = r \/ r' = TRUE \/ r' = SR_ERR_IO).
Proof.
  induction bs as [|b bs IH]; intros t pkt r Hinv Hbs.
  - exists t, pkt, r. cbn [receive_loop]. destruct Hinv as (Hl & _). auto.
  - inversion Hbs as [|? ? Hb Hbs']; subst.
    pose proof (receive_byte_inv t pkt b Hinv Hb) as Hstep.
    cbn [receive_loop].
    destruct (receive_byte t pkt b) as [t1|t1 p1 r1|t1 c1].
    + apply IH; assumption.
    + exists t1, p1, r1. destruct Hstep as [Hl Hr]. tauto.
    + contradiction.
Qed.

(** X4: Started on an empty 69-byte buffer and fed bytes (non-negative
    values), a receive call returns [FALSE], [TRUE] or [SR_ERR_IO], never
    [SR_ERR_BUG], and hands back an empty 69-byte buffer: the next call
    starts under the same conditions. *)
Theorem receive_return_values
    (bs : list Z) (t : sr_tp_appa_inst) (pkt : sr_tp_appa_packet) :
  buffer_size t = 0 -> List.length (buffer t) = 69%nat ->
  Forall (fun b => 0 <= b) bs ->
  let '(t', _, r) := sr_tp_appa_receive t pkt (ReadBytes bs) in
  (r = FALSE \/ r = TRUE \/ r = SR_ERR_IO)
  /\ buffer_size t' = 0 /\ List.length (buffer t') = 69%nat.
Proof.
  intros Hsz Hl Hbs.
  assert (Hinv : framer_inv t).
  { unfold framer_inv. rewrite Hsz. repeat split; try lia; exact Hl. }
  destruct (receive_loop_inv bs t pkt FALSE Hinv Hbs) as (t' & p & r' & Hloop & Hl' & Hr).
  unfold sr_tp_appa_receive. rewrite Hloop.
  split; [exact Hr|]. split; [reflexivity|].
  rewrite FramerFacts.length_buffer_reset. exact Hl'.
Qed.

Lemma receive_return_values_witness :
  let '(t', _, r) :=
    sr_tp_appa_receive inst0 packet0 (ReadBytes [0x55; 0x55; 0x40; 0x40; 0x01]) in
  (r = FALSE \/ r = TRUE \/ r = SR_ERR_IO)
  /\ buffer_size t' = 0 /\ List.length (buffer t') = 69%nat.
Proof.
  apply (receive_return_values [0x55; 0x55; 0x40; 0x40; 0x01] inst0 packet0).
  - reflexivity.
  - reflexivity.
  - repeat constructor; discriminate.
Defined.

(** *** The sender *)

(** The bytes [sr_tp_appa_send] transmits for a packet, when
    [header[3]] held [u] on entry. *)
Lemma send_header (stack : list Z) (cmd len : Z) :
  List.length stack = 4%nat ->
  wr (wr (wr (wr stack 0 SR_TP_APPA_START_BYTE) 1 SR_TP_APPA_START_BYTE) 2 cmd) 4 len
  = [0x55; 0x55; cmd; rd stack 3].
Proof.
  intros Hl. destruct stack as [|a [|b [|c [|u [|? ?]]]]]; try discriminate Hl.
  reflexivity.
Qed.

Lemma send_wire_image_aux (stack line : list Z) (pkt : sr_tp_appa_packet) :
  List.length stack = 4%nat ->
  List.length (data pkt) = 64%nat ->
  0 <= length pkt <= 64 ->
  exists sent, sr_tp_appa_send stack line pkt = (line ++ sent, SR_OK).
Proof.
  intros Hs Hd HL. unfold sr_tp_appa_send.
  unfold SR_TP_APPA_MAX_PAYLOAD_SIZE.
  destruct (Z.gtb_spec (length pkt) 68); [lia|].
  unfold serial_write_nonblocking, SR_TP_APPA_HEADER_SIZE.
  change (negb (4 =? 4)) with false. cbv iota.
  rewrite Z.eqb_refl. cbn [negb].
  change (negb (1 =? 1)) with false. cbv iota.
  eexists. rewrite <- !app_assoc. reflexivity.
Qed.

Lemma send_bytes (stack line : list Z) (pkt : sr_tp_appa_packet) :
  List.length stack = 4%nat ->
  List.length (data pkt) = 64%nat ->
  0 <= length pkt <= 64 ->
  sr_tp_appa_send stack line pkt =
  (line ++ ([0x55; 0x55; command pkt; rd stack 3] ++ payload pkt)
        ++ [checksum ([0x55; 0x55; command pkt; rd stack 3] ++ payload pkt)],
   SR_OK).
Proof.
  intros Hs Hd HL. unfold sr_tp_appa_send.
  unfold SR_TP_APPA_MAX_PAYLOAD_SIZE.
  destruct (Z.gtb_spec (length pkt) 68); [lia|].
  rewrite send_header by exact Hs.
  unfold serial_write_nonblocking, SR_TP_APPA_HEADER_SIZE.
  change (negb (4 =? 4)) with false. cbv iota.
  rewrite Z.eqb_refl. cbn [negb].
  change (negb (1 =? 1)) with false. cbv iota.
  f_equal.
  rewrite !FramerFacts.sr_tp_appa_checksum_spec by (cbn [List.length]; lia).
  unfold checksum, u8. rewrite <- Z.add_mod by lia.
  unfold payload.
  rewrite <- !app_assoc. do 2 f_equal.
  change (take (Z.to_nat 4) [85; 85; command pkt; rd stack 3])
    with [85; 85; command pkt; rd stack 3].
  rewrite sum_app. reflexivity.
Qed.

(** X5: A packet of at most 64 payload bytes is written out as four header
    bytes, the payload and one trailing byte, and that trailing byte is
    the checksum of all the bytes written before it; the fourth header
    byte is whatever [header[3]] held.  A length above 68 is refused with
    [SR_ERR_DATA] before anything is written. *)
Theorem send_wire_image
    (stack line : list Z) (pkt : sr_tp_appa_packet) :
  List.length stack = 4%nat ->
  List.length (data pkt) = 64%nat ->
  (0 <= length pkt <= 64 ->
     let sent := [0x55; 0x55; command pkt; rd stack 3] ++ payload pkt in
     sr_tp_appa_send stack line pkt = (line ++ sent ++ [checksum sent], SR_OK))
  /\ (length pkt > 68 -> sr_tp_appa_send stack line pkt = (line, SR_ERR_DATA)).
Proof.
  intros Hs Hd. split.
  - intros HL sent. subst sent. apply send_bytes; assumption.
  - intros HL. unfold sr_tp_appa_send, SR_TP_APPA_MAX_PAYLOAD_SIZE.
    destruct (Z.gtb_spec (length pkt) 68); [reflexivity|lia].
Qed.

Lemma send_wire_image_witness :
  sr_tp_appa_send [0; 0; 0; 9] [] read_display_request
  = ([] ++ ([0x55; 0x55; 0x01; 9] ++ [])
        ++ [checksum ([0x55; 0x55; 0x01; 9] ++ [])], SR_OK).
Proof.
  apply (proj1 (send_wire_image [0; 0; 0; 9] [] read_display_request
                  eq_refl eq_refl)).
  cbn. lia.
Defined.

(** *** Sending and polling for the response *)

Lemma quiet_receive t pkt rx :
  sr_tp_appa_buffer_reset t = t -> quiet rx ->
  sr_tp_appa_receive t pkt rx = (t, pkt, FALSE).
Proof.
  intros Ht Hq. destruct rx as [code|bs]; [contradiction|].
  rewrite receive_garbage_is_dropped_aux; [rewrite Ht; reflexivity| |exact Hq].
  rewrite <- Ht. reflexivity.
Qed.

(** Polls that bring no start byte change nothing and use up their
    reads. *)
Lemma receive_cycles_quiet n : forall t pkt reads r0,
  sr_tp_appa_buffer_reset t = t ->
  Forall quiet (take n reads) ->
  receive_cycles n t pkt reads r0
  = (t, pkt, drop n reads, match n with O => r0 | S _ => FALSE end).
Proof.
  induction n as [|n IH]; intros t pkt reads r0 Ht Hq; [reflexivity|].
  cbn [receive_cycles].
  assert (Hhd : quiet (hd (ReadBytes []) reads)).
  { destruct reads as [|rx reads]; [reflexivity|].
    rewrite firstn_cons in Hq. inversion Hq; assumption. }
  rewrite quiet_receive by assumption.
  change ((FALSE <? SR_OK) || (FALSE =? TRUE)) with false. cbv iota.
  rewrite IH; [|exact Ht|].
  - destruct reads as [|rx reads]; cbn [tl drop]; destruct n; reflexivity.
  - destruct reads as [|rx reads]; cbn [tl].
    + rewrite take_nil. constructor.
    + rewrite firstn_cons in Hq. inversion Hq; assumption.
Qed.

(** After [k] quiet polls, the poll that brings a decision ends the
    loop. *)
Lemma receive_cycles_answer n : forall k t pkt reads r0 rx t1 p1 r1,
  (k < n)%nat ->
  sr_tp_appa_buffer_reset t = t ->
  Forall quiet (take k reads) ->
  reads !! k = Some rx ->
  sr_tp_appa_receive t pkt rx = (t1, p1, r1) ->
  r1 < SR_OK \/ r1 = TRUE ->
  receive_cycles n t pkt reads r0 = (t1, p1, drop (S k) reads, r1).
Proof.
  induction n as [|n IH]; intros k t pkt reads r0 rx t1 p1 r1 Hk Ht Hq Hrx Hr Hdec;
    [lia|].
  destruct reads as [|rx0 reads]; [discriminate Hrx|].
  cbn [receive_cycles hd tl].
  destruct k as [|k].
  - cbn in Hrx. injection Hrx as ->. rewrite Hr.
    assert (Hb : (r1 <? SR_OK) || (r1 =? TRUE) = true).
    { apply orb_true_iff. destruct Hdec as [H|H].
      - left. apply Z.ltb_lt. exact H.
      - right. apply Z.eqb_eq. exact H. }
    rewrite Hb. reflexivity.
  - rewrite firstn_cons in Hq. inversion Hq as [|? ? Hq0 Hq']; subst.
    rewrite quiet_receive by assumption.
    change ((FALSE <? SR_OK) || (FALSE =? TRUE)) with false. cbv iota.
    cbn in Hrx. cbn [drop].
    eapply IH; eauto. lia.
Qed.

(** X6: [sr_tp_appa_send_receive] on a reset instance: when the first ten
    reads bring no start byte it gives up with [FALSE] after exactly ten
    receive calls, the response packet untouched; when a read among the
    first ten, after quiet ones only, makes the receive call return
    [TRUE] or an error, that call's result is returned and no further
    read is made. *)
Theorem send_receive_polls
    (stack line : list Z) (t : sr_tp_appa_inst)
    (s_pkt r_pkt : sr_tp_appa_packet) (reads : list serial_read) :
  List.length stack = 4%nat ->
  List.length (data s_pkt) = 64%nat ->
  0 <= length s_pkt <= 64 ->
  sr_tp_appa_buffer_reset t = t ->
  let line' := fst (sr_tp_appa_send stack line s_pkt) in
  (Forall quiet (take 10 reads) ->
     sr_tp_appa_send_receive stack line t s_pkt r_pkt reads
     = (line', t, r_pkt, drop 10 reads, FALSE))
  /\ (forall k rx t1 p1 r1,
        (k < 10)%nat ->
        Forall quiet (take k reads) ->
        reads !! k = Some rx ->
        sr_tp_appa_receive t r_pkt rx = (t1, p1, r1) ->
        r1 < SR_OK \/ r1 = TRUE ->
        sr_tp_appa_send_receive stack line t s_pkt r_pkt reads
        = (line', t1, p1, drop (S k) reads, r1)).
Proof.
  intros Hs Hd HL Ht line'.
  destruct (send_wire_image_aux stack line s_pkt Hs Hd HL) as [sent Hsend].
  subst line'. unfold sr_tp_appa_send_receive. rewrite Hsend. cbn [fst].
  change (SR_OK <? SR_OK) with false. cbv iota.
  change (Z.to_nat (SR_TP_APPA_RECEIVE_TIMEOUT ÷ 50)) with 10%nat.
  split.
  - intros Hq. rewrite receive_cycles_quiet by assumption. reflexivity.
  - intros k rx t1 p1 r1 Hk Hq Hrx Hr Hdec.
    rewrite (receive_cycles_answer 10 k t r_pkt reads SR_OK rx t1 p1 r1)
      by assumption.
    reflexivity.
Qed.

Lemma send_receive_polls_witness :
  sr_tp_appa_send_receive [0; 0; 0; 0] [] inst0 read_display_request packet0
    [ReadBytes [0x00]; ReadBytes []]
  = (fst (sr_tp_appa_send [0; 0; 0; 0] [] read_display_request),
     inst0, packet0, drop 10 [ReadBytes [0x00]; ReadBytes []], FALSE).
Proof.
  apply (proj1 (send_receive_polls [0; 0; 0; 0] [] inst0 read_display_request
                  packet0 [ReadBytes [0x00]; ReadBytes []]
                  eq_refl eq_refl ltac:(cbn; lia) eq_refl)).
  repeat constructor.
Defined.

(** *** Command bytes above 64 *)

(** X7: The header check compares the command byte, like the length byte,
    with the maximum data size: a frame whose command byte is above 64,
    as for the Failure (0x70) and Success (0x7f) responses, is thrown
    away at its third byte, and when no start byte follows the call
    returns [FALSE] with the response packet untouched. *)
Theorem receive_drops_high_command
    (c : Z) (rest : list Z) (t : sr_tp_appa_inst) (pkt : sr_tp_appa_packet) :
  buffer_size t = 0 -> 64 < c -> no_start rest ->
  exists t',
    buffer_size t' = 0
    /\ sr_tp_appa_receive t pkt (ReadBytes ([0x55; 0x55; c] ++ rest))
       = (t', pkt, FALSE).
Proof.
  intros Hsz Hc Hns.
  set (t1 := push t 0x55). set (t2 := push t1 0x55).
  assert (S1 : buffer_size t1 = 1) by (subst t1; cbn [push buffer_size]; lia).
  assert (S2 : buffer_size t2 = 2) by (subst t2; cbn [push buffer_size]; lia).
  exists (sr_tp_appa_buffer_reset (sr_tp_appa_buffer_reset t2)).
  split; [reflexivity|].
  unfold sr_tp_appa_receive. cbn [app receive_loop].
  rewrite (FramerFacts.receive_byte_header t pkt 0x55)
    by (try reflexivity; intros; lia).
  fold t1.
  rewrite (FramerFacts.receive_byte_header t1 pkt 0x55)
    by (try reflexivity; intros; lia).
  fold t2.
  assert (H3 : receive_byte t2 pkt c = Continue (sr_tp_appa_buffer_reset t2)).
  { unfold receive_byte, validate_header. rewrite S2.
    change (2 <? 1) with false. change (2 <? 2) with false.
    change (2 <? 4) with true. cbv iota.
    unfold SR_TP_APPA_MAX_DATA_SIZE.
    destruct (Z.gtb_spec c 64); [reflexivity|lia]. }
  rewrite H3.
  rewrite receive_loop_no_start by (try reflexivity; exact Hns).
  reflexivity.
Qed.

Lemma receive_drops_high_command_witness :
  exists t',
    buffer_size t' = 0
    /\ sr_tp_appa_receive inst0 packet0
         (ReadBytes ([0x55; 0x55; 0x7f] ++ [0x00; 0x29]))
       = (t', packet0, FALSE).
Proof.
  apply (receive_drops_high_command 0x7f [0x00; 0x29] inst0 packet0).
  - reflexivity.
  - lia.
  - reflexivity.
Defined.

(** *** Initialisation *)

Lemma buffer_reset_idempotent (t : sr_tp_appa_inst) :
  sr_tp_appa_buffer_reset (sr_tp_appa_buffer_reset t) = sr_tp_appa_buffer_reset t.
Proof.
  unfold sr_tp_appa_buffer_reset. cbn [buffer]. f_equal.
  destruct (buffer t) as [|a [|b [|c [|d l]]]]; reflexivity.
Qed.

(** X8: [sr_tp_appa_init] never reports success: whatever its arguments it
    returns [SR_ERR_BUG].  With both arguments given it has nevertheless
    done its work: the instance it leaves is empty, a further reset
    changes nothing, and a read without a start byte leaves it as it is
    and returns [FALSE]. *)
Theorem init_reports_failure (arg_tpai : option sr_tp_appa_inst)
    (arg_serial : bool) (pkt : sr_tp_appa_packet) (bs : list Z) :
  no_start bs ->
  snd (sr_tp_appa_init arg_tpai arg_serial) = SR_ERR_BUG
  /\ (forall t0, arg_tpai = Some t0 -> arg_serial = true ->
      exists t,
        fst (sr_tp_appa_init arg_tpai arg_serial) = Some t
        /\ buffer_size t = 0
        /\ sr_tp_appa_buffer_reset t = t
        /\ sr_tp_appa_receive t pkt (ReadBytes bs) = (t, pkt, FALSE)).
Proof.
  intros Hns. split.
  - unfold sr_tp_appa_init. destruct arg_tpai as [t|]; [|reflexivity].
    destruct arg_serial; reflexivity.
  - intros t0 -> ->. exists (sr_tp_appa_buffer_reset t0).
    split; [reflexivity|]. split; [reflexivity|].
    split; [apply buffer_reset_idempotent|].
    apply quiet_receive; [apply buffer_reset_idempotent|exact Hns].
Qed.

Lemma init_reports_failure_witness :
  snd (sr_tp_appa_init (Some inst0) true) = SR_ERR_BUG
  /\ (forall t0, Some inst0 = Some t0 -> true = true ->
      exists t,
        fst (sr_tp_appa_init (Some inst0) true) = Some t
        /\ buffer_size t = 0
        /\ sr_tp_appa_buffer_reset t = t
        /\ sr_tp_appa_receive t packet0 (ReadBytes [0x00; 0x54]) = (t, packet0, FALSE)).
Proof.
  apply (init_reports_failure (Some inst0) true packet0 [0x00; 0x54]).
  reflexivity.
Defined.

End TransportFacts.

(** ** The earlier framer: chunking and resynchronisation *)

Module LegacyFacts.
Import Sr Spec Framing Vectors.
Import Legacy.

Lemma legacy_loop_app a : forall b devc,
  receive_loop (a ++ b) devc =
  let '(d1, f1) := receive_loop a devc in
  let '(d2, f2) := receive_loop b d1 in
  (d2, f1 ++ f2).
Proof. exact (FramerFacts.legacy_receive_loop_app a). Qed.

(** X9: However a byte stream is cut into reads, the earlier framer ends in
    the same context and hands the same frames to the decoder as when
    the whole stream is read in one call. *)
Theorem legacy_chunking_is_irrelevant (chunks : list (list Z))
    (devc : appadmm_context) :
  receive_calls devc chunks = receive_loop (concat chunks) devc.
Proof.
  revert devc. induction chunks as [|c chunks IH]; intros devc; [reflexivity|].
  cbn [receive_calls concat appadmm_receive].
  rewrite legacy_loop_app.
  destruct (receive_loop c devc) as [d fs].
  rewrite IH. reflexivity.
Qed.

Lemma length_reset d :
  List.length (recv_buffer (appadmm_receive_buffer_reset d))
  = List.length (recv_buffer d).
Proof.
  unfold appadmm_receive_buffer_reset, wr. cbn [recv_buffer].
  rewrite !length_insert. reflexivity.
Qed.

Lemma lfilled_lpush d b :
  0 <= recv_buffer_len d ->
  (Z.to_nat (recv_buffer_len d) < List.length (recv_buffer d))%nat ->
  lfilled (lpush d b) = lfilled d ++ [b].
Proof.
  intros H0 Hlt. unfold lfilled, lpush. cbn [recv_buffer recv_buffer_len].
  replace (Z.to_nat (recv_buffer_len d + 1))
    with (S (Z.to_nat (recv_buffer_len d))) by lia.
  unfold wr.
  rewrite (take_S_r _ _ b) by (apply list_lookup_insert_eq; lia).
  rewrite take_insert_ge by lia. reflexivity.
Qed.

(** A byte that passes the header checks, or a payload byte that does
    not complete the frame, is stored. *)
Lemma legacy_receive_byte_stored d b :
  0 <= recv_buffer_len d ->
  rejects d b = None ->
  (4 <= recv_buffer_len d ->
   rd (recv_buffer d) 3 <= 64 /\ recv_buffer_len d + 1 < rd (recv_buffer d) 3 + 5) ->
  receive_byte d b = (lpush d b, []).
Proof.
  intros H0 Hrej Hpay. unfold receive_byte. rewrite Hrej.
  cbn [recv_buffer recv_buffer_len].
  destruct (Z.lt_ge_cases (recv_buffer_len d) 4) as [Hlt|Hge].
  - rewrite u8_id by (unfold is_u8; lia).
    destruct (Z.gtb_spec (recv_buffer_len d + 1) 4); [lia|]. cbn [andb].
    cbn [recv_buffer_len].
    unfold APPADMM_FRAME_MAX_SIZE, APPADMM_FRAME_MAX_DATA_SIZE,
      APPADMM_FRAME_HEADER_SIZE, APPADMM_FRAME_CHECKSUM_SIZE.
    destruct (Z.gtb_spec (recv_buffer_len d + 1) (64 + 4 + 1)); [lia|].
    reflexivity.
  - destruct (Hpay Hge) as [HL Hinc].
    rewrite u8_id by (unfold is_u8; lia).
    rewrite FramerFacts.rd_wr_ne by lia.
    unfold APPADMM_FRAME_MAX_SIZE, APPADMM_FRAME_MAX_DATA_SIZE,
      APPADMM_FRAME_HEADER_SIZE, APPADMM_FRAME_CHECKSUM_SIZE.
    destruct (Z.eqb_spec (rd (recv_buffer d) 3 + 4 + 1) (recv_buffer_len d + 1)); [lia|].
    rewrite andb_false_r. cbn [recv_buffer_len].
    destruct (Z.gtb_spec (recv_buffer_len d + 1) (64 + 4 + 1)); [lia|].
    reflexivity.
Qed.

Lemma rejects_payload d b : 4 <= recv_buffer_len d -> rejects d b = None.
Proof.
  intros H. unfold rejects.
  destruct (Z.ltb_spec (recv_buffer_len d) 1); [lia|].
  destruct (Z.ltb_spec (recv_buffer_len d) 2); [lia|].
  destruct (Z.ltb_spec (recv_buffer_len d) 3); [lia|].
  destruct (Z.ltb_spec (recv_buffer_len d) 4); [lia|].
  reflexivity.
Qed.

(** The byte that completes the frame hands the buffered bytes to the
    decoder and resets the buffer. *)
Lemma legacy_receive_byte_complete d b :
  4 <= recv_buffer_len d ->
  (Z.to_nat (recv_buffer_len d) < List.length (recv_buffer d))%nat ->
  rd (recv_buffer d) 3 <= 64 ->
  recv_buffer_len d + 1 = rd (recv_buffer d) 3 + 5 ->
  receive_byte d b
  = (appadmm_receive_buffer_reset (lpush d b), [lfilled d ++ [b]]).
Proof.
  intros H4 Hlt HL Hfull. unfold receive_byte.
  rewrite rejects_payload by exact H4.
  cbn [recv_buffer recv_buffer_len].
  rewrite u8_id by (unfold is_u8; lia).
  rewrite FramerFacts.rd_wr_ne by lia.
  unfold APPADMM_FRAME_MAX_SIZE, APPADMM_FRAME_MAX_DATA_SIZE,
    APPADMM_FRAME_HEADER_SIZE, APPADMM_FRAME_CHECKSUM_SIZE.
  destruct (Z.gtb_spec (recv_buffer_len d + 1) 4); [|lia].
  destruct (Z.eqb_spec (rd (recv_buffer d) 3 + 4 + 1) (recv_buffer_len d + 1)); [|lia].
  cbn [andb]. cbn [appadmm_receive_buffer_reset recv_buffer_len].
  change (0 >? 64 + 4 + 1) with false. cbv iota.
  fold (lpush d b). rewrite <- lfilled_lpush by lia.
  reflexivity.
Qed.

Lemma legacy_receive_loop_payload P : forall d rest,
  4 <= recv_buffer_len d ->
  rd (recv_buffer d) 3 <= 64 ->
  recv_buffer_len d + Z.of_nat (List.length P) < rd (recv_buffer d) 3 + 5 ->
  (Z.to_nat (recv_buffer_len d) + List.length P <= List.length (recv_buffer d))%nat ->
  exists d',
    receive_loop (P ++ rest) d = receive_loop rest d'
    /\ recv_buffer_len d' = recv_buffer_len d + Z.of_nat (List.length P)
    /\ lfilled d' = lfilled d ++ P
    /\ List.length (recv_buffer d') = List.length (recv_buffer d)
    /\ rd (recv_buffer d') 3 = rd (recv_buffer d) 3.
Proof.
  induction P as [|b P IH]; intros d rest H4 HL Hinc Hroom.
  - exists d. cbn [app List.length Z.of_nat]. rewrite Z.add_0_r, app_nil_r.
    repeat split; reflexivity.
  - cbn [List.length] in Hinc, Hroom. cbn [app receive_loop].
    rewrite legacy_receive_byte_stored;
      [|lia|apply rejects_payload; exact H4|intros _; split; lia].
    destruct (IH (lpush d b) rest) as (d' & Hloop & Hsz & Hf & Hlen & H3).
    + cbn [lpush recv_buffer_len]. lia.
    + cbn [lpush recv_buffer]. rewrite FramerFacts.rd_wr_ne by lia. exact HL.
    + cbn [lpush recv_buffer recv_buffer_len].
      rewrite FramerFacts.rd_wr_ne by lia. lia.
    + cbn [lpush recv_buffer recv_buffer_len]. unfold wr.
      rewrite length_insert. lia.
    + exists d'. rewrite Hloop.
      destruct (receive_loop rest d') as [d2 f2]. cbn [app].
      split; [reflexivity|].
      cbn [lpush recv_buffer recv_buffer_len] in Hsz, Hlen, H3.
      unfold wr in Hlen. rewrite length_insert in Hlen.
      rewrite FramerFacts.rd_wr_ne in H3 by lia.
      rewrite lfilled_lpush in Hf by lia.
      rewrite <- app_assoc in Hf. cbn [app] in Hf.
      cbn [List.length]. repeat split; try assumption. lia.
Qed.

Lemma response_size_le cmd : AppaDmm.appadmm_get_response_size cmd <= 64.
Proof.
  rewrite CatalogFacts.get_response_size_catalog.
  destruct (catalog_size cmd) as [n|] eqn:Hc.
  - apply CatalogFacts.catalog_size_nonneg in Hc. lia.
  - unfold SR_ERR_DATA. lia.
Qed.

Lemma valid_size_bounds c L :
  appadmm_is_response_frame_data_size_valid c L = SR_OK ->
  0 <= appadmm_frame_response_size c /\ L <= 64.
Proof.
  unfold appadmm_is_response_frame_data_size_valid, appadmm_frame_response_size,
    SR_OK, SR_ERR_DATA.
  pose proof (response_size_le c) as Hle.
  destruct (Z.ltb_spec (AppaDmm.appadmm_get_response_size c) 0); [lia|].
  destruct (c =? AppaDmm.APPADMM_COMMAND_READ_MEMORY); cbn [andb].
  - destruct (Z.leb_spec L (AppaDmm.appadmm_get_response_size c)); [lia|].
    destruct (Z.eqb_spec (AppaDmm.appadmm_get_response_size c) L); [lia|discriminate].
  - destruct (Z.eqb_spec (AppaDmm.appadmm_get_response_size c) L); [lia|discriminate].
Qed.

Lemma legacy_receive_loop_header d c L rest :
  lempty d ->
  appadmm_is_response_frame_data_size_valid c L = SR_OK ->
  exists d4,
    receive_loop ([0x55; 0x55; c; L] ++ rest) d = receive_loop rest d4
    /\ recv_buffer_len d4 = 4
    /\ lfilled d4 = [0x55; 0x55; c; L]
    /\ List.length (recv_buffer d4) = 69%nat
    /\ rd (recv_buffer d4) 3 = L.
Proof.
  intros [H0 Hlen] Hv.
  destruct (valid_size_bounds _ _ Hv) as [Hc HL].
  exists (lpush (lpush (lpush (lpush d 0x55) 0x55) c) L).
  assert (Hf0 : lfilled d = []) by (unfold lfilled; rewrite H0; reflexivity).
  cbn [app receive_loop].
  rewrite (legacy_receive_byte_stored d 0x55);
    [|lia|unfold rejects; rewrite H0; reflexivity|lia].
  set (d1 := lpush d 0x55).
  assert (H1 : recv_buffer_len d1 = 1) by (cbn; lia).
  assert (Hl1 : List.length (recv_buffer d1) = 69%nat)
    by (cbn; unfold wr; rewrite length_insert; exact Hlen).
  rewrite (legacy_receive_byte_stored d1 0x55);
    [|lia|unfold rejects; rewrite H1; reflexivity|lia].
  set (d2 := lpush d1 0x55).
  assert (H2 : recv_buffer_len d2 = 2) by (cbn; lia).
  assert (Hl2 : List.length (recv_buffer d2) = 69%nat)
    by (cbn [d2 lpush recv_buffer]; unfold wr; rewrite length_insert; exact Hl1).
  rewrite (legacy_receive_byte_stored d2 c);
    [|lia| |lia].
  2:{ unfold rejects. rewrite H2. cbn [Z.ltb Z.compare].
      destruct (Z.ltb_spec (appadmm_frame_response_size c) 0); [lia|reflexivity]. }
  set (d3 := lpush d2 c).
  assert (H3 : recv_buffer_len d3 = 3) by (cbn [d3 lpush recv_buffer_len]; lia).
  assert (Hl3 : List.length (recv_buffer d3) = 69%nat)
    by (cbn [d3 lpush recv_buffer]; unfold wr; rewrite length_insert; exact Hl2).
  assert (Hc3 : rd (recv_buffer d3) 2 = c).
  { cbn [d3 lpush recv_buffer]. rewrite H2. apply FramerFacts.rd_wr_eq; lia. }
  rewrite (legacy_receive_byte_stored d3 L);
    [|lia| |lia].
  2:{ unfold rejects. rewrite H3.
      change (3 <? 1) with false. change (3 <? 2) with false.
      change (3 <? 3) with false. change (3 <? 4) with true.
      change (3 - 1) with 2. cbv iota.
      rewrite Hc3, Hv. reflexivity. }
  set (d4 := lpush d3 L).
  destruct (receive_loop rest d4) as [d' fs]. cbn [app].
  split; [reflexivity|].
  split; [cbn [d4 lpush recv_buffer_len]; lia|].
  split.
  - unfold d4. rewrite lfilled_lpush by lia.
    unfold d3. rewrite lfilled_lpush by lia.
    unfold d2. rewrite lfilled_lpush by lia.
    unfold d1. rewrite lfilled_lpush by lia.
    rewrite Hf0. reflexivity.
  - split.
    + cbn [d4 lpush recv_buffer]. unfold wr. rewrite length_insert. exact Hl3.
    + cbn [d4 lpush recv_buffer]. rewrite H3. apply FramerFacts.rd_wr_eq; lia.
Qed.

Lemma lempty_reset d :
  List.length (recv_buffer d) = 69%nat -> lempty (appadmm_receive_buffer_reset d).
Proof. intros H. split; [reflexivity|]. rewrite length_reset. exact H. Qed.

(** From an empty buffer, a frame whose command has a response size and
    whose length byte is accepted for it is handed to the decoder whole,
    trailing byte included, and the buffer is empty again. *)
Lemma legacy_receive_loop_frame d c P cs rest :
  lempty d ->
  appadmm_is_response_frame_data_size_valid c (Z.of_nat (List.length P)) = SR_OK ->
  exists d',
    lempty d'
    /\ receive_loop (frame c P cs ++ rest) d =
       (let '(d2, fs) := receive_loop rest d' in (d2, frame c P cs :: fs)).
Proof.
  intros He Hv.
  destruct (valid_size_bounds _ _ Hv) as [_ HL].
  unfold frame, header. rewrite <- !app_assoc.
  destruct (legacy_receive_loop_header d c (Z.of_nat (List.length P))
              (P ++ [cs] ++ rest) He Hv)
    as (d4 & Hloop & H4 & Hf4 & Hl4 & H3).
  rewrite Hloop.
  destruct (legacy_receive_loop_payload P d4 ([cs] ++ rest))
    as (d5 & Hloop5 & H5 & Hf5 & Hl5 & H35); try lia.
  rewrite Hloop5. cbn [app receive_loop].
  rewrite legacy_receive_byte_complete by lia.
  exists (appadmm_receive_buffer_reset (lpush d5 cs)).
  split.
  - apply lempty_reset. cbn [lpush recv_buffer]. unfold wr.
    rewrite length_insert. lia.
  - destruct (receive_loop rest _) as [d2 fs]. cbn [app].
    rewrite Hf5, Hf4. rewrite <- !app_assoc. reflexivity.
Qed.

(** Bytes other than the start byte leave an empty buffer as it is. *)
Lemma legacy_receive_loop_no_start G : forall d,
  recv_buffer_len d = 0 -> no_start G -> receive_loop G d = (d, []).
Proof.
  induction G as [|b G IH]; intros d H0 Hn; [reflexivity|].
  cbn [receive_loop].
  unfold no_start in Hn. cbn [forallb] in Hn.
  apply andb_true_iff in Hn. destruct Hn as [Hb HG].
  unfold receive_byte, rejects. rewrite H0. cbn [Z.ltb Z.compare].
  unfold APPADMM_FRAME_START_VALUE_BYTE.
  unfold TpAppa.SR_TP_APPA_START_BYTE in Hb. rewrite Hb.
  rewrite IH by assumption. reflexivity.
Qed.

Lemma receive_calls_concat chunks : forall devc,
  receive_calls devc chunks = receive_loop (concat chunks) devc.
Proof.
  induction chunks as [|c chunks IH]; intros devc; [reflexivity|].
  cbn [receive_calls concat appadmm_receive].
  rewrite legacy_loop_app.
  destruct (receive_loop c devc) as [d fs].
  rewrite IH. reflexivity.
Qed.

(** X10: Two frames with accepted headers, separated by bytes that contain no
    start byte and cut into reads at any places, are both handed to the
    decoder, in order and whole, and nothing else is; the buffer is
    empty afterwards. *)
Theorem legacy_resynchronizes (chunks : list (list Z)) (d : appadmm_context)
    (c1 : Z) (P1 : list Z) (cs1 : Z) (G : list Z)
    (c2 : Z) (P2 : list Z) (cs2 : Z) :
  lempty d ->
  appadmm_is_response_frame_data_size_valid c1 (Z.of_nat (List.length P1)) = SR_OK ->
  appadmm_is_response_frame_data_size_valid c2 (Z.of_nat (List.length P2)) = SR_OK ->
  no_start G ->
  concat chunks = frame c1 P1 cs1 ++ G ++ frame c2 P2 cs2 ->
  exists d',
    lempty d'
    /\ receive_calls d chunks = (d', [frame c1 P1 cs1; frame c2 P2 cs2]).
Proof.
  intros He Hv1 Hv2 HG Hcat.
  rewrite receive_calls_concat, Hcat.
  destruct (legacy_receive_loop_frame d c1 P1 cs1 (G ++ frame c2 P2 cs2) He Hv1)
    as (d1 & He1 & ->).
  rewrite legacy_loop_app.
  rewrite (legacy_receive_loop_no_start G d1 (proj1 He1) HG).
  destruct (legacy_receive_loop_frame d1 c2 P2 cs2 [] He1 Hv2) as (d2 & He2 & Hl2).
  rewrite app_nil_r in Hl2. rewrite Hl2. cbn [receive_loop app].
  exists d2. split; [exact He2|reflexivity].
Qed.

Lemma legacy_resynchronizes_witness :
  exists d',
    lempty d'
    /\ receive_calls context0
         [[0x55; 0x55; 0x01]; [0x0c; 1; 2; 3; 4; 5; 6; 7];
          [8; 9; 10; 11; 12; 0xaa; 0x00; 0x54; 0x55; 0x55];
          [0x03; 0x04; 1; 2; 3; 4; 0xbb]]
       = (d', [frame 0x01 [1; 2; 3; 4; 5; 6; 7; 8; 9; 10; 11; 12] 0xaa;
               frame 0x03 [1; 2; 3; 4] 0xbb]).
Proof.
  apply (legacy_resynchronizes _ context0 0x01 _ 0xaa [0x00; 0x54] 0x03 _ 0xbb).
  - split; reflexivity.
  - reflexivity.
  - reflexivity.
  - reflexivity.
  - reflexivity.
Defined.

(** X11: A header whose command byte has no response size, or whose length
    byte the catalog does not accept for the command, is thrown away
    without a frame being handed over.  The buffer is empty afterwards,
    except that after a command without a response size a length byte
    equal to the start byte is kept as the start of a new frame. *)
Theorem legacy_rejects_bad_header (d : appadmm_context) (c L : Z) :
  lempty d ->
  appadmm_is_response_frame_data_size_valid c L < SR_OK ->
  exists d',
    receive_loop [0x55; 0x55; c; L] d = (d', [])
    /\ List.length (recv_buffer d') = 69%nat
    /\ recv_buffer_len d' =
       if (appadmm_frame_response_size c <? 0) && (L =? 0x55) then 1 else 0.
Proof.
  intros [H0 Hlen] Hbad.
  assert (Hstep1 : receive_byte d 0x55 = (lpush d 0x55, [])).
  { apply legacy_receive_byte_stored; [lia| |lia].
    unfold rejects. rewrite H0. reflexivity. }
  set (d1 := lpush d 0x55) in *.
  assert (H1 : recv_buffer_len d1 = 1) by (cbn; lia).
  assert (Hl1 : List.length (recv_buffer d1) = 69%nat)
    by (cbn; unfold wr; rewrite length_insert; exact Hlen).
  assert (Hstep2 : receive_byte d1 0x55 = (lpush d1 0x55, [])).
  { apply legacy_receive_byte_stored; [lia| |lia].
    unfold rejects. rewrite H1. reflexivity. }
  set (d2 := lpush d1 0x55) in *.
  assert (H2 : recv_buffer_len d2 = 2) by (cbn [d2 lpush recv_buffer_len]; lia).
  assert (Hl2 : List.length (recv_buffer d2) = 69%nat)
    by (cbn [d2 lpush recv_buffer]; unfold wr; rewrite length_insert; exact Hl1).
  cbn [receive_loop]. rewrite Hstep1, Hstep2.
  destruct (Z.ltb_spec (appadmm_frame_response_size c) 0) as [Hneg|Hpos].
  - assert (Hstep3 : receive_byte d2 c = (appadmm_receive_buffer_reset d2, [])).
    { unfold receive_byte, rejects. rewrite H2.
      change (2 <? 1) with false. change (2 <? 2) with false.
      change (2 <? 3) with true. cbv iota.
      destruct (Z.ltb_spec (appadmm_frame_response_size c) 0); [|lia].
      reflexivity. }
    rewrite Hstep3.
    set (d3 := appadmm_receive_buffer_reset d2) in *.
    assert (He3 : lempty d3) by (apply lempty_reset; exact Hl2).
    destruct He3 as [H3 Hl3]. cbn [andb].
    destruct (Z.eqb_spec L 0x55) as [->|Hne].
    + rewrite (legacy_receive_byte_stored d3 0x55);
        [|lia|unfold rejects; rewrite H3; reflexivity|lia].
      exists (lpush d3 0x55). split; [reflexivity|].
      split; [cbn [lpush recv_buffer]; unfold wr; rewrite length_insert; exact Hl3|].
      cbn [lpush recv_buffer_len]. lia.
    + exists d3. split; [|split; assumption].
      unfold receive_byte, rejects. rewrite H3. cbn [Z.ltb Z.compare].
      unfold APPADMM_FRAME_START_VALUE_BYTE.
      destruct (Z.eqb_spec L 85); [contradiction|]. reflexivity.
  - cbn [andb].
    assert (Hstep3 : receive_byte d2 c = (lpush d2 c, [])).
    { apply legacy_receive_byte_stored; [lia| |lia].
      unfold rejects. rewrite H2.
      change (2 <? 1) with false. change (2 <? 2) with false.
      change (2 <? 3) with true. cbv iota.
      destruct (Z.ltb_spec (appadmm_frame_response_size c) 0); [lia|reflexivity]. }
    set (d3 := lpush d2 c) in *.
    assert (H3 : recv_buffer_len d3 = 3) by (cbn [d3 lpush recv_buffer_len]; lia).
    assert (Hl3 : List.length (recv_buffer d3) = 69%nat)
      by (cbn [d3 lpush recv_buffer]; unfold wr; rewrite length_insert; exact Hl2).
    assert (Hc3 : rd (recv_buffer d3) 2 = c).
    { cbn [d3 lpush recv_buffer]. rewrite H2. apply FramerFacts.rd_wr_eq; lia. }
    exists (appadmm_receive_buffer_reset d3).
    rewrite Hstep3.
    split; [|split; [rewrite length_reset; exact Hl3|reflexivity]].
    unfold receive_byte at 1. unfold rejects. rewrite H3.
    change (3 <? 1) with false. change (3 <? 2) with false.
    change (3 <? 3) with false. change (3 <? 4) with true.
    change (3 - 1) with 2. cbv iota. rewrite Hc3.
    destruct (Z.ltb_spec (appadmm_is_response_frame_data_size_valid c L) SR_OK);
      [|lia].
    reflexivity.
Qed.

Lemma legacy_rejects_bad_header_witness :
  exists d',
    receive_loop [0x55; 0x55; 0x80; 0x55] context0 = (d', [])
    /\ List.length (recv_buffer d') = 69%nat
    /\ recv_buffer_len d' = 1.
Proof.
  exact (legacy_rejects_bad_header context0 0x80 0x55
           (conj eq_refl eq_refl) eq_refl).
Defined.

End LegacyFacts.

(** ** The command layer of the driver *)

Module DriverFacts.
Import Sr AppaDmm Spec Framing Text Vectors.

(** *** Read Information *)

Lemma read_chars_spec (n : nat) : forall (k p : nat) (dst mem : list Z),
  (k + n <= List.length dst)%nat ->
  (p + n <= List.length mem)%nat ->
  read_chars n (Z.of_nat k) dst mem (Z.of_nat p) =
  (take k dst ++ take n (drop p mem) ++ drop (k + n) dst, Z.of_nat (p + n)).
Proof.
  induction n as [|n IH]; intros k p dst mem Hd Hm.
  - cbn [read_chars]. unfold rret. rewrite !Nat.add_0_r, take_0. cbn [app].
    rewrite take_drop. reflexivity.
  - cbn [read_chars]. unfold rbind, read_u8_inc.
    replace (Z.of_nat k + 1) with (Z.of_nat (S k)) by lia.
    replace (Z.of_nat p + 1) with (Z.of_nat (S p)) by lia.
    rewrite IH; [|unfold wr; rewrite length_insert; lia|lia].
    replace (S p + n)%nat with (p + S n)%nat by lia.
    f_equal. unfold wr, rd. rewrite !Nat2Z.id.
    destruct (lookup_lt_is_Some_2 mem p ltac:(lia)) as [v Hv].
    rewrite Hv. cbn [default].
    rewrite (drop_S mem v p Hv). rewrite firstn_cons.
    rewrite (take_S_r _ _ v) by (apply list_lookup_insert_eq; lia).
    rewrite take_insert_ge by lia.
    rewrite drop_insert_lt by lia.
    rewrite <- app_assoc. cbn [app].
    replace (S k + n)%nat with (k + S n)%nat by lia.
    reflexivity.
Qed.

Lemma read_chars_at (n p : nat) (dst mem : list Z) :
  List.length dst = n -> (p + n <= List.length mem)%nat ->
  read_chars n 0 dst mem (Z.of_nat p) = (take n (drop p mem), Z.of_nat (p + n)).
Proof.
  intros Hd Hm.
  pose proof (read_chars_spec n 0 p dst mem ltac:(lia) ltac:(lia)) as H.
  change (Z.of_nat 0) with 0 in H. rewrite H.
  rewrite take_0. cbn [app Nat.add].
  rewrite (drop_ge dst) by lia. rewrite app_nil_r. reflexivity.
Qed.

Lemma c_string_app s r :
  forallb (fun c => negb (c =? 0)) s = true ->
  c_string (s ++ r) = s ++ c_string r.
Proof.
  induction s as [|c s IH]; intros H; [reflexivity|].
  cbn [forallb] in H. apply andb_true_iff in H. destruct H as [Hc Hs].
  cbn [app c_string]. destruct (c =? 0); [discriminate Hc|].
  rewrite IH by exact Hs. reflexivity.
Qed.

Lemma c_string_spaces k r : c_string (replicate k 32 ++ r) = replicate k 32 ++ c_string r.
Proof. induction k as [|k IH]; [reflexivity|]. cbn. rewrite IH. reflexivity. Qed.

Lemma skip_space_spaces k r : skip_space (replicate k 32 ++ r) = skip_space r.
Proof. induction k as [|k IH]; [reflexivity|]. cbn. exact IH. Qed.

Lemma skip_space_head s :
  g_ascii_isspace (List.hd 1 s) = false -> skip_space s = s.
Proof. destruct s as [|c s]; [reflexivity|]. cbn [List.hd skip_space]. intros ->. reflexivity. Qed.

Lemma hd_rev (s : list Z) d : List.hd d (rev s) = List.last s d.
Proof.
  induction s as [|c s IH] using rev_ind; [reflexivity|].
  rewrite rev_app_distr. cbn [rev app List.hd]. rewrite last_last. reflexivity.
Qed.

Lemma rev_replicate {A} k (x : A) : rev (replicate k x) = replicate k x.
Proof.
  induction k as [|k IH]; [reflexivity|].
  cbn [replicate rev]. rewrite IH.
  clear IH. induction k as [|k IH]; [reflexivity|].
  cbn [replicate app]. rewrite IH. reflexivity.
Qed.

(** Stripping a trimmed string that was filled up with spaces gives the
    string back. *)
Lemma g_strstrip_padded s k :
  trimmed s = true -> g_strstrip (s ++ replicate k 32) = s.
Proof.
  unfold trimmed. intros H.
  apply andb_true_iff in H. destruct H as [H Hlast].
  apply andb_true_iff in H. destruct H as [_ Hhd].
  apply negb_true_iff in Hhd, Hlast.
  unfold g_strstrip.
  destruct s as [|c s].
  - cbn [app]. rewrite <- (app_nil_r (replicate k 32)).
    rewrite skip_space_spaces. reflexivity.
  - rewrite (skip_space_head ((c :: s) ++ replicate k 32)) by exact Hhd.
    rewrite rev_app_distr, rev_replicate, skip_space_spaces.
    rewrite skip_space_head by (rewrite hd_rev; exact Hlast).
    apply rev_involutive.
Qed.

(** Storing the terminating NUL in the last cell of a padded field. *)
Lemma pad_terminated (n : nat) (s : list Z) :
  (List.length s <= n)%nat ->
  wr (pad (S n) s) (Z.of_nat n) 0 = s ++ replicate (n - List.length s) 32 ++ [0].
Proof.
  intros H. unfold wr, pad. rewrite Nat2Z.id.
  rewrite insert_app_r_alt by lia. f_equal.
  replace (S n - List.length s)%nat with (S (n - List.length s)) by lia.
  rewrite replicate_S_end.
  rewrite insert_app_r_alt by (rewrite length_replicate; lia).
  rewrite length_replicate, Nat.sub_diag. reflexivity.
Qed.

Lemma field_string (n : nat) (s : list Z) :
  trimmed s = true -> (List.length s <= n)%nat ->
  g_strstrip (c_string (wr (pad (S n) s) (Z.of_nat n) 0)) = s.
Proof.
  intros Ht Hl. rewrite pad_terminated by exact Hl.
  assert (Hnz : forallb (fun c => negb (c =? 0)) s = true).
  { unfold trimmed in Ht. apply andb_true_iff in Ht. destruct Ht as [Ht _].
    apply andb_true_iff in Ht. destruct Ht as [Ht _]. exact Ht. }
  rewrite c_string_app by exact Hnz.
  rewrite c_string_spaces. cbn [c_string Z.eqb]. rewrite app_nil_r.
  apply g_strstrip_padded. exact Ht.
Qed.

Lemma u16le_read (v : Z) (mem : list Z) (p : Z) :
  0 <= v < 65536 ->
  rd mem p = v mod 256 -> rd mem (p + 1) = v / 256 ->
  read_u16le_inc mem p = (v, p + 2).
Proof.
  intros Hv H0 H1. unfold read_u16le_inc. rewrite H0, H1.
  rewrite CodecFacts.lor_low_high by (try apply Z.mod_pos_bound; lia).
  f_equal. change (2 ^ 8) with 256.
  rewrite (Z.div_mod v 256) at 3 by lia. lia.
Qed.

Lemma rd_app_r (a b : list Z) (i : Z) :
  Z.of_nat (List.length a) <= i ->
  rd (a ++ b) i = rd b (i - Z.of_nat (List.length a)).
Proof.
  intros H. unfold rd. rewrite lookup_app_r by lia.
  f_equal. f_equal. lia.
Qed.

Lemma length_pad n s : (List.length s <= n)%nat -> List.length (pad n s) = n.
Proof. intros H. unfold pad. rewrite length_app, length_replicate. lia. Qed.

(** The strings and numbers the decoder takes from the payload of a
    Read Information packet. *)
Lemma dec_read_information_aux (pkt : TpAppa.sr_tp_appa_packet)
    (out : Info.appadmm_response_data_read_information_s)
    (name serial : list Z) (id fw : Z) (rest : list Z) :
  trimmed name = true -> trimmed serial = true ->
  (List.length name <= 31)%nat -> (List.length serial <= 15)%nat ->
  0 <= id < 65536 -> 0 <= fw < 65536 ->
  TpAppa.command pkt = APPADMM_COMMAND_READ_INFORMATION ->
  TpAppa.length pkt = 52 ->
  TpAppa.data pkt = information name serial id fw ++ rest ->
  appadmm_dec_read_information pkt out =
  (SR_OK, {| Info.model_name := name; Info.serial_number := serial;
             Info.model_id := id; Info.firmware_version := fw |}).
Proof.
  intros Hn Hs Hln Hls Hid Hfw Hc Hl Hd.
  unfold appadmm_dec_read_information. rewrite Hc, Hl, Hd.
  change (negb (APPADMM_COMMAND_READ_INFORMATION =? APPADMM_COMMAND_READ_INFORMATION))
    with false.
  change (negb (appadmm_is_response_size_valid APPADMM_COMMAND_READ_INFORMATION 52 =? 0))
    with false.
  cbv iota. f_equal.
  set (mem := information name serial id fw ++ rest).
  assert (Hmem : mem = pad 32 name ++ (pad 16 serial ++ (u16le id ++ u16le fw ++ rest))).
  { unfold mem, information. rewrite <- !app_assoc. reflexivity. }
  assert (Hlen : (52 <= List.length mem)%nat).
  { rewrite Hmem. rewrite !length_app, !length_pad by lia. cbn. lia. }
  pose proof (read_chars_at 32 0 (replicate 32 0) mem
                (length_replicate _ _) ltac:(lia)) as Hname.
  change (Z.of_nat 0) with 0 in Hname. rewrite drop_0 in Hname.
  change (Z.of_nat (0 + 32)) with (Z.of_nat 32) in Hname.
  pose proof (read_chars_at 16 32 (replicate 16 0) mem
                (length_replicate _ _) ltac:(lia)) as Hserial.
  unfold rbind at 1. rewrite Hname.
  unfold rbind at 1. rewrite Hserial.
  assert (Htn : take 32 mem = pad 32 name).
  { rewrite Hmem. apply take_app_length'. symmetry. apply length_pad. lia. }
  assert (Hts : take 16 (drop 32 mem) = pad 16 serial).
  { rewrite Hmem. rewrite drop_app_length' by (symmetry; apply length_pad; lia).
    apply take_app_length'. symmetry. apply length_pad. lia. }
  rewrite Htn, Hts.
  change 31 with (Z.of_nat 31). change 15 with (Z.of_nat 15).
  rewrite !field_string by assumption.
  assert (Hrd : forall i, 48 <= i < 52 ->
            rd mem i = rd (u16le id ++ u16le fw) (i - 48)).
  { intros i Hi. rewrite Hmem.
    rewrite rd_app_r by (rewrite length_pad by lia; lia).
    rewrite rd_app_r by (rewrite !length_pad by lia; lia).
    rewrite !length_pad by lia.
    replace (i - Z.of_nat 32 - Z.of_nat 16) with (i - 48) by lia.
    rewrite app_assoc. unfold rd. rewrite lookup_app_l; [reflexivity|].
    cbn. lia. }
  change (Z.of_nat (32 + 16)) with 48.
  unfold rbind at 1.
  rewrite (u16le_read id mem 48 Hid)
    by (rewrite Hrd by lia; reflexivity).
  unfold rbind at 1.
  rewrite (u16le_read fw mem (48 + 2) Hfw)
    by (rewrite Hrd by lia; reflexivity).
  reflexivity.
Qed.

(** X15: The Read Information decoder accepts a packet exactly when its
    command is Read Information and its length is 52; it then returns
    the model name and the serial number without the spaces that fill
    their 32 and 16 byte fields, for names of at most 31 and serial
    numbers of at most 15 characters, and the model id and the firmware
    version as 16-bit little-endian numbers.  A rejected packet leaves
    the record untouched. *)
Theorem dec_read_information_fields (pkt : TpAppa.sr_tp_appa_packet)
    (out : Info.appadmm_response_data_read_information_s)
    (name serial : list Z) (id fw : Z) (rest : list Z) :
  trimmed name = true -> trimmed serial = true ->
  (List.length name <= 31)%nat -> (List.length serial <= 15)%nat ->
  0 <= id < 65536 -> 0 <= fw < 65536 ->
  TpAppa.data pkt = information name serial id fw ++ rest ->
  appadmm_dec_read_information pkt out =
  if (TpAppa.command pkt =? APPADMM_COMMAND_READ_INFORMATION)
     && (TpAppa.length pkt =? 52)
  then (SR_OK, {| Info.model_name := name; Info.serial_number := serial;
                  Info.model_id := id; Info.firmware_version := fw |})
  else (SR_ERR_DATA, out).
Proof.
  intros Hn Hs Hln Hls Hid Hfw Hd.
  destruct (Z.eqb_spec (TpAppa.command pkt) APPADMM_COMMAND_READ_INFORMATION)
    as [Hc|Hc]; cbn [andb].
  - destruct (Z.eqb_spec (TpAppa.length pkt) 52) as [Hl|Hl].
    + apply (dec_read_information_aux pkt out name serial id fw rest); assumption.
    + unfold appadmm_dec_read_information. rewrite Hc.
      change (negb (APPADMM_COMMAND_READ_INFORMATION =? APPADMM_COMMAND_READ_INFORMATION))
        with false. cbv iota.
      unfold appadmm_is_response_size_valid.
      change (appadmm_get_response_size APPADMM_COMMAND_READ_INFORMATION) with 52.
      change (52 <? SR_OK) with false.
      change (APPADMM_COMMAND_READ_INFORMATION =? APPADMM_COMMAND_READ_MEMORY)
        with false.
      cbn [andb].
      destruct (Z.eqb_spec 52 (TpAppa.length pkt)); [congruence|]. reflexivity.
  - unfold appadmm_dec_read_information.
    destruct (Z.eqb_spec (TpAppa.command pkt) APPADMM_COMMAND_READ_INFORMATION);
      [contradiction|]. reflexivity.
Qed.

Lemma dec_read_information_fields_witness :
  appadmm_dec_read_information
    {| TpAppa.command := 0; TpAppa.length := 52;
       TpAppa.data := information [65; 80; 80; 65; 32; 53; 48; 54; 66]
                        [49; 50; 51; 52] 6 123 ++ replicate 12 0 |}
    {| Info.model_name := []; Info.serial_number := [];
       Info.model_id := 0; Info.firmware_version := 0 |}
  = (SR_OK, {| Info.model_name := [65; 80; 80; 65; 32; 53; 48; 54; 66];
               Info.serial_number := [49; 50; 51; 52];
               Info.model_id := 6; Info.firmware_version := 123 |}).
Proof.
  apply (dec_read_information_fields
           {| TpAppa.command := 0; TpAppa.length := 52;
              TpAppa.data := information [65; 80; 80; 65; 32; 53; 48; 54; 66]
                               [49; 50; 51; 52] 6 123 ++ replicate 12 0 |}
           _ [65; 80; 80; 65; 32; 53; 48; 54; 66] [49; 50; 51; 52] 6 123
           (replicate 12 0)).
  - reflexivity.
  - reflexivity.
  - cbn. lia.
  - cbn. lia.
  - lia.
  - lia.
  - reflexivity.
Defined.

(** *** Vendor and model *)

Lemma g_strrstr_space_spec (s : list Z) :
  match g_strrstr_space s with
  | None => no_space s = true
  | Some i =>
    (i < List.length s)%nat
    /\ s = take i s ++ [32] ++ drop (S i) s
    /\ no_space (drop (S i) s) = true
  end.
Proof.
  induction s as [|c s IH]; [reflexivity|].
  cbn [g_strrstr_space].
  destruct (g_strrstr_space s) as [i|].
  - destruct IH as (Hi & Hs & Hn). cbn [List.length].
    split; [lia|]. split; [|exact Hn].
    rewrite firstn_cons. cbn [drop app]. f_equal. exact Hs.
  - destruct (Z.eqb_spec c 32) as [->|Hc].
    + cbn [List.length]. split; [lia|]. split; [|exact IH].
      rewrite take_0. reflexivity.
    + unfold no_space in *. cbn [forallb].
      destruct (Z.eqb_spec c 32); [contradiction|]. exact IH.
Qed.

Lemma printf_02d (n : Z) :
  0 <= n < 100 -> printf_0d 2 n = [48 + n / 10; 48 + n mod 10].
Proof.
  intros Hn.
  assert (Hall : forallb (fun k => bool_decide
                   (printf_0d 2 (Z.of_nat k)
                    = [48 + Z.of_nat k / 10; 48 + Z.of_nat k mod 10]))
                   (seq 0 100) = true) by (vm_compute; reflexivity).
  rewrite forallb_forall in Hall.
  specialize (Hall (Z.to_nat n) ltac:(apply in_seq; lia)).
  rewrite Z2Nat.id in Hall by lia.
  apply bool_decide_eq_true in Hall. exact Hall.
Qed.

(** The vendor and model derived from a model name: the model is the
    part after the last space and contains none; without a space the
    vendor is APPA and the model the whole name. *)
Lemma split_name (name : list Z) :
  let delim := match name with [] => None | _ => g_strrstr_space name end in
  let vm := match delim with
            | None => ([65; 80; 80; 65], name)
            | Some i =>
              (take (List.length name - List.length (drop (S i) name) - 1) name,
               drop (S i) name)
            end in
  no_space (snd vm) = true
  /\ (name = fst vm ++ [32] ++ snd vm
      \/ (no_space name = true /\ fst vm = [65; 80; 80; 65] /\ snd vm = name)).
Proof.
  cbv zeta.
  assert (Hd : match name with [] => None | _ => g_strrstr_space name end
               = g_strrstr_space name) by (destruct name; reflexivity).
  rewrite Hd. pose proof (g_strrstr_space_spec name) as H.
  destruct (g_strrstr_space name) as [i|].
  - destruct H as (Hi & Hs & Hn). cbn [fst snd].
    split; [exact Hn|]. left.
    rewrite length_drop.
    replace (List.length name - (List.length name - S i) - 1)%nat with i by lia.
    exact Hs.
  - cbn [fst snd]. split; [exact H|]. right. auto.
Qed.

(** X16: When the transport hands over a Read Information packet,
    [appadmm_read_information] returns [TRUE] and fills the device
    identity: the model is the part of the model name after its last
    space and the vendor the part before it, or APPA with the whole name
    as model when the name has no space; the serial number and the model
    id are those of the packet, and the version is the firmware number
    printed as hundreds, a dot and two digits. *)
Theorem read_information_identity (stack line : list Z)
    (t : TpAppa.sr_tp_appa_inst) (req resp : TpAppa.sr_tp_appa_packet)
    (reads : list TpAppa.serial_read)
    (response : Info.appadmm_response_data_read_information_s) (sdi : identity)
    (name serial : list Z) (id fw : Z) (rest : list Z)
    (line' : list Z) (t' : TpAppa.sr_tp_appa_inst) (p : TpAppa.sr_tp_appa_packet)
    (reads' : list TpAppa.serial_read) :
  trimmed name = true -> trimmed serial = true ->
  (List.length name <= 31)%nat -> (List.length serial <= 15)%nat ->
  0 <= id < 65536 -> 0 <= fw < 65536 ->
  TpAppa.sr_tp_appa_send_receive stack line t
    (snd (appadmm_enc_read_information req)) resp reads
  = (line', t', p, reads', TRUE) ->
  TpAppa.command p = APPADMM_COMMAND_READ_INFORMATION ->
  TpAppa.length p = 52 ->
  TpAppa.data p = information name serial id fw ++ rest ->
  exists sdi',
    appadmm_read_information stack line t req resp reads response sdi
    = (line', t', reads', sdi', TRUE)
    /\ no_space (model sdi') = true
    /\ (name = vendor sdi' ++ [32] ++ model sdi'
        \/ (no_space name = true
            /\ vendor sdi' = [65; 80; 80; 65] /\ model sdi' = name))
    /\ serial_num sdi' = serial
    /\ devc_model_id sdi' = id
    /\ version sdi'
       = printf_0d 1 (fw / 100) ++ [46; 48 + fw mod 100 / 10; 48 + fw mod 100 mod 10].
Proof.
  intros Hn Hs Hln Hls Hid Hfw Hsr Hc Hl Hd.
  unfold appadmm_read_information, appadmm_rere_read_information.
  cbn [appadmm_enc_read_information snd] in Hsr |- *.
  change (SR_OK <? SR_OK) with false. cbv iota.
  rewrite Hsr. change (TRUE <? TRUE) with false. cbv iota.
  rewrite (dec_read_information_aux p response name serial id fw rest)
    by assumption.
  change (SR_OK <? SR_OK) with false. cbv iota.
  change (TRUE <? SR_OK) with false. cbv iota.
  cbn [Info.model_name Info.serial_number Info.model_id Info.firmware_version].
  pose proof (split_name name) as Hsplit. cbv zeta in Hsplit.
  destruct (match
               match name with [] => None | _ :: _ => g_strrstr_space name end
             with
             | Some i =>
               (take (List.length name - List.length (drop (S i) name) - 1) name,
                drop (S i) name)
             | None => ([65; 80; 80; 65], name)
             end) as [v m] eqn:Hvm.
  cbn [fst snd] in Hsplit. destruct Hsplit as [Hm Hv].
  eexists. split; [reflexivity|].
  cbn [vendor model version serial_num devc_model_id].
  split; [exact Hm|]. split; [exact Hv|]. split; [reflexivity|].
  split; [reflexivity|].
  rewrite Z.quot_div_nonneg by lia.
  rewrite Z.rem_mod_nonneg by lia.
  rewrite printf_02d by (apply Z.mod_pos_bound; lia).
  reflexivity.
Qed.

Lemma read_information_identity_witness :
  exists line' t' reads' sdi',
    appadmm_read_information [0; 0; 0; 0] [] TpAppa.inst0 TpAppa.packet0
      TpAppa.packet0 [TpAppa.ReadBytes info_frame] blank_information
      blank_identity
    = (line', t', reads', sdi', TRUE)
    /\ no_space (model sdi') = true
    /\ (info_name = vendor sdi' ++ [32] ++ model sdi'
        \/ (no_space info_name = true
            /\ vendor sdi' = [65; 80; 80; 65] /\ model sdi' = info_name))
    /\ serial_num sdi' = info_serial
    /\ devc_model_id sdi' = APPADMM_MODEL_ID_506B
    /\ version sdi'
       = printf_0d 1 (123 / 100) ++ [46; 48 + 123 mod 100 / 10; 48 + 123 mod 100 mod 10].
Proof.
  do 3 eexists.
  eapply (read_information_identity [0; 0; 0; 0] [] TpAppa.inst0 TpAppa.packet0
            TpAppa.packet0 [TpAppa.ReadBytes info_frame] blank_information
            blank_identity info_name info_serial APPADMM_MODEL_ID_506B 123
            (replicate 12 0)).
  - reflexivity.
  - reflexivity.
  - cbn. lia.
  - cbn. lia.
  - unfold APPADMM_MODEL_ID_506B. lia.
  - lia.
  - vm_compute. reflexivity.
  - reflexivity.
  - reflexivity.
  - reflexivity.
Defined.

(** X17: When no response arrives, [appadmm_rere_read_information] hands the
    transport's [FALSE] on, which is [SR_OK] for
    [appadmm_read_information]: it returns 0 after ten polls and takes
    the identity from its response record, which nothing has filled. *)
Theorem read_information_timeout (stack line : list Z)
    (t : TpAppa.sr_tp_appa_inst) (req resp : TpAppa.sr_tp_appa_packet)
    (reads : list TpAppa.serial_read)
    (response : Info.appadmm_response_data_read_information_s) (sdi : identity) :
  List.length stack = 4%nat ->
  List.length (TpAppa.data req) = 64%nat ->
  TpAppa.sr_tp_appa_buffer_reset t = t ->
  Forall quiet (take 10 reads) ->
  exists line' sdi',
    appadmm_read_information stack line t req resp reads response sdi
    = (line', t, drop 10 reads, sdi', SR_OK)
    /\ devc_model_id sdi' = Info.model_id response
    /\ serial_num sdi' = Info.serial_number response.
Proof.
  intros Hs Hd Ht Hq.
  unfold appadmm_read_information, appadmm_rere_read_information.
  cbn [appadmm_enc_read_information].
  change (SR_OK <? SR_OK) with false. cbv iota.
  unfold TpAppa.sr_tp_appa_send_receive.
  destruct (TransportFacts.send_wire_image_aux stack line
              {| TpAppa.command := APPADMM_COMMAND_READ_INFORMATION;
                 TpAppa.length :=
                   u8 (appadmm_get_request_size APPADMM_COMMAND_READ_INFORMATION);
                 TpAppa.data := TpAppa.data req |} Hs Hd)
    as [sent Hsent]; [change (0 <= 0 <= 64); lia|].
  rewrite Hsent. change (SR_OK <? SR_OK) with false. cbv iota.
  change (Z.to_nat (TpAppa.SR_TP_APPA_RECEIVE_TIMEOUT ÷ 50)) with 10%nat.
  rewrite (TransportFacts.receive_cycles_quiet 10 t resp reads SR_OK Ht Hq).
  change (FALSE <? TRUE) with true. cbv iota.
  change (FALSE <? SR_OK) with false. cbv iota.
  destruct (match
               match Info.model_name response with
               | [] => None
               | _ :: _ => g_strrstr_space (Info.model_name response)
               end
             with
             | Some i => _
             | None => _
             end) as [v m].
  do 2 eexists. split; [reflexivity|]. split; reflexivity.
Qed.

Lemma read_information_timeout_witness :
  exists line' sdi',
    appadmm_read_information [0; 0; 0; 0] [] TpAppa.inst0 TpAppa.packet0
      TpAppa.packet0 [] blank_information blank_identity
    = (line', TpAppa.inst0, drop 10 [], sdi', SR_OK)
    /\ devc_model_id sdi' = Info.model_id blank_information
    /\ serial_num sdi' = Info.serial_number blank_information.
Proof.
  apply (read_information_timeout [0; 0; 0; 0] [] TpAppa.inst0 TpAppa.packet0
           TpAppa.packet0 [] blank_information blank_identity).
  - reflexivity.
  - reflexivity.
  - reflexivity.
  - rewrite take_nil. constructor.
Defined.

(** *** Read Memory: the whole exchange *)

Lemma wr4_take (d : list Z) (a b c e : Z) :
  (4 <= List.length d)%nat ->
  take 4 (wr (wr (wr (wr d 0 a) (0 + 1) b) (0 + 1 + 1) c) (0 + 1 + 2) e) = [a; b; c; e].
Proof.
  intros H. destruct d as [|x0 [|x1 [|x2 [|x3 d]]]]; cbn [List.length] in H; try lia.
  reflexivity.
Qed.

Lemma land_0xff (v : Z) : 0 <= v -> Z.land v 0xff = v mod 256.
Proof. intros H. change 0xff with (Z.ones 8). rewrite Z.land_ones by lia. reflexivity. Qed.

(** The packet [appadmm_enc_read_memory] builds: command 0x1a, length 4,
    and the device number, the address low byte first, and the data
    length as payload. *)
Lemma enc_read_memory_packet (rq : Rq.appadmm_request_data_read_memory_s)
    (req : TpAppa.sr_tp_appa_packet) :
  (4 <= List.length (TpAppa.data req))%nat ->
  is_u8 (Rq.device_number rq) -> 0 <= Rq.memory_address rq < 65536 ->
  is_u8 (Rq.data_length rq) ->
  exists pkt,
    appadmm_enc_read_memory rq req = (SR_OK, pkt)
    /\ TpAppa.command pkt = APPADMM_COMMAND_READ_MEMORY
    /\ TpAppa.length pkt = 4
    /\ List.length (TpAppa.data pkt) = List.length (TpAppa.data req)
    /\ TpAppa.payload pkt =
       [Rq.device_number rq; Rq.memory_address rq mod 256;
        Rq.memory_address rq / 256; Rq.data_length rq].
Proof.
  intros Hd Hdev Haddr Hlen.
  unfold appadmm_enc_read_memory, write_u8_inc, write_u16le_inc.
  eexists. split; [reflexivity|].
  cbn [TpAppa.command TpAppa.length TpAppa.data].
  split; [reflexivity|]. split; [reflexivity|]. split.
  - unfold wr. rewrite !length_insert. reflexivity.
  - unfold TpAppa.payload. cbn [TpAppa.length TpAppa.data].
    change (Z.to_nat (u8 (appadmm_get_request_size APPADMM_COMMAND_READ_MEMORY)))
      with 4%nat.
    rewrite wr4_take by exact Hd.
    rewrite !u8_id by assumption.
    rewrite land_0xff by lia.
    rewrite land_0xff by (apply Z.shiftr_nonneg; lia).
    rewrite Z.shiftr_div_pow2 by lia. change (2 ^ 8) with 256.
    rewrite (Z.mod_small (Rq.memory_address rq / 256))
      by (split; [apply Z.div_pos; lia|apply Z.div_lt_upper_bound; lia]).
    reflexivity.
Qed.

(** X18: One Read Memory exchange whose response arrives with the first
    read: the request goes out as start bytes, command 0x1a, whatever
    [header[3]] held, the device number, the address low byte first, the
    data length, and the checksum of these; the response is accepted when
    its trailing byte passes the transport's test, and then the response
    record holds the payload and its length; otherwise the record is
    untouched and the exchange fails with [SR_ERR_IO].  The copy of the
    payload into the record stays inside both arrays.  This is under the
    sender's model: its store to [header[4]], outside the 4-byte array,
    is taken to change nothing else. *)
Theorem rere_read_memory_exchange (stack line : list Z)
    (t : TpAppa.sr_tp_appa_inst) (req resp : TpAppa.sr_tp_appa_packet)
    (reads' : list TpAppa.serial_read)
    (rq : Rq.appadmm_request_data_read_memory_s)
    (rs : Rs.appadmm_response_data_read_memory_s)
    (P : list Z) (cs : Z) (rest : list Z) :
  List.length stack = 4%nat ->
  List.length (TpAppa.data req) = 64%nat ->
  List.length (TpAppa.data resp) = 64%nat ->
  List.length (Rs.data rs) = 64%nat ->
  TpAppa.buffer_size t = 0 -> List.length (TpAppa.buffer t) = 69%nat ->
  (List.length P <= 64)%nat ->
  is_u8 (Rq.device_number rq) -> 0 <= Rq.memory_address rq < 65536 ->
  is_u8 (Rq.data_length rq) ->
  let sent := [0x55; 0x55; APPADMM_COMMAND_READ_MEMORY; rd stack 3;
               Rq.device_number rq; Rq.memory_address rq mod 256;
               Rq.memory_address rq / 256; Rq.data_length rq] in
  exists t',
    appadmm_rere_read_memory stack line t req resp
      (TpAppa.ReadBytes (frame APPADMM_COMMAND_READ_MEMORY P cs ++ rest) :: reads')
      rq rs
    = if checksum (take (List.length P)
                     (header APPADMM_COMMAND_READ_MEMORY P ++ P)) =? cs
      then Ok (line ++ sent ++ [checksum sent], t', reads',
               {| Rs.data := P ++ drop (List.length P) (Rs.data rs);
                  Rs.data_length := Z.of_nat (List.length P) |}, TRUE)
      else Ok (line ++ sent ++ [checksum sent], t', reads', rs, SR_ERR_IO).
Proof.
  intros Hs Hreq Hresp Hrs Hsz Hbuf HP Hdev Haddr Hlen sent.
  destruct (enc_read_memory_packet rq req ltac:(lia) Hdev Haddr Hlen)
    as (pkt & Henc & Hcmd & Hl & Hdl & Hpay).
  unfold appadmm_rere_read_memory. rewrite Henc.
  change (SR_OK <? SR_OK) with false. cbv iota.
  unfold TpAppa.sr_tp_appa_send_receive.
  rewrite (TransportFacts.send_bytes stack line pkt Hs) by (rewrite ?Hdl, ?Hl; lia).
  rewrite Hcmd, Hpay.
  change ([85; 85; APPADMM_COMMAND_READ_MEMORY; rd stack 3] ++
          [Rq.device_number rq; Rq.memory_address rq mod 256;
           Rq.memory_address rq / 256; Rq.data_length rq]) with sent.
  change (SR_OK <? SR_OK) with false. cbv iota.
  change (Z.to_nat (TpAppa.SR_TP_APPA_RECEIVE_TIMEOUT ÷ 50)) with 10%nat.
  cbn [TpAppa.receive_cycles hd tl].
  destruct (FramerFacts.receive_frame APPADMM_COMMAND_READ_MEMORY P cs rest t resp
              Hsz Hbuf ltac:(unfold APPADMM_COMMAND_READ_MEMORY; lia) HP)
    as (t' & _ & _ & Hr).
  rewrite Hr.
  rewrite FramerFacts.sr_tp_appa_checksum_spec
    by (rewrite ?Nat2Z.id, ?length_app; lia).
  rewrite Nat2Z.id.
  exists t'.
  destruct (checksum (take (List.length P)
                        (header APPADMM_COMMAND_READ_MEMORY P ++ P)) =? cs).
  - change ((TRUE <? SR_OK) || (TRUE =? TRUE)) with true. cbv iota.
    change (TRUE <? TRUE) with false. cbv iota.
    unfold appadmm_dec_read_memory.
    cbn [TpAppa.command TpAppa.length TpAppa.data].
    change (negb (APPADMM_COMMAND_READ_MEMORY =? APPADMM_COMMAND_READ_MEMORY))
      with false. cbv iota.
    unfold appadmm_is_response_size_valid.
    change (appadmm_get_response_size APPADMM_COMMAND_READ_MEMORY) with 64.
    change (64 <? SR_OK) with false.
    change (APPADMM_COMMAND_READ_MEMORY =? APPADMM_COMMAND_READ_MEMORY) with true.
    cbn [andb].
    destruct (Z.leb_spec (Z.of_nat (List.length P)) 64); [|lia].
    change (negb (SR_OK =? 0)) with false. cbv iota.
    unfold sizeof_read_memory_data.
    destruct (Z.gtb_spec (Z.of_nat (List.length P)) 64); [lia|].
    rewrite Nat2Z.id.
    pose proof (MemoryFacts.copy_loop_spec (List.length P) 0
                  (P ++ drop (List.length P) (TpAppa.data resp)) (Rs.data rs)) as Hcopy.
    change (Z.of_nat 0) with 0 in Hcopy.
    rewrite Hcopy by (rewrite ?length_app, ?length_drop; lia).
    rewrite take_0, drop_0. cbn [app Nat.add].
    rewrite take_app_length.
    change (SR_OK <? SR_OK) with false. cbv iota.
    reflexivity.
  - change ((SR_ERR_IO <? SR_OK) || (SR_ERR_IO =? TRUE)) with true. cbv iota.
    change (SR_ERR_IO <? TRUE) with true. cbv iota.
    reflexivity.
Qed.

Lemma rere_read_memory_exchange_witness :
  exists t',
    appadmm_rere_read_memory [0; 0; 0; 7] [] TpAppa.inst0 TpAppa.packet0
      TpAppa.packet0
      [TpAppa.ReadBytes (frame APPADMM_COMMAND_READ_MEMORY [1; 2; 3; 4; 5] 202)]
      {| Rq.device_number := 1; Rq.memory_address := 0x505; Rq.data_length := 64 |}
      blank_memory
    = Ok ([0x55; 0x55; 0x1a; 7; 1; 0x05; 0x05; 64; 22], t', [],
          {| Rs.data := [1; 2; 3; 4; 5] ++ replicate 59 0; Rs.data_length := 5 |},
          TRUE).
Proof.
  exact (rere_read_memory_exchange [0; 0; 0; 7] [] TpAppa.inst0 TpAppa.packet0
           TpAppa.packet0 []
           {| Rq.device_number := 1; Rq.memory_address := 0x505;
              Rq.data_length := 64 |}
           blank_memory [1; 2; 3; 4; 5] 202 []
           eq_refl eq_refl eq_refl eq_refl eq_refl eq_refl
           ltac:(cbn; lia) ltac:(unfold is_u8; cbn; lia) ltac:(cbn; lia)
           ltac:(unfold is_u8; cbn; lia)).
Defined.

(** *** Processing a Read Display response *)

Lemma cap_channel_sub (model_id : Z) :
  (appadmm_cap_channel model_id APPADMM_CHANNEL_SUB =? 0)
  = one_of models_without_sub model_id.
Proof.
  unfold appadmm_cap_channel.
  destruct (one_of models_with_sub model_id) eqn:Hw.
  - unfold one_of, models_with_sub in Hw. cbn [existsb] in Hw.
    repeat (apply orb_true_iff in Hw; destruct Hw as [Hw|Hw];
            [apply Z.eqb_eq in Hw; subst model_id; reflexivity|]).
    discriminate Hw.
  - destruct (one_of models_without_sub model_id); reflexivity.
Qed.

Lemma transform_retr (s : session) (sample_id : Z) (ch : appadmm_channel_e)
    (arg_data : appadmm_response_data_read_display_s) :
  ch <> APPADMM_CHANNEL_INVALID ->
  0 <= analog_init_retr s -> 0 <= session_send_retr s ->
  0 <= retr (appadmm_transform_display_data (analog_init_retr s) (analog_init s)
               (session_send_retr s) sample_id ch arg_data).
Proof.
  intros Hch Hi Hs. unfold appadmm_transform_display_data.
  destruct (Z.ltb_spec (analog_init_retr s) SR_OK) as [H|_];
    [unfold SR_OK in H; lia|].
  assert (Hf : forall v a m,
             0 <= retr (finish (analog_init_retr s) (session_send_retr s) v a m)).
  { intros v a m. unfold finish. destruct (Analog.mq a); cbn [retr]; assumption. }
  destruct ch; [contradiction|apply Hf| |];
    destruct (negb _ || _); apply Hf.
Qed.

(** X19: With all three channels enabled and a session that accepts every
    packet, a Read Display response is interpreted for the sample id and
    for the primary display, and for the secondary display unless the
    model is one of those listed as having none: a model id the table
    does not know, the invalid id included, gets its secondary display
    interpreted. *)
Theorem process_read_display_channels (env : appadmm_channel_e -> session)
    (sample_id model_id : Z)
    (arg_data : appadmm_response_data_read_display_s) :
  (forall ch, 0 <= analog_init_retr (env ch) /\ 0 <= session_send_retr (env ch)) ->
  let r := appadmm_process_read_display env sample_id model_id true true true
             arg_data in
  0 <= fst r
  /\ map fst (snd r)
     = [APPADMM_CHANNEL_SAMPLE_ID; APPADMM_CHANNEL_MAIN]
       ++ (if one_of models_without_sub model_id then []
           else [APPADMM_CHANNEL_SUB]).
Proof.
  intros Henv r. subst r.
  unfold appadmm_process_read_display, process_channel.
  rewrite cap_channel_sub.
  cbn [appadmm_cap_channel].
  change (negb (TRUE =? 0)) with true. cbv iota.
  pose proof (transform_retr (env APPADMM_CHANNEL_SAMPLE_ID) sample_id
                APPADMM_CHANNEL_SAMPLE_ID arg_data ltac:(discriminate)
                (proj1 (Henv _)) (proj2 (Henv _))) as H1.
  pose proof (transform_retr (env APPADMM_CHANNEL_MAIN) sample_id
                APPADMM_CHANNEL_MAIN arg_data ltac:(discriminate)
                (proj1 (Henv _)) (proj2 (Henv _))) as H2.
  pose proof (transform_retr (env APPADMM_CHANNEL_SUB) sample_id
                APPADMM_CHANNEL_SUB arg_data ltac:(discriminate)
                (proj1 (Henv _)) (proj2 (Henv _))) as H3.
  destruct (Z.ltb_spec (retr (appadmm_transform_display_data
              (analog_init_retr (env APPADMM_CHANNEL_SAMPLE_ID))
              (analog_init (env APPADMM_CHANNEL_SAMPLE_ID))
              (session_send_retr (env APPADMM_CHANNEL_SAMPLE_ID))
              sample_id APPADMM_CHANNEL_SAMPLE_ID arg_data)) SR_OK) as [H|_];
    [unfold SR_OK in H; lia|].
  destruct (Z.ltb_spec (retr (appadmm_transform_display_data
              (analog_init_retr (env APPADMM_CHANNEL_MAIN))
              (analog_init (env APPADMM_CHANNEL_MAIN))
              (session_send_retr (env APPADMM_CHANNEL_MAIN))
              sample_id APPADMM_CHANNEL_MAIN arg_data)) SR_OK) as [H|_];
    [unfold SR_OK in H; lia|].
  destruct (one_of models_without_sub model_id); cbn [negb].
  - destruct (Z.ltb_spec (retr (appadmm_transform_display_data
                (analog_init_retr (env APPADMM_CHANNEL_MAIN))
                (analog_init (env APPADMM_CHANNEL_MAIN))
                (session_send_retr (env APPADMM_CHANNEL_MAIN))
                sample_id APPADMM_CHANNEL_MAIN arg_data)) SR_OK) as [H|_];
      [unfold SR_OK in H; lia|].
    cbn [fst snd]. split; [exact H2|reflexivity].
  - destruct (Z.ltb_spec (retr (appadmm_transform_display_data
                (analog_init_retr (env APPADMM_CHANNEL_SUB))
                (analog_init (env APPADMM_CHANNEL_SUB))
                (session_send_retr (env APPADMM_CHANNEL_SUB))
                sample_id APPADMM_CHANNEL_SUB arg_data)) SR_OK) as [H|_];
      [unfold SR_OK in H; lia|].
    cbn [fst snd]. split; [exact H3|reflexivity].
Qed.

Lemma process_read_display_channels_witness :
  let r := appadmm_process_read_display ok_session 0 APPADMM_MODEL_ID_INVALID
             true true true kohm_display in
  0 <= fst r
  /\ map fst (snd r)
     = [APPADMM_CHANNEL_SAMPLE_ID; APPADMM_CHANNEL_MAIN; APPADMM_CHANNEL_SUB].
Proof.
  apply (process_read_display_channels ok_session 0 APPADMM_MODEL_ID_INVALID
           kohm_display).
  intros ch. split; apply Z.leb_le; reflexivity.
Defined.

(** X20: [appadmm_process_read_display] returns the result of the last
    interpreter call it made, or [SR_OK] when it made none, and every
    call before the last one succeeded: the first failure ends the
    processing, the remaining channels are not interpreted. *)
Theorem process_read_display_stops (env : appadmm_channel_e -> session)
    (sample_id model_id : Z) (en_sample_id en_main en_sub : bool)
    (arg_data : appadmm_response_data_read_display_s) :
  let r := appadmm_process_read_display env sample_id model_id
             en_sample_id en_main en_sub arg_data in
  (snd r = [] -> fst r = SR_OK)
  /\ (forall c t, last (snd r) = Some (c, t) -> fst r = retr t)
  /\ (forall i c t, snd r !! i = Some (c, t) ->
        (S i < List.length (snd r))%nat -> 0 <= retr t).
Proof.
  cbv zeta.
  unfold appadmm_process_read_display, process_channel.
  rewrite cap_channel_sub.
  cbn [appadmm_cap_channel].
  change (negb (TRUE =? 0)) with true. cbv iota.
  set (t1 := appadmm_transform_display_data _ _ _ _ APPADMM_CHANNEL_SAMPLE_ID _).
  set (t2 := appadmm_transform_display_data _ _ _ _ APPADMM_CHANNEL_MAIN _).
  set (t3 := appadmm_transform_display_data _ _ _ _ APPADMM_CHANNEL_SUB _).
  destruct en_sample_id, en_main, en_sub, (one_of models_without_sub model_id);
    cbn [negb app];
    repeat match goal with
           | |- context [?a <? SR_OK] => destruct (Z.ltb_spec a SR_OK)
           end;
    cbn [fst snd];
    (split; [first [discriminate | reflexivity | intros _; assumption]|]);
    (split;
     [ intros c t Hlast; cbn in Hlast;
       first [discriminate Hlast | injection Hlast as _ <-; reflexivity]
     | intros i c t Hi Hlen;
       destruct i as [|[|[|i]]]; cbn in Hi, Hlen; try lia; try discriminate Hi;
       injection Hi as _ <-; unfold SR_OK in *; lia ]).
Qed.

(** *** What the interpreter sends *)

Lemma mq_set_flag f a : Analog.mq (set_flag f a) = Analog.mq a.
Proof. reflexivity. Qed.

Lemma switch_dot_analog d l : analog (switch_dot d l) = analog l.
Proof.
  unfold switch_dot.
  repeat (match goal with |- context [if ?c then _ else _] => destruct c end);
    reflexivity.
Qed.

Lemma switch_data_content_mq dc ch l :
  Analog.mq (analog (switch_data_content dc ch l)) = Analog.mq (analog l).
Proof.
  unfold switch_data_content.
  repeat (match goal with |- context [if ?c then _ else _] => destruct c end);
    try (destruct ch); reflexivity.
Qed.

(** The unit switch gives a quantity to every unit of the table and
    leaves the quantity alone for any other code. *)
Lemma switch_unit_mq u l :
  if (1 <=? u) && (u <=? 0x1b)
  then is_Some (Analog.mq (analog (switch_unit u l)))
  else Analog.mq (analog (switch_unit u l)) = Analog.mq (analog l).
Proof.
  unfold switch_unit.
  repeat (match goal with
          | |- context [if u =? ?c then _ else _] =>
            destruct (Z.eqb_spec u c) as [->|?]; [cbn; eexists; reflexivity|]
          end).
  destruct (Z.leb_spec 1 u); [|reflexivity].
  destruct (Z.leb_spec u 0x1b); [|reflexivity].
  exfalso.
  unfold APPADMM_UNIT_V, APPADMM_UNIT_MV, APPADMM_UNIT_A, APPADMM_UNIT_MA,
    APPADMM_UNIT_DB, APPADMM_UNIT_DBM, APPADMM_UNIT_MF, APPADMM_UNIT_UF,
    APPADMM_UNIT_NF, APPADMM_UNIT_GOHM, APPADMM_UNIT_MOHM, APPADMM_UNIT_KOHM,
    APPADMM_UNIT_OHM, APPADMM_UNIT_PERCENT, APPADMM_UNIT_MHZ, APPADMM_UNIT_KHZ,
    APPADMM_UNIT_HZ, APPADMM_UNIT_DEGC, APPADMM_UNIT_DEGF, APPADMM_UNIT_SEC,
    APPADMM_UNIT_MS, APPADMM_UNIT_US, APPADMM_UNIT_NS, APPADMM_UNIT_UA,
    APPADMM_UNIT_MIN, APPADMM_UNIT_KW, APPADMM_UNIT_PF in *.
  lia.
Qed.

(** The function-code switch sets the quantity for the continuity test
    only. *)
Lemma switch_function_code_mq fc l :
  Analog.mq (analog (switch_function_code fc l))
  = if fc =? APPADMM_FUNCTIONCODE_CONTINUITY then Some SR_MQ_CONTINUITY
    else Analog.mq (analog l).
Proof.
  unfold switch_function_code.
  destruct (Z.eqb_spec fc APPADMM_FUNCTIONCODE_CONTINUITY) as [->|Hne].
  - reflexivity.
  - repeat (match goal with |- context [if ?c then _ else _] => destruct c end);
      reflexivity.
Qed.

Lemma numeric_locals_mq ch arg_data dd init :
  Analog.mq init = None ->
  is_Some (Analog.mq (analog (numeric_locals ch arg_data dd init)))
  <-> (1 <= unit dd <= 0x1b
       \/ function_code arg_data = APPADMM_FUNCTIONCODE_CONTINUITY).
Proof.
  intros Hinit. unfold numeric_locals.
  set (l0 := {| unit_factor := 1; digits := 0; analog := init |}).
  set (l1 := switch_dot (dot dd) l0).
  set (l2 := switch_data_content (data_content dd) ch l1).
  set (l3 := if auto_range arg_data =? APPADMM_AUTO_RANGE
             then on_analog (set_flag SR_MQFLAG_AUTORANGE) l2 else l2).
  set (l4 := switch_unit (unit dd) l3).
  cbn [on_analog analog set_digits Analog.mq].
  rewrite switch_function_code_mq.
  assert (H3 : Analog.mq (analog l3) = None).
  { subst l3. destruct (_ =? _); cbn [on_analog analog]; rewrite ?mq_set_flag;
      subst l2; rewrite switch_data_content_mq; subst l1;
      rewrite switch_dot_analog; exact Hinit. }
  pose proof (switch_unit_mq (unit dd) l3) as Hu. fold l4 in Hu.
  destruct (Z.eqb_spec (function_code arg_data) APPADMM_FUNCTIONCODE_CONTINUITY)
    as [Hc|Hc].
  - split; [intros _; right; exact Hc|intros _; eexists; reflexivity].
  - destruct (Z.leb_spec 1 (unit dd)); cbn [andb] in Hu.
    + destruct (Z.leb_spec (unit dd) 0x1b).
      * split; [intros _; left; lia|intros _; exact Hu].
      * rewrite Hu, H3. split; [intros [? [=]]|intros [?|?]; [lia|contradiction]].
    + rewrite Hu, H3. split; [intros [? [=]]|intros [?|?]; [lia|contradiction]].
Qed.

(** X21: A display reading reaches the session exactly when it is a number
    or a dash sentinel and either carries a unit of the unit table or
    was taken in the continuity function; a word code is only logged,
    and a number without a unit is dropped.  What is not sent leaves the
    return value of the descriptor set-up. *)
Theorem display_reading_sent
    (init_retr : Z) (init : Analog.sr_datafeed_analog) (send_retr sample_id : Z)
    (arg_channel : appadmm_channel_e)
    (arg_data : appadmm_response_data_read_display_s) :
  0 <= init_retr ->
  arg_channel = APPADMM_CHANNEL_MAIN \/ arg_channel = APPADMM_CHANNEL_SUB ->
  Analog.mq init = None ->
  let dd := display_of arg_channel arg_data in
  let t := appadmm_transform_display_data init_retr init send_retr sample_id
             arg_channel arg_data in
  (sent t = true <->
     (reading dd < APPADMM_WORDCODE_TABLE_MIN
      \/ appadmm_is_wordcode_dash (reading dd) = true)
     /\ (1 <= unit dd <= 0x1b
         \/ function_code arg_data = APPADMM_FUNCTIONCODE_CONTINUITY))
  /\ retr t = (if sent t then send_retr else init_retr).
Proof.
  intros Hi Hch Hinit dd t.
  assert (Hdd : dd = match arg_channel with
                     | APPADMM_CHANNEL_MAIN => main_display_data arg_data
                     | _ => sub_display_data arg_data
                     end).
  { subst dd. destruct Hch as [-> | ->]; reflexivity. }
  assert (Ht : t =
    if negb (appadmm_is_wordcode (reading dd))
       || appadmm_is_wordcode_dash (reading dd)
    then
      let l := numeric_locals arg_channel arg_data dd init in
      finish init_retr send_retr
        (if (overload dd =? APPADMM_OVERLOAD)
            || appadmm_is_wordcode_dash (reading dd)
         then FInf
         else FNum (Ieee.to_float
                      (Ieee.to_double
                         (Ieee.to_float (inject_Z (reading dd))
                          * unit_factor l)%Q)))
        (analog l) None
    else finish init_retr send_retr FInf init (wordcode_message dd)).
  { subst t. unfold appadmm_transform_display_data.
    destruct (Z.ltb_spec init_retr SR_OK) as [H|_]; [unfold SR_OK in H; lia|].
    rewrite Hdd. destruct Hch as [-> | ->]; reflexivity. }
  rewrite Ht. clear Ht.
  assert (Hwc : negb (appadmm_is_wordcode (reading dd)) = true
                <-> reading dd < APPADMM_WORDCODE_TABLE_MIN).
  { unfold appadmm_is_wordcode.
    destruct (Z.geb_spec (reading dd) APPADMM_WORDCODE_TABLE_MIN); cbn [negb];
      split; intros; (lia || congruence). }
  pose proof (numeric_locals_mq arg_channel arg_data dd init Hinit) as Hmq.
  destruct (negb (appadmm_is_wordcode (reading dd))
            || appadmm_is_wordcode_dash (reading dd)) eqn:Hnum.
  - cbv zeta. unfold finish.
    destruct (Analog.mq (analog (numeric_locals arg_channel arg_data dd init)))
      as [m|] eqn:Hm; cbn [sent retr].
    + split; [|reflexivity]. split; [|reflexivity]. intros _. split.
      * apply orb_true_iff in Hnum. destruct Hnum as [H|H]; [left; apply Hwc; exact H|right; exact H].
      * apply Hmq. eexists; reflexivity.
    + split; [|reflexivity]. split; [discriminate|].
      intros [_ Hu]. apply Hmq in Hu. destruct Hu as [? [=]].
  - unfold finish. rewrite Hinit. cbn [sent retr].
    split; [|reflexivity]. split; [discriminate|].
    apply orb_false_iff in Hnum. destruct Hnum as [Hn Hdash].
    intros [[H|H] _].
    + apply Hwc in H. congruence.
    + congruence.
Qed.

Lemma display_reading_sent_witness :
  let dd := display_of APPADMM_CHANNEL_MAIN kohm_display in
  let t := appadmm_transform_display_data SR_OK analog0 SR_OK 0
             APPADMM_CHANNEL_MAIN kohm_display in
  (sent t = true <->
     (reading dd < APPADMM_WORDCODE_TABLE_MIN
      \/ appadmm_is_wordcode_dash (reading dd) = true)
     /\ (1 <= unit dd <= 0x1b
         \/ function_code kohm_display = APPADMM_FUNCTIONCODE_CONTINUITY))
  /\ retr t = (if sent t then SR_OK else SR_OK).
Proof.
  apply (display_reading_sent SR_OK analog0 SR_OK 0 APPADMM_CHANNEL_MAIN
           kohm_display).
  - apply Z.leb_le. reflexivity.
  - left. reflexivity.
  - reflexivity.
Defined.

(** *** Flags *)

Lemma elem_set_flag (f g : sr_mqflag) (a : Analog.sr_datafeed_analog) :
  f ∈ Analog.mqflags (set_flag g a) <-> f = g \/ f ∈ Analog.mqflags a.
Proof.
  unfold set_flag. cbn [Analog.mqflags].
  destruct (bool_decide (g ∈ Analog.mqflags a)) eqn:Hg.
  - apply bool_decide_eq_true in Hg. split; [auto|].
    intros [->|H]; assumption.
  - rewrite elem_of_app, list_elem_of_singleton. tauto.
Qed.

Lemma switch_unit_flags u l :
  Analog.mqflags (analog (switch_unit u l)) = Analog.mqflags (analog l).
Proof.
  unfold switch_unit.
  repeat (match goal with |- context [if ?c then _ else _] => destruct c end);
    reflexivity.
Qed.

(** Every comparison of two given numbers, evaluated. *)
Ltac eval_eqb :=
  repeat match goal with
         | |- context [?a =? ?b] =>
           let v := eval vm_compute in (a =? b) in
           progress change (a =? b) with v
         end.

Ltac flag_cases f :=
  repeat match goal with H : _ <> _ |- _ => clear H end;
  cbv - [elem_of Analog.mqflags analog on_analog set_flag set_mq iff];
  cbn [on_analog analog]; rewrite ?elem_set_flag; destruct f;
  intuition (congruence || discriminate).

Lemma switch_data_content_flags dc ch l f :
  ch = APPADMM_CHANNEL_MAIN \/ ch = APPADMM_CHANNEL_SUB ->
  f ∈ Analog.mqflags (analog (switch_data_content dc ch l))
  <-> f ∈ Analog.mqflags (analog l) \/ Flags.content_flag ch dc f = true.
Proof.
  intros [-> | ->];
    unfold switch_data_content, sub_only, Flags.content_flag;
    cbn [one_of existsb];
    repeat (match goal with
            | |- context [dc =? ?c] => destruct (Z.eqb_spec dc c) as [->|?]
            end; [flag_cases f|]);
    flag_cases f.
Qed.

(** Whether the unit switch leaves volt, ampere or watt. *)
Lemma switch_unit_electrical u l :
  is_electrical (analog (switch_unit u l)) = Flags.electrical u.
Proof.
  unfold switch_unit, Flags.electrical. cbn [one_of existsb].
  repeat (match goal with
          | |- context [u =? ?c] => destruct (Z.eqb_spec u c) as [->|?]
          end; [eval_eqb; reflexivity|]).
  reflexivity.
Qed.

Lemma switch_function_code_flags fc l f :
  f ∈ Analog.mqflags (analog (switch_function_code fc l))
  <-> f ∈ Analog.mqflags (analog l)
      \/ Flags.function_flag (is_electrical (analog l)) fc f = true.
Proof.
  unfold switch_function_code, Flags.function_flag,
    function_codes_ac, function_codes_dc, function_codes_ac_dc.
  cbn [one_of existsb].
  destruct (is_electrical (analog l));
    repeat (match goal with
            | |- context [fc =? ?c] => destruct (Z.eqb_spec fc c) as [->|?]
            end; [flag_cases f|]);
    flag_cases f.
Qed.

(** X22: The flags of a reading, exactly.  For a number or a dash
    sentinel on the primary or secondary display, starting from a
    descriptor without flags, a flag is set if and only if the table
    [Flags.expected] gives it: MAX, MIN and AVG by the data content,
    with the peak-hold contents counting as MAX and MIN; HOLD for the
    hold and peak-hold contents, and REFERENCE for the relative ones, on
    the secondary display only; RELATIVE for the relative contents on
    the primary display only; AUTORANGE by the range bit; AC and RMS for
    the function codes of the switch's AC and AC+DC groups, DC also for
    the AC+DC group, when the display unit is a voltage, a current or
    kW; DC for the function codes of the DC group (the three FLEX
    current codes among them) and the diode test; DIODE for the diode
    test.  A word code leaves the descriptor without flags. *)
Theorem display_flags_exact
    (init_retr : Z) (init : Analog.sr_datafeed_analog) (send_retr sample_id : Z)
    (arg_channel : appadmm_channel_e)
    (arg_data : appadmm_response_data_read_display_s) :
  0 <= init_retr ->
  arg_channel = APPADMM_CHANNEL_MAIN \/ arg_channel = APPADMM_CHANNEL_SUB ->
  Analog.mqflags init = [] ->
  let dd := display_of arg_channel arg_data in
  let fl := Analog.mqflags
              (out (appadmm_transform_display_data init_retr init send_retr
                      sample_id arg_channel arg_data)) in
  if negb (appadmm_is_wordcode (reading dd))
     || appadmm_is_wordcode_dash (reading dd)
  then forall f : sr_mqflag,
         f ∈ fl <-> Flags.expected arg_channel arg_data dd f = true
  else fl = [].
Proof.
  intros Hi Hch Hinit dd fl.
  assert (Hout : forall r s v a m, out (finish r s v a m) = a).
  { intros r s v a m. unfold finish. destruct (Analog.mq a); reflexivity. }
  assert (Hfl : fl = Analog.mqflags
            (if negb (appadmm_is_wordcode (reading dd))
                || appadmm_is_wordcode_dash (reading dd)
             then analog (numeric_locals arg_channel arg_data dd init)
             else init)).
  { subst fl. unfold appadmm_transform_display_data.
    destruct (Z.ltb_spec init_retr SR_OK) as [H|_]; [unfold SR_OK in H; lia|].
    destruct Hch as [-> | ->]; cbv zeta; unfold display_of in dd; fold dd;
      destruct (negb _ || _); rewrite Hout; reflexivity. }
  rewrite Hfl. clear Hfl fl.
  destruct (negb _ || _); [|exact Hinit].
  intros f. unfold numeric_locals.
  set (l0 := {| unit_factor := 1; digits := 0; analog := init |}).
  set (l1 := switch_dot (dot dd) l0).
  set (l2 := switch_data_content (data_content dd) arg_channel l1).
  set (l3 := if auto_range arg_data =? APPADMM_AUTO_RANGE
             then on_analog (set_flag SR_MQFLAG_AUTORANGE) l2 else l2).
  set (l4 := switch_unit (unit dd) l3).
  cbn [on_analog analog set_digits Analog.mqflags].
  rewrite switch_function_code_flags.
  unfold l4 at 1 2. rewrite switch_unit_flags, switch_unit_electrical.
  assert (H3 : f ∈ Analog.mqflags (analog l3)
               <-> f ∈ Analog.mqflags (analog l2)
                   \/ bool_decide (f = SR_MQFLAG_AUTORANGE)
                      && (auto_range arg_data =? APPADMM_AUTO_RANGE) = true).
  { subst l3. destruct (auto_range arg_data =? APPADMM_AUTO_RANGE).
    - cbn [on_analog analog]. rewrite elem_set_flag, andb_true_r,
        bool_decide_eq_true. tauto.
    - rewrite andb_false_r. intuition discriminate. }
  rewrite H3. unfold l2 at 1.
  rewrite (switch_data_content_flags _ _ _ _ Hch).
  unfold l1. rewrite switch_dot_analog. cbn [analog l0]. rewrite Hinit.
  unfold Flags.expected. rewrite !orb_true_iff.
  pose proof (elem_of_nil f) as Hnil. tauto.
Qed.

Lemma display_flags_exact_witness :
  let fl := Analog.mqflags
              (out (appadmm_transform_display_data SR_OK analog0 SR_OK 0
                      APPADMM_CHANNEL_SUB hold_display)) in
  fl = [SR_MQFLAG_HOLD; SR_MQFLAG_AUTORANGE; SR_MQFLAG_AC; SR_MQFLAG_RMS]
  /\ forall f : sr_mqflag,
       f ∈ fl
       <-> Flags.expected APPADMM_CHANNEL_SUB hold_display
             (display_of APPADMM_CHANNEL_SUB hold_display) f = true.
Proof.
  split; [reflexivity|].
  exact (display_flags_exact SR_OK analog0 SR_OK 0 APPADMM_CHANNEL_SUB
           hold_display ltac:(apply Z.leb_le; reflexivity)
           (or_intror eq_refl) eq_refl).
Defined.

(** *** From the payload bytes to the value *)

Lemma dec_read_display_layout (pkt : TpAppa.sr_tp_appa_packet) out :
  bytes (TpAppa.data pkt) ->
  TpAppa.command pkt = APPADMM_COMMAND_READ_DISPLAY -> TpAppa.length pkt = 12 ->
  appadmm_dec_read_display pkt out
  = (SR_OK, layout_read_display (rd (TpAppa.data pkt))).
Proof.
  intros Hm Hc Hl. unfold appadmm_dec_read_display. rewrite Hc, Hl.
  change (negb (APPADMM_COMMAND_READ_DISPLAY =? APPADMM_COMMAND_READ_DISPLAY))
    with false.
  change (negb (appadmm_is_response_size_valid APPADMM_COMMAND_READ_DISPLAY 12 =? 0))
    with false.
  cbv iota. f_equal.
  unfold rbind, rret, read_u8_inc.
  rewrite !CodecFacts.read_display_data_spec by assumption. cbn [fst].
  unfold layout_read_display.
  rewrite !CodecFacts.land_0x7f.
  rewrite !(CodecFacts.shiftr_bits _ 7 1)
    by (try apply CodecFacts.rd_bytes; auto; lia).
  reflexivity.
Qed.

Lemma not_dash_below_table (r : Z) :
  r < APPADMM_WORDCODE_TABLE_MIN ->
  appadmm_is_wordcode r = false /\ appadmm_is_wordcode_dash r = false.
Proof.
  unfold appadmm_is_wordcode, appadmm_is_wordcode_dash,
    APPADMM_WORDCODE_TABLE_MIN, APPADMM_WORDCODE_DASH, APPADMM_WORDCODE_DASH1,
    APPADMM_WORDCODE_DASH2.
  intros H. split.
  - destruct (Z.geb_spec r 7340032); [lia|reflexivity].
  - destruct (Z.eqb_spec r 7340052); [lia|].
    destruct (Z.eqb_spec r 7340053); [lia|].
    destruct (Z.eqb_spec r 7340055); [lia|]. reflexivity.
Qed.

(** X23: Decoding a Read Display packet and interpreting its primary display
    in one go: for a number (bytes 2-4, below the word codes) with a dot
    position of at most 4 in the low bits of byte 5, the value is
    infinity when bit 7 of byte 6 is set.  Otherwise it is the [float]
    of the [double] product of the number and the interpreter's factor,
    which is the factor of the unit in the high bits of byte 5 divided
    by the power of ten of the dot up to a relative error of 3 * 2^-53;
    the value differs from the number times the exact factor by at most
    the fraction 2^-22 of it. *)
Theorem display_packet_value (pkt : TpAppa.sr_tp_appa_packet)
    (out0 : appadmm_response_data_read_display_s)
    (init_retr : Z) (init : Analog.sr_datafeed_analog) (send_retr sample_id : Z) :
  bytes (TpAppa.data pkt) ->
  TpAppa.command pkt = APPADMM_COMMAND_READ_DISPLAY -> TpAppa.length pkt = 12 ->
  0 <= init_retr ->
  let b := rd (TpAppa.data pkt) in
  let r := i24le (b 2) (b 3) (b 4) in
  r < APPADMM_WORDCODE_TABLE_MIN ->
  bits (b 5) 0 3 <= 4 ->
  let t := appadmm_transform_display_data init_retr init send_retr sample_id
             APPADMM_CHANNEL_MAIN (snd (appadmm_dec_read_display pkt out0)) in
  let scale := Qmult (unit_scale (bits (b 5) 3 5)) (dot_scale (bits (b 5) 0 3)) in
  if bits (b 6) 7 1 =? 1 then val t = FInf
  else exists factor q : Q,
         val t = FNum q
         /\ Ieee.within (3 # 9007199254740992) factor scale
         /\ q = Ieee.to_float
                  (Ieee.to_double (Ieee.to_float (inject_Z r) * factor))
         /\ Ieee.within (1 # 4194304) q (inject_Z r * scale).
Proof.
  intros Hm Hc Hl Hi b r Hr Hdot t scale. subst t.
  rewrite dec_read_display_layout by assumption. cbn [snd].
  set (arg_data := layout_read_display (rd (TpAppa.data pkt))).
  set (dd := main_display_data arg_data).
  assert (Hrd : reading dd = r) by reflexivity.
  assert (Hd : dot dd = bits (b 5) 0 3) by reflexivity.
  assert (Ho : overload dd = bits (b 6) 7 1) by reflexivity.
  destruct (not_dash_below_table r Hr) as [Hw Hnd].
  assert (Hdot0 : 0 <= dot dd <= 4).
  { rewrite Hd. split; [|exact Hdot]. unfold bits. apply Z.mod_pos_bound. lia. }
  pose proof (DisplayFacts.numeric_locals_spec APPADMM_CHANNEL_MAIN arg_data dd
                init Hdot0) as Hl5.
  cbv zeta in Hl5. destruct Hl5 as (HF & _).
  change (Ieee.within (3 # 9007199254740992)
            (unit_factor (numeric_locals APPADMM_CHANNEL_MAIN arg_data dd init))
            scale) in HF.
  unfold appadmm_transform_display_data.
  destruct (Z.ltb_spec init_retr SR_OK) as [Hlt|_]; [unfold SR_OK in Hlt; lia|].
  fold dd. rewrite Hrd, Hw, Hnd. cbn [negb orb]. rewrite orb_false_r.
  assert (Hval : forall v a m, val (finish init_retr send_retr v a m) = v).
  { intros v a m. unfold finish. destruct (Analog.mq a); reflexivity. }
  rewrite Hval, Ho. unfold APPADMM_OVERLOAD.
  destruct (bits (b 6) 7 1 =? 1); [reflexivity|].
  exists (unit_factor (numeric_locals APPADMM_CHANNEL_MAIN arg_data dd init)).
  eexists. split; [reflexivity|]. split; [exact HF|]. split; [reflexivity|].
  apply DisplayFacts.emitted_value_within. exact HF.
Qed.

Lemma display_packet_value_witness :
  val (appadmm_transform_display_data SR_OK analog0 SR_OK 0
         APPADMM_CHANNEL_MAIN
         (snd (appadmm_dec_read_display sample_display_packet blank_display)))
  = FNum (-8589935 # 8589934592)
  /\ exists factor q : Q,
      val (appadmm_transform_display_data SR_OK analog0 SR_OK 0
             APPADMM_CHANNEL_MAIN
             (snd (appadmm_dec_read_display sample_display_packet blank_display)))
      = FNum q
      /\ Ieee.within (3 # 9007199254740992) factor
           (unit_scale APPADMM_UNIT_V * dot_scale 3%Z)
      /\ q = Ieee.to_float
               (Ieee.to_double (Ieee.to_float (inject_Z (-1)) * factor))
      /\ Ieee.within (1 # 4194304) q
           (inject_Z (-1) * (unit_scale APPADMM_UNIT_V * dot_scale 3%Z)).
Proof.
  split; [vm_compute; reflexivity|].
  exact (display_packet_value sample_display_packet blank_display SR_OK analog0
           SR_OK 0 eq_refl eq_refl eq_refl ltac:(apply Z.leb_le; reflexivity)
           eq_refl ltac:(apply Z.leb_le; reflexivity)).
Defined.

End DriverFacts.

(** ** Storage: layout information, page requests and stored readings *)

Module PagingFacts.
Import Sr AppaDmm Spec Vectors.

(** From a data length of at most 255 the clamping loop ends within 39
    subtractions of 5, without wrapping around. *)
Lemma clamp_loop_ends (fuel : nat) : forall v,
  0 <= v <= 255 -> v - 64 <= 5 * Z.of_nat fuel ->
  exists v', clamp_loop fuel v 5 = Some v'.
Proof.
  induction fuel as [|fuel IH]; intros v Hv Hf; cbn [clamp_loop];
    unfold TpAppa.SR_TP_APPA_MAX_DATA_SIZE.
  - destruct (Z.gtb_spec v 64); [lia|]. eexists; reflexivity.
  - destruct (Z.gtb_spec v 64); [|eexists; reflexivity].
    rewrite u8_id by (unfold is_u8; lia).
    apply IH; lia.
Qed.

Lemma dec_storage_info_layout (rs : Rs.appadmm_response_data_read_memory_s)
    (infos0 : storage_infos) :
  Rs.data_length rs = 6 ->
  exists m_rate m_amount l_rate l_amount,
    appadmm_dec_storage_info rs infos0 =
    (SR_OK,
     {| storage_mem := {| rate := m_rate; amount := m_amount; entry_size := 5;
                          entry_count := 500; mem_offset := 0x500;
                          mem_count := 2 |};
        storage_log := {| rate := l_rate; amount := l_amount; entry_size := 5;
                          entry_count := 10000; mem_offset := 0x1000;
                          mem_count := 4 |} |}).
Proof.
  intros H. unfold appadmm_dec_storage_info. rewrite H.
  change (negb (6 =? 6)) with false. cbv iota.
  do 4 eexists. reflexivity.
Qed.

(** X24: A page request for a storage whose layout the storage information
    decoder has set, MEM or LOG: for every start entry from 0 up to the
    number of entries, that number included, and any number of entries
    asked for, the encoder succeeds; the device number is the start
    entry divided by the entries per device, the address is the offset
    plus five times the position within the device and fits 16 bits, and
    the data length is 64.  For the start entry equal to the number of
    entries the device number is the number of devices, one past the
    last device. *)
Theorem enc_read_storage_pages (fuel : nat)
    (rm0 : Rq.appadmm_request_data_read_memory_s)
    (rs : Rs.appadmm_response_data_read_memory_s) (infos0 : storage_infos)
    (log : bool) (arg_start_entry arg_entry_count : Z) :
  Rs.data_length rs = 6 ->
  let infos := snd (appadmm_dec_storage_info rs infos0) in
  let si := if log then storage_log infos else storage_mem infos in
  0 <= arg_start_entry <= mem_count si * entry_count si ->
  (39 <= fuel)%nat ->
  appadmm_enc_read_storage fuel rm0 si arg_start_entry arg_entry_count =
  Some (SR_OK,
        {| Rq.device_number := arg_start_entry / entry_count si;
           Rq.memory_address :=
             mem_offset si + arg_start_entry mod entry_count si * 5;
           Rq.data_length := 64 |})
  /\ mem_offset si + arg_start_entry mod entry_count si * 5 < 65536
  /\ arg_start_entry / entry_count si <= mem_count si.
Proof.
  intros Hlen.
  destruct (dec_storage_info_layout rs infos0 Hlen)
    as (mr & ma & lr & la & Hdec).
  cbv zeta. rewrite Hdec. cbn [snd].
  set (si := if log then _ else _).
  intros Hstart Hfuel.
  assert (Hsi : exists ec off mc r a,
             si = {| rate := r; amount := a; entry_size := 5; entry_count := ec;
                     mem_offset := off; mem_count := mc |}
             /\ ((ec = 500 /\ off = 0x500 /\ mc = 2)
                 \/ (ec = 10000 /\ off = 0x1000 /\ mc = 4))).
  { subst si. destruct log; cbn [storage_log storage_mem];
      do 5 eexists; split; try reflexivity; auto. }
  destruct Hsi as (ec & off & mc & r & a & Hsi & Hcase).
  rewrite Hsi in *. clear Hsi si Hdec.
  cbn [entry_count mem_offset mem_count entry_size] in *.
  assert (Hec : 0 < ec) by (destruct Hcase as [(-> & _)|(-> & _)]; lia).
  pose proof (Z.mod_pos_bound arg_start_entry ec Hec) as Hpos.
  assert (Hq : 0 <= arg_start_entry / ec <= mc).
  { split; [apply Z.div_pos; lia|].
    apply Z.div_le_upper_bound; [lia|]. rewrite Z.mul_comm. lia. }
  assert (Haddr : 0 <= off + arg_start_entry mod ec * 5 < 65536)
    by (destruct Hcase as [(-> & -> & _)|(-> & -> & _)]; lia).
  split; [|split; lia].
  unfold appadmm_enc_read_storage.
  cbn [entry_count mem_offset mem_count entry_size].
  destruct (Z.gtb_spec arg_start_entry (mc * ec)); [lia|].
  destruct (Z.eqb_spec ec 0); [lia|].
  change (5 =? 0) with false. cbv iota.
  change (TpAppa.SR_TP_APPA_MAX_DATA_SIZE ÷ 5) with 12.
  rewrite Z.rem_mod_nonneg by lia.
  rewrite Z.quot_div_nonneg by lia.
  set (n1 := if arg_entry_count >? 12 then 12 else arg_entry_count).
  set (n2 := if arg_start_entry mod ec + n1 >? ec
             then ec - arg_start_entry mod ec else n1).
  rewrite (u8_id (arg_start_entry / ec))
    by (unfold is_u8; destruct Hcase as [(_ & _ & ->)|(_ & _ & ->)]; lia).
  unfold u16. rewrite Z.mod_small by lia.
  destruct (clamp_loop_ends fuel (u8 (n2 * 5))) as [v' Hv'].
  - pose proof (u8_range (n2 * 5)) as Hr. unfold is_u8 in Hr. lia.
  - pose proof (u8_range (n2 * 5)) as Hr. unfold is_u8 in Hr. lia.
  - rewrite Hv'.
    destruct (Z.gtb_spec (arg_start_entry / ec) mc); [lia|]. reflexivity.
Qed.

Lemma enc_read_storage_pages_witness :
  appadmm_enc_read_storage 39 blank_request
    (storage_log (snd (appadmm_dec_storage_info
                         {| Rs.data := replicate 64 0; Rs.data_length := 6 |}
                         {| storage_mem := mem_storage_info;
                            storage_log := mem_storage_info |})))
    40000 (-1)
  = Some (SR_OK,
          {| Rq.device_number := 4; Rq.memory_address := 0x1000;
             Rq.data_length := 64 |})
  /\ 0x1000 + 40000 mod 10000 * 5 < 65536
  /\ 40000 / 10000 <= 4.
Proof.
  exact (enc_read_storage_pages 39 blank_request
           {| Rs.data := replicate 64 0; Rs.data_length := 6 |}
           {| storage_mem := mem_storage_info; storage_log := mem_storage_info |}
           true 40000 (-1) eq_refl
           ltac:(split; apply Z.leb_le; reflexivity) ltac:(lia)).
Defined.

(** *** Stored readings *)

Lemma in_bounds_iff (a : list Z) (i : Z) :
  in_bounds a i = true <-> 0 <= i < Z.of_nat (List.length a).
Proof.
  unfold in_bounds. rewrite andb_true_iff, Z.leb_le, Z.ltb_lt. reflexivity.
Qed.

(** The loop started at entry [k] with [n] entries to go: it faults
    nowhere when the five bytes of every entry lie inside the data and
    the entries inside the caller's array, and stores the display layout
    of each entry found at five times its index. *)
Lemma storage_loop_spec (n : nat) : forall (k : nat) (src : list Z)
    (dst : list appadmm_display_data_s),
  bytes src ->
  (5 * (k + n) <= List.length src)%nat ->
  (k + n <= List.length dst)%nat ->
  storage_loop n (Z.of_nat k) src (5 * Z.of_nat k) dst =
  Ok (take k dst
      ++ map (fun i => layout_display (rd src) (5 * Z.of_nat i)) (seq k n)
      ++ drop (k + n) dst).
Proof.
  induction n as [|n IH]; intros k src dst Hb Hs Hd.
  - cbn [storage_loop seq map app]. rewrite Nat.add_0_r, take_drop. reflexivity.
  - cbn [storage_loop]. unfold load_display_data, store_display_data.
    assert (H1 : in_bounds src (5 * Z.of_nat k) = true)
      by (apply in_bounds_iff; lia).
    assert (H2 : in_bounds src (5 * Z.of_nat k + 4) = true)
      by (apply in_bounds_iff; lia).
    rewrite H1, H2. cbn [andb].
    destruct (Z.leb_spec 0 (Z.of_nat k)); [|lia].
    destruct (Z.ltb_spec (Z.of_nat k) (Z.of_nat (List.length dst))); [|lia].
    cbn [andb].
    rewrite CodecFacts.read_display_data_spec by exact Hb. cbn [fst].
    replace (Z.of_nat k + 1) with (Z.of_nat (S k)) by lia.
    replace (5 * Z.of_nat k + 5) with (5 * Z.of_nat (S k)) by lia.
    rewrite IH; [|exact Hb|lia|rewrite length_insert; lia].
    f_equal. rewrite Nat2Z.id.
    cbn [seq map].
    rewrite (take_S_r _ _ (layout_display (rd src) (5 * Z.of_nat k)))
      by (apply list_lookup_insert_eq; lia).
    rewrite take_insert_ge by lia.
    rewrite drop_insert_lt by lia.
    rewrite <- app_assoc. cbn [app].
    replace (S k + n)%nat with (k + S n)%nat by lia.
    reflexivity.
Qed.

(** With 64 bytes of data, an entry from index 12 on does not fit: the
    loop faults when it has to go beyond entry 12. *)
Lemma storage_loop_fault (n : nat) : forall (k : nat) (src : list Z)
    (dst : list appadmm_display_data_s),
  List.length src = 64%nat ->
  (k <= 12)%nat -> (13 <= k + n)%nat ->
  storage_loop n (Z.of_nat k) src (5 * Z.of_nat k) dst = Fault.
Proof.
  induction n as [|n IH]; intros k src dst Hs Hk Hn; [lia|].
  cbn [storage_loop]. unfold load_display_data.
  destruct (Nat.eq_dec k 12%nat) as [->|Hne].
  - assert (H2 : in_bounds src (5 * Z.of_nat 12 + 4) = false).
    { apply not_true_is_false. rewrite in_bounds_iff. lia. }
    rewrite H2, andb_false_r. reflexivity.
  - destruct (in_bounds src (5 * Z.of_nat k) && in_bounds src (5 * Z.of_nat k + 4));
      [|reflexivity].
    destruct (store_display_data dst (Z.of_nat k) _) as [dst'|]; [|reflexivity].
    replace (Z.of_nat k + 1) with (Z.of_nat (S k)) by lia.
    replace (5 * Z.of_nat k + 5) with (5 * Z.of_nat (S k)) by lia.
    apply IH; [exact Hs|lia|lia].
Qed.

(** X25: Decoding stored readings from a Read Memory response of up to 64
    bytes: with the entry size 5 that the storage information decoder
    sets, every array access stays in bounds (given room for the entries
    in the caller's array), the first [data_length / 5] entries become
    the display layout of the five bytes at five times their index, and
    the rest of the array is untouched.  With a smaller entry size and
    64 bytes of data the number of entries exceeds 12 while each entry
    still takes five bytes, and the decoder reads or writes out of
    bounds. *)
Theorem dec_read_storage_entries
    (rs : Rs.appadmm_response_data_read_memory_s)
    (si : appadmm_storage_info_s) (dd : list appadmm_display_data_s) :
  bytes (Rs.data rs) -> List.length (Rs.data rs) = 64%nat ->
  0 <= Rs.data_length rs <= 64 ->
  (entry_size si = 5 ->
     (Z.to_nat (Rs.data_length rs / 5) <= List.length dd)%nat ->
     appadmm_dec_read_storage rs si dd =
     Ok (SR_OK,
         map (fun i => layout_display (rd (Rs.data rs)) (5 * Z.of_nat i))
           (seq 0 (Z.to_nat (Rs.data_length rs / 5)))
         ++ drop (Z.to_nat (Rs.data_length rs / 5)) dd))
  /\ (0 <= entry_size si < 5 -> Rs.data_length rs = 64 ->
      appadmm_dec_read_storage rs si dd = Fault).
Proof.
  intros Hb Hlen Hdl. split.
  - intros Hes Hroom. unfold appadmm_dec_read_storage. rewrite Hes.
    change (5 =? 0) with false. cbv iota.
    rewrite Z.quot_div_nonneg by lia.
    assert (Hn : Rs.data_length rs / 5 < 13)
      by (apply Z.div_lt_upper_bound; lia).
    assert (Hn0 : 0 <= Rs.data_length rs / 5) by (apply Z.div_pos; lia).
    pose proof (storage_loop_spec (Z.to_nat (Rs.data_length rs / 5)) 0
                  (Rs.data rs) dd Hb ltac:(lia) ltac:(lia)) as Hloop.
    change (Z.of_nat 0) with 0 in Hloop. change (5 * 0) with 0 in Hloop.
    rewrite Hloop. rewrite take_0. reflexivity.
  - intros Hes H64. unfold appadmm_dec_read_storage.
    destruct (Z.eqb_spec (entry_size si) 0) as [|Hnz]; [reflexivity|].
    rewrite H64. rewrite Z.quot_div_nonneg by lia.
    assert (Hn : 13 <= 64 / entry_size si).
    { apply Z.div_le_lower_bound; lia. }
    pose proof (storage_loop_fault (Z.to_nat (64 / entry_size si)) 0
                  (Rs.data rs) dd Hlen ltac:(lia) ltac:(lia)) as Hloop.
    change (Z.of_nat 0) with 0 in Hloop. change (5 * 0) with 0 in Hloop.
    rewrite Hloop. reflexivity.
Qed.

Lemma dec_read_storage_entries_witness :
  appadmm_dec_read_storage
    {| Rs.data := [0x10; 0x27; 0x00; 0x0a; 0x00] ++ replicate 59 0;
       Rs.data_length := 5 |}
    mem_storage_info (replicate 13 (mk_display_data 0 0 0 0 0))
  = Ok (SR_OK,
        [layout_display (rd ([0x10; 0x27; 0x00; 0x0a; 0x00] ++ replicate 59 0)) 0]
        ++ replicate 12 (mk_display_data 0 0 0 0 0)).
Proof.
  exact (proj1 (dec_read_storage_entries
                  {| Rs.data := [0x10; 0x27; 0x00; 0x0a; 0x00] ++ replicate 59 0;
                     Rs.data_length := 5 |}
                  mem_storage_info (replicate 13 (mk_display_data 0 0 0 0 0))
                  eq_refl eq_refl ltac:(split; apply Z.leb_le; reflexivity))
           eq_refl ltac:(vm_compute; lia)).
Defined.

End PagingFacts.

(** ** The earlier frame codec *)

Module LegacyCodecFacts.
Import Sr AppaDmm Spec Framing Vectors.
Import Legacy.

Lemma frame_checksum_spec (a : list Z) (n : nat) :
  (n <= List.length a)%nat ->
  appadmm_frame_checksum a (Z.of_nat n) = checksum (take n a).
Proof.
  intros H. unfold appadmm_frame_checksum, checksum. rewrite Nat2Z.id.
  rewrite FramerFacts.checksum_loop_sum by (unfold is_u8; lia).
  reflexivity.
Qed.

(** X12: What [appadmm_send] does with a frame: for the five commands
    without request payload the bytes written are the start bytes, the
    command, a zero length and the checksum of these four bytes, a frame
    valid in the sense of the specification; for any other command
    nothing is written and the result is [SR_ERR_DATA]. *)
Theorem legacy_send_wire_image (buf : list Z) (len : Z) (line : list Z)
    (arg_frame : appadmm_frame_s) :
  List.length buf = 69%nat ->
  appadmm_send buf len line arg_frame =
  if one_of [APPADMM_COMMAND_READ_INFORMATION; APPADMM_COMMAND_READ_DISPLAY;
             APPADMM_COMMAND_READ_PROTOCOL_VERSION;
             APPADMM_COMMAND_READ_BATTERY_LIFE; APPADMM_COMMAND_CAL_READING]
       (command arg_frame)
  then (line ++ valid_frame (command arg_frame) [], SR_OK)
  else (line, SR_ERR_DATA).
Proof.
  intros Hbuf.
  destruct buf as [|b0 [|b1 [|b2 [|b3 [|b4 buf]]]]]; try discriminate Hbuf.
  destruct arg_frame as [c r]. cbn [command].
  destruct (one_of _ c) eqn:Hone.
  - unfold one_of in Hone. cbn [existsb] in Hone.
    repeat (apply orb_true_iff in Hone; destruct Hone as [Hone|Hone];
            [apply Z.eqb_eq in Hone; subst c; vm_compute; reflexivity|]).
    discriminate Hone.
  - unfold appadmm_send, appadmm_frame_encode. cbn [command].
    rewrite Hone.
    destruct (appadmm_frame_request_size c <? 0); [reflexivity|].
    destruct (_ >? APPADMM_FRAME_MAX_SIZE); [reflexivity|].
    reflexivity.
Qed.

Lemma legacy_send_wire_image_witness :
  appadmm_send (replicate 69 0) 0 []
    {| command := APPADMM_COMMAND_READ_DISPLAY;
       response := read_protocol_version 0 0 0 |}
  = ([] ++ valid_frame APPADMM_COMMAND_READ_DISPLAY [], SR_OK).
Proof.
  apply (legacy_send_wire_image (replicate 69 0) 0 []
           {| command := APPADMM_COMMAND_READ_DISPLAY;
              response := read_protocol_version 0 0 0 |}).
  reflexivity.
Defined.

(** *** Decoding *)

Lemma read_chars_cursor (n : nat) : forall ltr dst mem p,
  snd (read_chars n ltr dst mem p) = p + Z.of_nat n.
Proof.
  induction n as [|n IH]; intros ltr dst mem p.
  - cbn. lia.
  - cbn [read_chars]. unfold rbind, read_u8_inc. rewrite IH. lia.
Qed.

Lemma decode_read_information_cursor mem p :
  exists r, appadmm_frame_decode_read_information mem p = ((SR_OK, r), p + 52).
Proof.
  unfold appadmm_frame_decode_read_information.
  unfold rbind at 1.
  destruct (read_chars 32 0 (replicate 32 0) mem p) as [m p1] eqn:H1.
  pose proof (read_chars_cursor 32 0 (replicate 32 0) mem p) as C1.
  rewrite H1 in C1. cbn [snd] in C1.
  unfold rbind at 1.
  destruct (read_chars 16 0 (replicate 16 0) mem p1) as [sn p2] eqn:H2.
  pose proof (read_chars_cursor 16 0 (replicate 16 0) mem p1) as C2.
  rewrite H2 in C2. cbn [snd] in C2.
  unfold rbind, read_u16le_inc, rret.
  eexists. f_equal. lia.
Qed.

Lemma decode_read_display_layout mem p :
  bytes mem ->
  appadmm_frame_decode_read_display mem p
  = ((SR_OK, layout_read_display (fun i => rd mem (p + i))), p + 12).
Proof.
  intros Hm. unfold appadmm_frame_decode_read_display.
  unfold rbind, rret, read_u8_inc.
  rewrite !CodecFacts.read_display_data_spec by assumption.
  unfold layout_read_display, layout_display.
  rewrite !CodecFacts.land_0x7f.
  rewrite !(CodecFacts.shiftr_bits _ 7 1)
    by (try apply CodecFacts.rd_bytes; auto; lia).
  rewrite Z.add_0_r.
  replace (p + 1 + 1 + 5 + 5) with (p + 12) by lia.
  replace (p + 1 + 1 + 5 + 1) with (p + (7 + 1)) by lia.
  replace (p + 1 + 1 + 5 + 2) with (p + (7 + 2)) by lia.
  replace (p + 1 + 1 + 5 + 3) with (p + (7 + 3)) by lia.
  replace (p + 1 + 1 + 5 + 4) with (p + (7 + 4)) by lia.
  replace (p + 1 + 1 + 5) with (p + 7) by lia.
  replace (p + 1 + 1 + 1) with (p + (2 + 1)) by lia.
  replace (p + 1 + 1 + 2) with (p + (2 + 2)) by lia.
  replace (p + 1 + 1 + 3) with (p + (2 + 3)) by lia.
  replace (p + 1 + 1 + 4) with (p + (2 + 4)) by lia.
  replace (p + 1 + 1) with (p + 2) by lia.
  reflexivity.
Qed.

Lemma decode_read_protocol_version_cursor mem p :
  exists r, appadmm_frame_decode_read_protocol_version mem p = ((SR_OK, r), p + 4).
Proof.
  unfold appadmm_frame_decode_read_protocol_version, rbind, rret,
    read_u16le_inc, read_u8_inc.
  eexists. f_equal. lia.
Qed.

Lemma rd_frame_header (c : Z) (P : list Z) (cs : Z) :
  rd (frame c P cs) 0 = 0x55 /\ rd (frame c P cs) 1 = 0x55
  /\ rd (frame c P cs) 2 = c
  /\ rd (frame c P cs) 3 = Z.of_nat (List.length P).
Proof. repeat split. Qed.

Lemma rd_frame_payload (c : Z) (P : list Z) (cs : Z) (i : Z) :
  0 <= i < Z.of_nat (List.length P) ->
  rd (frame c P cs) (4 + i) = rd P i.
Proof.
  intros Hi. unfold frame, rd.
  rewrite lookup_app_r by (cbn; lia).
  replace (Z.to_nat (4 + i) - List.length (header c P))%nat
    with (Z.to_nat i) by (cbn; lia).
  rewrite lookup_app_l by lia. reflexivity.
Qed.

Lemma rd_frame_trailer (c : Z) (P : list Z) (cs : Z) :
  rd (frame c P cs) (4 + Z.of_nat (List.length P)) = cs.
Proof.
  unfold frame, rd.
  rewrite lookup_app_r by (cbn; lia).
  replace (Z.to_nat (4 + Z.of_nat (List.length P)) - List.length (header c P))%nat
    with (List.length P) by (cbn; lia).
  rewrite lookup_app_r by lia. rewrite Nat.sub_diag. reflexivity.
Qed.

Lemma length_frame (c : Z) (P : list Z) (cs : Z) :
  List.length (frame c P cs) = (List.length P + 5)%nat.
Proof. unfold frame, header. cbn [app List.length]. rewrite length_app. cbn. lia. Qed.

Lemma frame_checksum_frame (c : Z) (P : list Z) (cs : Z) :
  appadmm_frame_checksum (frame c P cs)
    (Z.of_nat (List.length P) + APPADMM_FRAME_HEADER_SIZE)
  = checksum (header c P ++ P).
Proof.
  unfold APPADMM_FRAME_HEADER_SIZE.
  replace (Z.of_nat (List.length P) + 4) with (Z.of_nat (4 + List.length P)) by lia.
  rewrite frame_checksum_spec by (rewrite length_frame; lia).
  f_equal. unfold frame. rewrite app_assoc.
  apply take_app_length'. rewrite length_app. reflexivity.
Qed.

(** The return code of the frame decoder on a complete frame. *)
Lemma frame_decode_code (c : Z) (P : list Z) (cs : Z) (frame0 : appadmm_frame_s) :
  fst (appadmm_frame_decode (frame c P cs)
         (Z.of_nat (List.length (frame c P cs))) frame0)
  = if ((c =? APPADMM_COMMAND_READ_INFORMATION)
        || (c =? APPADMM_COMMAND_READ_DISPLAY)
        || (c =? APPADMM_COMMAND_READ_PROTOCOL_VERSION))
       && (Z.of_nat (List.length P) =? appadmm_frame_response_size c)
       && (cs =? checksum (header c P ++ P))
    then SR_OK else SR_ERR_DATA.
Proof.
  unfold appadmm_frame_decode.
  destruct (rd_frame_header c P cs) as (H0 & H1 & H2 & H3).
  unfold read_u16le_inc at 1. rewrite H0.
  change (0 + 1) with 1. rewrite H1.
  change (negb (Z.lor 85 (Z.shiftl 85 8) =? APPADMM_FRAME_START_VALUE)) with false.
  cbv iota.
  unfold read_u8_inc at 1. change (0 + 2) with 2. rewrite H2.
  unfold read_u8_inc at 1. change (2 + 1) with 3. rewrite H3.
  change (3 + 1) with 4.
  rewrite length_frame.
  unfold APPADMM_FRAME_CHECKSUM_SIZE.
  destruct (Z.gtb_spec (Z.of_nat (List.length P) + APPADMM_FRAME_HEADER_SIZE + 1)
              (Z.of_nat (List.length P + 5))) as [Hgt|_];
    [unfold APPADMM_FRAME_HEADER_SIZE in Hgt; lia|].
  unfold decode_response, appadmm_frame_response_size.
  destruct (Z.eqb_spec c APPADMM_COMMAND_READ_INFORMATION) as [->|Hc0].
  - cbn [orb andb].
    change (appadmm_get_response_size APPADMM_COMMAND_READ_INFORMATION) with 52.
    unfold APPADMM_FRAME_DATA_SIZE_RESPONSE_READ_INFORMATION.
    destruct (Z.eqb_spec (Z.of_nat (List.length P)) 52) as [HL|HL];
      cbn [negb andb]; [|reflexivity].
    destruct (decode_read_information_cursor
                (frame APPADMM_COMMAND_READ_INFORMATION P cs) 4) as [r Hr].
    rewrite Hr. change (SR_OK <? SR_OK) with false. cbv iota.
    unfold read_u8_inc.
    replace (4 + 52) with (4 + Z.of_nat (List.length P)) by lia.
    rewrite rd_frame_trailer, frame_checksum_frame.
    destruct (cs =? _); reflexivity.
  - destruct (Z.eqb_spec c APPADMM_COMMAND_READ_DISPLAY) as [->|Hc1].
    + cbn [orb andb].
      change (appadmm_get_response_size APPADMM_COMMAND_READ_DISPLAY) with 12.
      unfold APPADMM_FRAME_DATA_SIZE_RESPONSE_READ_DISPLAY.
      destruct (Z.eqb_spec (Z.of_nat (List.length P)) 12) as [HL|HL];
        cbn [negb andb]; [|reflexivity].
      assert (Hr : exists r,
                 appadmm_frame_decode_read_display
                   (frame APPADMM_COMMAND_READ_DISPLAY P cs) 4
                 = ((SR_OK, r), 4 + 12)).
      { unfold appadmm_frame_decode_read_display, rbind, rret, read_u8_inc,
          read_display_data, read_i24le_inc.
        eexists. f_equal. }
      destruct Hr as [r Hr]. rewrite Hr.
      change (SR_OK <? SR_OK) with false. cbv iota.
      unfold read_u8_inc.
      replace (4 + 12) with (4 + Z.of_nat (List.length P)) by lia.
      rewrite rd_frame_trailer, frame_checksum_frame.
      destruct (cs =? _); reflexivity.
    + destruct (Z.eqb_spec c APPADMM_COMMAND_READ_PROTOCOL_VERSION) as [->|Hc3].
      * cbn [orb andb].
        change (appadmm_get_response_size APPADMM_COMMAND_READ_PROTOCOL_VERSION)
          with 4.
        unfold APPADMM_FRAME_DATA_SIZE_RESPONSE_READ_PROTOCOL_VERSION.
        destruct (Z.eqb_spec (Z.of_nat (List.length P)) 4) as [HL|HL];
          cbn [negb andb]; [|reflexivity].
        destruct (decode_read_protocol_version_cursor
                    (frame APPADMM_COMMAND_READ_PROTOCOL_VERSION P cs) 4) as [r Hr].
        rewrite Hr. change (SR_OK <? SR_OK) with false. cbv iota.
        unfold read_u8_inc.
        replace (4 + 4) with (4 + Z.of_nat (List.length P)) by lia.
        rewrite rd_frame_trailer, frame_checksum_frame.
        destruct (cs =? _); reflexivity.
      * reflexivity.
Qed.


Lemma bytes_app_l (a b : list Z) : bytes (a ++ b) -> bytes a.
Proof.
  unfold bytes. rewrite forallb_app. intros H.
  apply andb_true_iff in H. tauto.
Qed.

Lemma bytes_app_r (a b : list Z) : bytes (a ++ b) -> bytes b.
Proof.
  unfold bytes. rewrite forallb_app. intros H.
  apply andb_true_iff in H. tauto.
Qed.

(** A Read Display frame with the right checksum decodes to the display
    layout of its payload. *)
Lemma frame_decode_display (P : list Z) (frame0 : appadmm_frame_s) :
  bytes P -> List.length P = 12%nat ->
  appadmm_frame_decode (valid_frame APPADMM_COMMAND_READ_DISPLAY P) 17 frame0
  = (SR_OK, {| command := APPADMM_COMMAND_READ_DISPLAY;
               response := read_display (layout_read_display (rd P)) |}).
Proof.
  intros Hb HL. unfold valid_frame.
  set (cs := checksum (header APPADMM_COMMAND_READ_DISPLAY P ++ P)).
  assert (Hbf : bytes (frame APPADMM_COMMAND_READ_DISPLAY P cs)).
  { unfold frame, bytes. rewrite !forallb_app. fold (bytes P). rewrite Hb.
    unfold header. rewrite HL. cbn [forallb andb].
    assert (Hcs : is_u8b cs = true).
    { apply CodecFacts.is_u8b_spec. subst cs. unfold checksum, is_u8.
      apply Z.mod_pos_bound. lia. }
    rewrite Hcs. reflexivity. }
  unfold appadmm_frame_decode.
  destruct (rd_frame_header APPADMM_COMMAND_READ_DISPLAY P cs) as (H0 & H1 & H2 & H3).
  unfold read_u16le_inc at 1. rewrite H0.
  change (0 + 1) with 1. rewrite H1.
  change (negb (Z.lor 85 (Z.shiftl 85 8) =? APPADMM_FRAME_START_VALUE)) with false.
  cbv iota.
  unfold read_u8_inc at 1. change (0 + 2) with 2. rewrite H2.
  unfold read_u8_inc at 1. change (2 + 1) with 3. rewrite H3.
  change (3 + 1) with 4. rewrite HL.
  change (Z.of_nat 12 + APPADMM_FRAME_HEADER_SIZE + APPADMM_FRAME_CHECKSUM_SIZE >? 17)
    with false. cbv iota.
  unfold decode_response.
  change (APPADMM_COMMAND_READ_DISPLAY =? APPADMM_COMMAND_READ_INFORMATION) with false.
  change (APPADMM_COMMAND_READ_DISPLAY =? APPADMM_COMMAND_READ_DISPLAY) with true.
  change (negb (Z.of_nat 12 =? APPADMM_FRAME_DATA_SIZE_RESPONSE_READ_DISPLAY))
    with false.
  cbv iota.
  rewrite decode_read_display_layout by exact Hbf.
  change (SR_OK <? SR_OK) with false. cbv iota.
  unfold read_u8_inc.
  replace (4 + 12) with (4 + Z.of_nat (List.length P)) by lia.
  rewrite rd_frame_trailer.
  replace (Z.of_nat 12) with (Z.of_nat (List.length P)) by (rewrite HL; reflexivity).
  rewrite frame_checksum_frame.
  fold cs. rewrite Z.eqb_refl. cbn [negb].
  do 3 f_equal.
  unfold layout_read_display, layout_display.
  rewrite !rd_frame_payload by lia.
  reflexivity.
Qed.

(** X13: The frame decoder accepts a complete frame exactly when its command
    is Read Information, Read Display or Read Protocol Version, its
    length byte is the response size of that command, and its trailing
    byte is the checksum of all the bytes before it; everything else is
    a data error.  An accepted Read Display frame yields the display
    layout of its payload. *)
Theorem legacy_frame_decode (c : Z) (P : list Z) (cs : Z)
    (frame0 : appadmm_frame_s) :
  bytes P ->
  let r := appadmm_frame_decode (frame c P cs)
             (Z.of_nat (List.length (frame c P cs))) frame0 in
  (fst r = SR_OK <->
     (c = APPADMM_COMMAND_READ_INFORMATION \/ c = APPADMM_COMMAND_READ_DISPLAY
      \/ c = APPADMM_COMMAND_READ_PROTOCOL_VERSION)
     /\ Z.of_nat (List.length P) = appadmm_frame_response_size c
     /\ cs = checksum (header c P ++ P))
  /\ (fst r = SR_OK \/ fst r = SR_ERR_DATA)
  /\ (fst r = SR_OK -> c = APPADMM_COMMAND_READ_DISPLAY ->
      snd r = {| command := APPADMM_COMMAND_READ_DISPLAY;
                 response := read_display (layout_read_display (rd P)) |}).
Proof.
  intros Hb r.
  assert (Hcode := frame_decode_code c P cs frame0). fold r in Hcode.
  split; [|split].
  - rewrite Hcode.
    destruct (Z.eqb_spec c APPADMM_COMMAND_READ_INFORMATION);
      destruct (Z.eqb_spec c APPADMM_COMMAND_READ_DISPLAY);
      destruct (Z.eqb_spec c APPADMM_COMMAND_READ_PROTOCOL_VERSION);
      destruct (Z.eqb_spec (Z.of_nat (List.length P))
                  (appadmm_frame_response_size c));
      destruct (Z.eqb_spec cs (checksum (header c P ++ P)));
      cbn [orb andb]; unfold SR_OK, SR_ERR_DATA; split; intros H;
      try discriminate H; try reflexivity; tauto.
  - rewrite Hcode. destruct (_ && _); auto.
  - intros Hok ->.
    rewrite Hcode in Hok.
    change (appadmm_frame_response_size APPADMM_COMMAND_READ_DISPLAY) with 12 in Hok.
    cbn [Z.eqb orb andb] in Hok.
    change (APPADMM_COMMAND_READ_DISPLAY =? APPADMM_COMMAND_READ_INFORMATION)
      with false in Hok.
    change (APPADMM_COMMAND_READ_DISPLAY =? APPADMM_COMMAND_READ_DISPLAY)
      with true in Hok.
    cbn [orb andb] in Hok.
    destruct (Z.eqb_spec (Z.of_nat (List.length P)) 12) as [HL|];
      [|discriminate Hok].
    destruct (Z.eqb_spec cs (checksum (header APPADMM_COMMAND_READ_DISPLAY P ++ P)))
      as [Hcs|]; [|discriminate Hok].
    subst r. rewrite length_frame.
    replace (Z.of_nat (List.length P + 5)) with 17 by lia.
    rewrite Hcs. fold (valid_frame APPADMM_COMMAND_READ_DISPLAY P).
    rewrite frame_decode_display by (try exact Hb; lia). reflexivity.
Qed.

Lemma legacy_frame_decode_witness :
  let r := appadmm_frame_decode (frame 3 [1; 2; 3; 4] 0xbb)
             (Z.of_nat (List.length (frame 3 [1; 2; 3; 4] 0xbb)))
             {| command := 0; response := read_protocol_version 0 0 0 |} in
  (fst r = SR_OK <->
     (3 = APPADMM_COMMAND_READ_INFORMATION \/ 3 = APPADMM_COMMAND_READ_DISPLAY
      \/ 3 = APPADMM_COMMAND_READ_PROTOCOL_VERSION)
     /\ Z.of_nat (List.length [1; 2; 3; 4]) = appadmm_frame_response_size 3
     /\ 0xbb = checksum (header 3 [1; 2; 3; 4] ++ [1; 2; 3; 4]))
  /\ (fst r = SR_OK \/ fst r = SR_ERR_DATA)
  /\ (fst r = SR_OK -> 3 = APPADMM_COMMAND_READ_DISPLAY ->
      snd r = {| command := APPADMM_COMMAND_READ_DISPLAY;
                 response := read_display (layout_read_display (rd [1; 2; 3; 4])) |}).
Proof.
  apply (legacy_frame_decode 3 [1; 2; 3; 4] 0xbb
           {| command := 0; response := read_protocol_version 0 0 0 |}).
  reflexivity.
Defined.

(** X14: Reception and decoding together: a Read Display frame with the
    right checksum, cut into reads at any places, is handed over once,
    the buffer is empty afterwards, and the frame decodes to the display
    layout of its payload. *)
Theorem legacy_receives_and_decodes (chunks : list (list Z))
    (d : appadmm_context) (P : list Z) (frame0 : appadmm_frame_s) :
  lempty d -> bytes P -> List.length P = 12%nat ->
  concat chunks = valid_frame APPADMM_COMMAND_READ_DISPLAY P ->
  exists d',
    lempty d'
    /\ receive_calls d chunks = (d', [valid_frame APPADMM_COMMAND_READ_DISPLAY P])
    /\ appadmm_frame_decode (valid_frame APPADMM_COMMAND_READ_DISPLAY P)
         (Z.of_nat (List.length (valid_frame APPADMM_COMMAND_READ_DISPLAY P)))
         frame0
       = (SR_OK, {| command := APPADMM_COMMAND_READ_DISPLAY;
                    response := read_display (layout_read_display (rd P)) |}).
Proof.
  intros He Hb HL Hcat.
  rewrite LegacyFacts.receive_calls_concat, Hcat.
  unfold valid_frame at 1.
  destruct (LegacyFacts.legacy_receive_loop_frame d APPADMM_COMMAND_READ_DISPLAY P
              (checksum (header APPADMM_COMMAND_READ_DISPLAY P ++ P)) [] He)
    as (d' & He' & Hloop).
  { rewrite HL. reflexivity. }
  rewrite app_nil_r in Hloop. rewrite Hloop. cbn [receive_loop].
  exists d'. split; [exact He'|]. split; [reflexivity|].
  assert (Hlen : Z.of_nat (List.length (valid_frame APPADMM_COMMAND_READ_DISPLAY P))
                 = 17)
    by (unfold valid_frame; rewrite length_frame, HL; reflexivity).
  rewrite Hlen. apply frame_decode_display; assumption.
Qed.

Lemma legacy_receives_and_decodes_witness :
  exists d',
    lempty d'
    /\ receive_calls context0
         [[0x55; 0x55; 0x01]; [0x0c; 1; 2; 3; 4; 5; 6; 7]; [8; 9; 10; 11; 12; 5]]
       = (d', [valid_frame APPADMM_COMMAND_READ_DISPLAY
                 [1; 2; 3; 4; 5; 6; 7; 8; 9; 10; 11; 12]])
    /\ appadmm_frame_decode
         (valid_frame APPADMM_COMMAND_READ_DISPLAY
            [1; 2; 3; 4; 5; 6; 7; 8; 9; 10; 11; 12])
         (Z.of_nat (List.length
                      (valid_frame APPADMM_COMMAND_READ_DISPLAY
                         [1; 2; 3; 4; 5; 6; 7; 8; 9; 10; 11; 12])))
         {| command := 0; response := read_protocol_version 0 0 0 |}
       = (SR_OK, {| command := APPADMM_COMMAND_READ_DISPLAY;
                    response :=
                      read_display
                        (layout_read_display
                           (rd [1; 2; 3; 4; 5; 6; 7; 8; 9; 10; 11; 12])) |}).
Proof.
  apply (legacy_receives_and_decodes
           [[0x55; 0x55; 0x01]; [0x0c; 1; 2; 3; 4; 5; 6; 7]; [8; 9; 10; 11; 12; 5]]
           context0 [1; 2; 3; 4; 5; 6; 7; 8; 9; 10; 11; 12]
           {| command := 0; response := read_protocol_version 0 0 0 |}).
  - split; reflexivity.
  - reflexivity.
  - reflexivity.
  - reflexivity.
Defined.

End LegacyCodecFacts.
